(** * A shallow embedding of [code_analyzer.py]

    The analyzer is a single Python class, [CodeAnalyzer], whose methods
    mutate the fields of one object and print diagnostics.  The embedding
    follows that shape:

    - [Py]: the string and list primitives of Python the methods call
      ([find], [count], slices with negative bounds, [lstrip],
      [splitlines], ...), on [string] and [Z];
    - [Re]: a backtracking matcher for the fragment of [re] the three
      patterns of the source use, with named groups;
    - [Ast]: the part of the syntax tree the tree pass reads;
    - [Analyzer]: the object's fields as a record, the methods as
      computations in a state-and-exception monad, in the order of the
      source.

    Characters are code points below 256 ([ascii]); a file's content is
    the text as [open(path)] in text mode hands it over (line ends
    already translated to a line feed).  The parser [ast.parse], the
    file reads and [scandir] belong to the Python runtime and are
    variables of the section the methods live in. *)

From Stdlib Require Import ZArith List String Ascii Bool Lia DecimalString Sorted
  Permutation.
Import ListNotations.

Set Warnings "-register-all".

Local Open Scope string_scope.
Local Open Scope Z_scope.

(* ===================================================================== *)
(** * Python primitives *)
(* ===================================================================== *)

Module Py.

Definition code (c : ascii) : Z := Z.of_nat (nat_of_ascii c).

Definition in_range (lo hi : Z) (c : ascii) : bool :=
  (lo <=? code c) && (code c <=? hi).

(** [len(s)] *)
Definition len (s : string) : Z := Z.of_nat (String.length s).

(** [c in s], for a one-character [c] *)
Fixpoint contains (c : ascii) (s : string) : bool :=
  match s with
  | EmptyString => false
  | String a s' => if Ascii.eqb a c then true else contains c s'
  end.

(** [s.count(c)], for a one-character [c] *)
Fixpoint count (c : ascii) (s : string) : Z :=
  match s with
  | EmptyString => 0
  | String a s' => (if Ascii.eqb a c then 1 else 0) + count c s'
  end.

Fixpoint drop (n : nat) (s : string) : string :=
  match n, s with
  | O, _ => s
  | S n', String _ s' => drop n' s'
  | S _, EmptyString => EmptyString
  end.

Fixpoint take (n : nat) (s : string) : string :=
  match n, s with
  | S n', String a s' => String a (take n' s')
  | _, _ => EmptyString
  end.

(** How Python turns a slice bound into a position of [0 .. len]:
    a negative bound counts from the end, and both ends are clipped. *)
Definition clip (l : Z) (i : Z) : Z :=
  if i <? 0 then Z.max (i + l) 0 else Z.min i l.

(** [s[a:b]]; [None] is an omitted bound. *)
Definition slice (s : string) (a b : option Z) : string :=
  let l := len s in
  let lo := match a with Some i => clip l i | None => 0 end in
  let hi := match b with Some j => clip l j | None => l end in
  take (Z.to_nat (hi - lo)) (drop (Z.to_nat lo) s).

(** The first position of [c] in [s], where [s] starts at position [i]
    of the whole string; [-1] when there is none. *)
Fixpoint find_at (c : ascii) (s : string) (i : Z) : Z :=
  match s with
  | EmptyString => -1
  | String a s' => if Ascii.eqb a c then i else find_at c s' (i + 1)
  end.

(** [s.find(c, start)], for a one-character [c] *)
Definition find (s : string) (c : ascii) (start : Z) : Z :=
  let lo := clip (len s) start in
  if len s <? start then -1 else find_at c (drop (Z.to_nat lo) s) lo.

(** [s.startswith(p)] and [s.endswith(p)] *)
Definition startswith (s p : string) : bool := String.prefix p s.

Definition endswith (s p : string) : bool :=
  (String.length p <=? String.length s)%nat
  && String.eqb (drop (String.length s - String.length p) s) p.

(** [str.isspace] on one character: the white space of Python's
    Unicode tables below 256. *)
Definition isspace (c : ascii) : bool :=
  in_range 9 13 c || in_range 28 32 c
  || (code c =? 133) || (code c =? 160).

(** [s.lstrip()] *)
Fixpoint lstrip (s : string) : string :=
  match s with
  | EmptyString => EmptyString
  | String a s' => if isspace a then lstrip s' else s
  end.

(** [s.casefold()]: on the letters [A-Z]; no other character below 256
    folds to a string holding a [t], an [o] or a [d], the only letters
    the analyzer looks for in a folded string. *)
Definition fold_char (c : ascii) : ascii :=
  if in_range 65 90 c then ascii_of_nat (nat_of_ascii c + 32) else c.

Fixpoint casefold (s : string) : string :=
  match s with
  | EmptyString => EmptyString
  | String a s' => String (fold_char a) (casefold s')
  end.

(** [sub in s] *)
Fixpoint has_substring (sub s : string) : bool :=
  if String.prefix sub s then true
  else match s with
       | EmptyString => false
       | String _ s' => has_substring sub s'
       end.

(** The line boundaries of [str.splitlines] below 256: line feed,
    vertical tab, form feed, carriage return, the three separators
    28 to 30 and next-line 133.  A carriage return followed by a line
    feed is one boundary. *)
Definition is_linebreak (c : ascii) : bool :=
  in_range 10 13 c || in_range 28 30 c || (code c =? 133).

Definition push_front (c : ascii) (ls : list string) : list string :=
  match ls with
  | [] => [String c EmptyString]
  | l :: ls' => String c l :: ls'
  end.

(** [s.splitlines(keepends=True)] *)
Fixpoint splitlines (s : string) : list string :=
  match s with
  | EmptyString => []
  | String c s' =>
      if is_linebreak c then
        if (code c =? 13) && startswith s' (String "010" EmptyString)
        then push_front c (splitlines s')
        else String c EmptyString :: splitlines s'
      else push_front c (splitlines s')
  end.

(** The lines a text-mode file object yields when iterated: cut after
    every line feed, the line feed kept. *)
Fixpoint readlines (s : string) : list string :=
  match s with
  | EmptyString => []
  | String c s' =>
      if code c =? 10 then String c EmptyString :: readlines s'
      else push_front c (readlines s')
  end.

(** [''.join(ls)] *)
Definition join (ls : list string) : string :=
  fold_right String.append EmptyString ls.

(** [l[i]] on a list: a negative index counts from the end; [None]
    stands for [IndexError]. *)
Definition getitem {A} (l : list A) (i : Z) : option A :=
  let n := Z.of_nat (List.length l) in
  if i <? 0
  then (if i + n <? 0 then None else nth_error l (Z.to_nat (i + n)))
  else nth_error l (Z.to_nat i).

(** [l[i] = v], at an index [getitem] accepts *)
Fixpoint set_nth {A} (l : list A) (n : nat) (v : A) : list A :=
  match l, n with
  | [], _ => []
  | _ :: l', O => v :: l'
  | a :: l', S n' => a :: set_nth l' n' v
  end.

Definition setitem {A} (l : list A) (i : Z) (v : A) : list A :=
  let n := Z.of_nat (List.length l) in
  set_nth l (Z.to_nat (if i <? 0 then i + n else i)) v.

(** [str(n)] for an integer *)
Definition str (n : Z) : string := NilZero.string_of_int (Z.to_int n).

(** The order of [str] under [<]: by code point, a proper prefix
    first. *)
Fixpoint str_le (a b : string) : bool :=
  match a, b with
  | EmptyString, _ => true
  | String _ _, EmptyString => false
  | String x a', String y b' =>
      if code x <? code y then true
      else if code y <? code x then false
      else str_le a' b'
  end.

(** [sorted(l, key=...)], a stable sort, as insertion from the right:
    an element goes before the first one whose key is not smaller,
    so equal keys keep their order. *)
Section Sorted.
Context {A : Type} (le : A -> A -> bool).

Fixpoint insert (x : A) (l : list A) : list A :=
  match l with
  | [] => [x]
  | y :: l' => if le x y then x :: l else y :: insert x l'
  end.

Definition sorted (l : list A) : list A := fold_right insert [] l.
End Sorted.

End Py.

(* ===================================================================== *)
(** * The fragment of [re] the analyzer uses *)
(* ===================================================================== *)

Module Re.

(** A pattern: one character of a class, concatenation, alternation,
    a counted repetition (greedy or lazy, [None] for no upper bound)
    and a named group. *)
Inductive regex : Type :=
| Eps
| Cls (p : ascii -> bool)
| Cat (r1 r2 : regex)
| Alt (r1 r2 : regex)
| Rep (r : regex) (lo : nat) (hi : option nat) (greedy : bool)
| Grp (name : string) (r : regex).

(** The groups of a match, the last binding of a name first. *)
Definition groups := list (string * string).

Fixpoint group (g : groups) (name : string) : string :=
  match g with
  | [] => EmptyString
  | (n, v) :: g' => if String.eqb n name then v else group g' name
  end.

Definition below (hi : option nat) (n : nat) : bool :=
  match hi with
  | None => true
  | Some h => (n <? h)%nat
  end.

Definition orelse {A} (a : option A) (b : unit -> option A) : option A :=
  match a with
  | Some x => Some x
  | None => b tt
  end.

(** The text between two positions of the input, each given by what
    is left of the input there. *)
Definition consumed (before after : string) : string :=
  Py.take (String.length before - String.length after) before.

(** Backtracking in the order [re] tries the alternatives: the first
    branch of an alternation first, one more round of a greedy
    repetition before leaving it, leaving a lazy one before one more
    round.  [k] is the rest of the pattern.  A round of a repetition
    that consumes nothing is not taken. *)
Fixpoint run (r : regex) (s : string) (g : groups)
         (k : string -> groups -> option groups) {struct r}
  : option groups :=
  match r with
  | Eps => k s g
  | Cls p =>
      match s with
      | String c s' => if p c then k s' g else None
      | EmptyString => None
      end
  | Cat r1 r2 => run r1 s g (fun s1 g1 => run r2 s1 g1 k)
  | Alt r1 r2 => orelse (run r1 s g k) (fun _ => run r2 s g k)
  | Grp name r1 =>
      run r1 s g (fun s1 g1 => k s1 ((name, consumed s s1) :: g1))
  | Rep r1 lo hi greedy =>
      (fix rounds (fuel n : nat) (s : string) (g : groups)
         : option groups :=
         let leave := fun _ : unit =>
           if (lo <=? n)%nat then k s g else None in
         let again := fun _ : unit =>
           match fuel with
           | O => None
           | S fuel' =>
               if below hi n
               then run r1 s g (fun s1 g1 =>
                      if (String.length s1 <? String.length s)%nat
                      then rounds fuel' (S n) s1 g1 else None)
               else None
           end in
         if greedy then orelse (again tt) leave
         else orelse (leave tt) again)
        (String.length s) O s g
  end.

(** [re.match(r, s)]: the pattern at the start of [s]; what follows
    the match is free. *)
Definition rmatch (r : regex) (s : string) : option groups :=
  run r s [] (fun _ g => Some g).

(** Shorthands in the notation of the patterns. *)
Definition chr (c : ascii) : regex := Cls (Ascii.eqb c).
Definition range (lo hi : Z) : regex := Cls (Py.in_range lo hi).
Definition star (r : regex) : regex := Rep r 0 None true.
Definition plus (r : regex) : regex := Rep r 1 None true.
Definition plus_lazy (r : regex) : regex := Rep r 1 None false.
Definition opt (r : regex) : regex := Rep r 0 (Some 1%nat) true.

Fixpoint lit (s : string) : regex :=
  match s with
  | EmptyString => Eps
  | String c s' => Cat (chr c) (lit s')
  end.

Fixpoint seq (rs : list regex) : regex :=
  match rs with
  | [] => Eps
  | r :: rs' => Cat r (seq rs')
  end.

(** [\s] and [\w] of a [str] pattern, below 256. *)
Definition is_s : ascii -> bool := Py.isspace.

Definition is_w (c : ascii) : bool :=
  Py.in_range 48 57 c || Py.in_range 65 90 c || (Py.code c =? 95)
  || Py.in_range 97 122 c
  || (Py.code c =? 170) || Py.in_range 178 179 c || (Py.code c =? 181)
  || Py.in_range 185 186 c || Py.in_range 188 190 c
  || Py.in_range 192 214 c || Py.in_range 216 246 c
  || Py.in_range 248 255 c.

Definition upper : regex := range 65 90.
Definition lower : regex := range 97 122.
Definition digit : regex := range 48 57.

End Re.

(* ===================================================================== *)
(** * The syntax tree, as far as the analyzer reads it *)
(* ===================================================================== *)

Module Ast.

(** The classes of node the checks tell apart by [isinstance] or by
    the attribute they read; every other expression is [Expr]. *)
Inductive kind : Type :=
| Name (id : string)
| Tuple
| List_
| Dict
| Set_
| Arg (arg : string)
| Expr.

(** A node below a statement, with its [lineno] and its child nodes
    in the order of [ast.iter_child_nodes] (the elements of a tuple or
    of a display, the annotation of an [arg], the parameters and the
    body of a lambda, ...). *)
Inductive node : Type :=
| Node (k : kind) (lineno : Z) (children : list node).

Definition node_kind (n : node) : kind :=
  match n with Node k _ _ => k end.
Definition lineno (n : node) : Z :=
  match n with Node _ l _ => l end.
Definition children (n : node) : list node :=
  match n with Node _ _ cs => cs end.

(** [ast.arguments], its fields in the order of [_fields]; a
    keyword-only parameter without a default has [None] in
    [kw_defaults]. *)
Record arguments : Type := Arguments {
  posonlyargs : list node;
  args : list node;
  vararg : option node;
  kwonlyargs : list node;
  kw_defaults : list (option node);
  kwarg : option node;
  defaults : list node
}.

(** Statements.  [FunctionDef] keeps the two fields the visitor reads;
    [Assign] has [targets], [AnnAssign] has the single [target];
    [Block] is any other node of the tree that holds statements (a
    class, a conditional, a loop, a [try], an [async def], ...), with
    the statements below it in document order.  Expressions outside a
    routine's parameters and targets are left out: no routine
    definition lies inside an expression. *)
Inductive stmt : Type :=
| FunctionDef (name : string) (a : arguments) (body : list stmt)
| Assign (targets : list node)
| AnnAssign (target : node)
| Block (body : list stmt).

(** [ast.Module] *)
Definition module := list stmt.

Definition opt_list {A} (o : option A) : list A :=
  match o with Some a => [a] | None => [] end.

(** [ast.iter_child_nodes] on an [arguments] node: the fields in
    order, lists flattened, [None] skipped. *)
Definition arguments_children (a : arguments) : list node :=
  posonlyargs a ++ args a ++ opt_list (vararg a) ++ kwonlyargs a
  ++ flat_map opt_list (kw_defaults a) ++ opt_list (kwarg a)
  ++ defaults a.

Fixpoint height (n : node) : nat :=
  match n with
  | Node _ _ cs => S (fold_right (fun c h => Nat.max (height c) h) O cs)
  end.

Definition forest_height (ns : list node) : nat :=
  fold_right (fun c h => Nat.max (height c) h) O ns.

(** Breadth first, level after level: the order in which [ast.walk]
    takes nodes from its queue. *)
Fixpoint levels (depth : nat) (level : list node) : list node :=
  match depth with
  | O => []
  | S d => level ++ levels d (flat_map children level)
  end.

(** The nodes [ast.walk(node.args)] yields after the [arguments] node
    itself. *)
Definition walk_arguments (a : arguments) : list node :=
  let roots := arguments_children a in
  levels (forest_height roots) roots.

End Ast.

(* ===================================================================== *)
(** * The analyzer *)
(* ===================================================================== *)

Module Analyzer.

(** ** Diagnostics *)

(** One constructor per text the source prints; the variable-name rule
    has two wordings, one per branch. *)
Inductive rule : Type :=
| S001 | S002 | S003 | S004 | S005 | S006 | S007 | S008 | S009
| S010 | S011 | S011_tuple | S012.

(** A printed line: the path, the line number and the rule, with the
    name the text quotes (empty when it quotes none). *)
Record message : Type := Msg {
  msg_path : string;
  msg_line : Z;
  msg_rule : rule;
  msg_name : string
}.

Definition rule_text (r : rule) (name : string) : string :=
  match r with
  | S001 => "S001 Too long line."
  | S002 => "S002 Indentation is not a multiple of four."
  | S003 => "S003 Unnecessary semicolon after a statement."
  | S004 => "S004 At least two spaces before inline comments required."
  | S005 => "S005 TODO found."
  | S006 => "S006 More than two blank lines used before this line."
  | S007 => "S007 Too many spaces after '" ++ name ++ "'."
  | S008 => "S008 Class name '" ++ name ++ "' should use CamelCase."
  | S009 => "S009 Function name '" ++ name ++ "' should use snake_case."
  | S010 => "S010 Argument name '" ++ name ++ "' should use snake_case."
  | S011 => "S011 Variable '" ++ name ++ "' in function should be snake_case."
  | S011_tuple =>
      "S011 Variable '" ++ name ++ "' in functions should be snake_case."
  | S012 => "S012 Default argument value is mutable."
  end.

(** The text of the f-strings. *)
Definition render (m : message) : string :=
  msg_path m ++ ": Line " ++ Py.str (msg_line m) ++ ": "
  ++ rule_text (msg_rule m) (msg_name m).

(** The rules of the line pass are S001 to S009, those of the tree
    pass S010 to S012. *)
Definition tree_rule (r : rule) : bool :=
  match r with
  | S010 | S011 | S011_tuple | S012 => true
  | _ => false
  end.

(** ** The object *)

(** The fields [__init__] sets, and [stdout], the lines printed so
    far, the latest last. *)
Record analyzer : Type := Self {
  path : string;
  directory_path : string;
  string_ : string;
  line_number : Z;
  match_object : option Re.groups;
  last_3_lines_queue : list string;
  blank_lines_counter : Z;
  hash_index : Z;
  warning_queue : list (Z * message);
  file_list_of_lines : list string;
  file_text : string;
  stdout : list message
}.

(** [CodeAnalyzer()] *)
Definition init : analyzer :=
  {| path := ""; directory_path := ""; string_ := ""; line_number := 1;
     match_object := None; last_3_lines_queue := [];
     blank_lines_counter := 0; hash_index := 0; warning_queue := [];
     file_list_of_lines := []; file_text := ""; stdout := [] |}.

Definition set_path v s :=
  Self v (directory_path s) (string_ s) (line_number s) (match_object s)
       (last_3_lines_queue s) (blank_lines_counter s) (hash_index s)
       (warning_queue s) (file_list_of_lines s) (file_text s) (stdout s).
Definition set_directory_path v s :=
  Self (path s) v (string_ s) (line_number s) (match_object s)
       (last_3_lines_queue s) (blank_lines_counter s) (hash_index s)
       (warning_queue s) (file_list_of_lines s) (file_text s) (stdout s).
Definition set_string v s :=
  Self (path s) (directory_path s) v (line_number s) (match_object s)
       (last_3_lines_queue s) (blank_lines_counter s) (hash_index s)
       (warning_queue s) (file_list_of_lines s) (file_text s) (stdout s).
Definition set_line_number v s :=
  Self (path s) (directory_path s) (string_ s) v (match_object s)
       (last_3_lines_queue s) (blank_lines_counter s) (hash_index s)
       (warning_queue s) (file_list_of_lines s) (file_text s) (stdout s).
Definition set_match_object v s :=
  Self (path s) (directory_path s) (string_ s) (line_number s) v
       (last_3_lines_queue s) (blank_lines_counter s) (hash_index s)
       (warning_queue s) (file_list_of_lines s) (file_text s) (stdout s).
Definition set_last_3_lines_queue v s :=
  Self (path s) (directory_path s) (string_ s) (line_number s)
       (match_object s) v (blank_lines_counter s) (hash_index s)
       (warning_queue s) (file_list_of_lines s) (file_text s) (stdout s).
Definition set_blank_lines_counter v s :=
  Self (path s) (directory_path s) (string_ s) (line_number s)
       (match_object s) (last_3_lines_queue s) v (hash_index s)
       (warning_queue s) (file_list_of_lines s) (file_text s) (stdout s).
Definition set_hash_index v s :=
  Self (path s) (directory_path s) (string_ s) (line_number s)
       (match_object s) (last_3_lines_queue s) (blank_lines_counter s) v
       (warning_queue s) (file_list_of_lines s) (file_text s) (stdout s).
Definition set_warning_queue v s :=
  Self (path s) (directory_path s) (string_ s) (line_number s)
       (match_object s) (last_3_lines_queue s) (blank_lines_counter s)
       (hash_index s) v (file_list_of_lines s) (file_text s) (stdout s).
Definition set_file_list_of_lines v s :=
  Self (path s) (directory_path s) (string_ s) (line_number s)
       (match_object s) (last_3_lines_queue s) (blank_lines_counter s)
       (hash_index s) (warning_queue s) v (file_text s) (stdout s).
Definition set_file_text v s :=
  Self (path s) (directory_path s) (string_ s) (line_number s)
       (match_object s) (last_3_lines_queue s) (blank_lines_counter s)
       (hash_index s) (warning_queue s) (file_list_of_lines s) v (stdout s).
Definition set_stdout v s :=
  Self (path s) (directory_path s) (string_ s) (line_number s)
       (match_object s) (last_3_lines_queue s) (blank_lines_counter s)
       (hash_index s) (warning_queue s) (file_list_of_lines s)
       (file_text s) v.

(** ** Methods as computations *)

(** The exceptions the methods can meet. *)
Inductive exn : Type :=
| AttributeError | TypeError | IndexError | OSError | ValueError.

(** A call returns, raises, or is still inside [while True] after the
    number of rounds the caller allowed ([Spin]). *)
Inductive outcome (A : Type) : Type :=
| Ret (a : A)
| Raise (e : exn)
| Spin.
Arguments Ret {A} a.
Arguments Raise {A} e.
Arguments Spin {A}.

Definition M (A : Type) : Type := analyzer -> outcome A * analyzer.

Definition ret {A} (a : A) : M A := fun s => (Ret a, s).

Definition bind {A B} (c : M A) (k : A -> M B) : M B :=
  fun s =>
    match c s with
    | (Ret a, s') => k a s'
    | (Raise e, s') => (Raise e, s')
    | (Spin, s') => (Spin, s')
    end.

Definition raise {A} (e : exn) : M A := fun s => (Raise e, s).
Definition get {A} (f : analyzer -> A) : M A := fun s => (Ret (f s), s).
Definition modify (f : analyzer -> analyzer) : M unit :=
  fun s => (Ret tt, f s).

(** [print(m)] *)
Definition print (m : message) : M unit :=
  modify (fun s => set_stdout (stdout s ++ [m]) s).

Declare Scope analyzer_scope.
Delimit Scope analyzer_scope with analyzer.
Notation "x <- c ;; k" := (bind c (fun x => k))
  (at level 61, c at next level, right associativity) : analyzer_scope.
Notation "c ;; k" := (bind c (fun _ => k))
  (at level 61, right associativity) : analyzer_scope.
Local Open Scope analyzer_scope.

Definition when (b : bool) (c : M unit) : M unit :=
  if b then c else ret tt.

(** A [for] loop whose body has no [break]. *)
Fixpoint for_each {A} (l : list A) (body : A -> M unit) : M unit :=
  match l with
  | [] => ret tt
  | a :: l' => body a ;; for_each l' body
  end.

(** The message of rule [r] at the current line. *)
Definition here (r : rule) (name : string) : M message :=
  fun s => (Ret (Msg (path s) (line_number s) r name), s).

Definition report (r : rule) (name : string) : M unit :=
  m <- here r name ;; print m.

(** ** The line classifier *)

Definition hash : ascii := "#".
Definition semicolon : ascii := ";".
Definition double_quote : ascii := "034".
Definition single_quote : ascii := "'".
Definition LF : ascii := "010".
Definition CR : ascii := "013".

(** [refresh_hash_index]: [index] is [find] where the character is
    present. *)
Definition refresh_hash_index : M Z :=
  s <- get string_ ;;
  if Py.contains hash s then ret (Py.find s hash 0) else ret (Py.len s).

Definition check_line_length : M unit :=
  s <- get string_ ;;
  when (79 <? Py.len s) (report S001 "").

(** The [while] of [check_indentation]: one leading space dropped and
    counted per round. *)
Fixpoint leading_spaces (s : string) (whitespace_counter : Z) : Z :=
  match s with
  | String " " s' => leading_spaces s' (whitespace_counter + 1)
  | _ => whitespace_counter
  end.

Definition check_indentation : M unit :=
  s <- get string_ ;;
  let whitespace_counter := leading_spaces s 0 in
  when (negb (whitespace_counter mod 4 =? 0)) (report S002 "").

(** One test of the inner loop of [find_extra_semicolon]: the
    semicolon lies after the comment marker, or a quote lies between
    the semicolon and the marker. *)
Definition skipped (s : string) (semicolon_index hash_index : Z) : bool :=
  (hash_index <? semicolon_index)
  || Py.contains double_quote
       (Py.slice s (Some (semicolon_index + 1)) (Some hash_index))
  || Py.contains single_quote
       (Py.slice s (Some (semicolon_index + 1)) (Some hash_index)).

(** [for _ in range(hash_amount)]: the index to return, if the loop
    returns, and [hash_index] as the loop leaves it. *)
Fixpoint hash_rounds (s : string) (hash_amount semicolon_index : Z)
         (rounds : nat) (hash_index : Z) : option Z * Z :=
  match rounds with
  | O => (None, hash_index)
  | S rounds' =>
      if skipped s semicolon_index hash_index then
        hash_rounds s hash_amount semicolon_index rounds'
          (if 1 <? hash_amount then Py.find s hash (hash_index + 1)
           else hash_index)
      else (Some semicolon_index, hash_index)
  end.

(** [for _ in range(semicolon_amount)] *)
Fixpoint semicolon_rounds (s : string) (hash_amount : Z) (rounds : nat)
         (semicolon_index hash_index : Z) : option Z :=
  match rounds with
  | O => None
  | S rounds' =>
      let semicolon_index := Py.find s semicolon (semicolon_index + 1) in
      match hash_rounds s hash_amount semicolon_index
              (Z.to_nat hash_amount) hash_index with
      | (Some i, _) => Some i
      | (None, hash_index') =>
          semicolon_rounds s hash_amount rounds' semicolon_index hash_index'
      end
  end.

(** [find_extra_semicolon]; [None] is Python's [None], returned when
    the loops run out. *)
Definition find_extra_semicolon (s : string) : option Z :=
  let semicolon_index := -1 in
  let hash_index :=
    if Py.contains hash s then Py.find s hash 0 else Py.len s in
  let semicolon_amount := Py.count semicolon s in
  let hash_amount :=
    if Py.count hash s =? 0 then 1 else Py.count semicolon s in
  semicolon_rounds s hash_amount (Z.to_nat semicolon_amount)
    semicolon_index hash_index.

(** The truth value of what [find_extra_semicolon] returns: [None]
    and [0] are false. *)
Definition truthy (i : option Z) : bool :=
  match i with
  | Some n => negb (n =? 0)
  | None => false
  end.

Definition check_semicolon : M unit :=
  s <- get string_ ;;
  when (Py.contains semicolon s && truthy (find_extra_semicolon s))
       (report S003 "").

Definition check_comment_spaces : M unit :=
  s <- get string_ ;;
  h <- get hash_index ;;
  if Py.contains hash s then
    if Py.startswith (Py.lstrip s) "#" then ret tt
    else if Py.endswith (Py.slice s None (Some h)) "  " then ret tt
    else report S004 ""
  else ret tt.

Definition check_is_todo : M unit :=
  s <- get string_ ;;
  h <- get hash_index ;;
  if Py.contains hash s then
    let comment := Py.casefold (Py.slice s (Some (h + 1)) None) in
    when (Py.has_substring "todo" comment) (report S005 "")
  else ret tt.

(** A line is blank when it starts with a line feed or a carriage
    return. *)
Definition is_blank (s : string) : bool :=
  Py.startswith s (String LF "") || Py.startswith s (String CR "").

Definition check_blank_lines : M unit :=
  s <- get string_ ;;
  modify (fun st =>
    set_last_3_lines_queue (last_3_lines_queue st ++ [s]) st) ;;
  q <- get last_3_lines_queue ;;
  when (4 <? Z.of_nat (List.length q))
       (modify (set_last_3_lines_queue (List.tl q))) ;;
  if is_blank s then
    modify (fun st =>
      set_blank_lines_counter (blank_lines_counter st + 1) st)
  else
    c <- get blank_lines_counter ;;
    when (c =? 3) (report S006 "") ;;
    modify (set_blank_lines_counter 0).

(** ** Names *)

(** [[A-Z][a-z]+[A-Z]?[a-z]+] *)
Definition camel_case : Re.regex :=
  Re.seq [Re.upper; Re.plus Re.lower; Re.opt Re.upper; Re.plus Re.lower].

(** [_{,2}?[a-z]+[0-9]?_?[a-z]?[0-9]?] *)
Definition snake_case : Re.regex :=
  Re.seq [Re.Rep (Re.chr "_") 0 (Some 2%nat) false; Re.plus Re.lower;
          Re.opt Re.digit; Re.opt (Re.chr "_"); Re.opt Re.lower;
          Re.opt Re.digit].

(** The two predicates, as the truth value of the match object. *)
Definition is_camel_case (name : string) : bool :=
  match Re.rmatch camel_case name with Some _ => true | None => false end.

Definition is_snake_case (name : string) : bool :=
  match Re.rmatch snake_case name with Some _ => true | None => false end.

(** The pattern of [_get_groups], piece by piece: spaces, any number;
    the group construction_name, def|class; the group space, \s+?;
    the group entity_name, [\w]+; an optional opening parenthesis;
    the group arguments, any number of [\w\s,:]; an optional closing
    parenthesis; a colon. *)
Definition definition_header : Re.regex :=
  Re.seq [ Re.star (Re.chr " ");
           Re.Grp "construction_name" (Re.Alt (Re.lit "def") (Re.lit "class"));
           Re.Grp "space" (Re.plus_lazy (Re.Cls Re.is_s));
           Re.Grp "entity_name" (Re.plus (Re.Cls Re.is_w));
           Re.opt (Re.chr "(");
           Re.Grp "arguments"
             (Re.star (Re.Cls (fun c => Re.is_w c || Re.is_s c
                                        || Ascii.eqb c ","
                                        || Ascii.eqb c ":")));
           Re.opt (Re.chr ")");
           Re.chr ":" ].

Definition _get_groups : M (option Re.groups) :=
  s <- get string_ ;;
  ret (Re.rmatch definition_header s).

(** The three checks below run only when [match_object] is a match;
    [g] is that match. *)
Definition check_definition_spaces (g : Re.groups) : M unit :=
  when (1 <? Py.len (Re.group g "space"))
       (report S007 (Re.group g "construction_name")).

(** The loop over [(entity_name, arguments)]: it returns at the first
    empty name. *)
Fixpoint check_class_names (names : list string) : M unit :=
  match names with
  | [] => ret tt
  | class_name :: rest =>
      if Py.len class_name =? 0 then ret tt
      else
        when (negb (is_camel_case class_name)) (report S008 class_name) ;;
        check_class_names rest
  end.

Definition check_class_name (g : Re.groups) : M unit :=
  if negb (String.eqb (Re.group g "construction_name") "class") then ret tt
  else check_class_names [Re.group g "entity_name"; Re.group g "arguments"].

Definition check_function_name (g : Re.groups) : M unit :=
  if negb (String.eqb (Re.group g "construction_name") "def") then ret tt
  else
    let function_name := Re.group g "entity_name" in
    when (negb (is_snake_case function_name)) (report S009 function_name).

(** ** The tree walker *)

Definition append_warning (key : Z) (m : message) : M unit :=
  modify (fun s => set_warning_queue (warning_queue s ++ [(key, m)]) s).

(** The loop of [check_argument_name] over what [ast.walk] yields; it
    breaks at the first [arg] whose name fails. *)
Fixpoint check_argument_names (items : list Ast.node) : M unit :=
  match items with
  | [] => ret tt
  | item :: rest =>
      match Ast.node_kind item with
      | Ast.Arg arg =>
          if negb (is_snake_case arg) then
            p <- get path ;;
            append_warning (Ast.lineno item)
              (Msg p (Ast.lineno item) S010 arg)
          else check_argument_names rest
      | _ => check_argument_names rest
      end
  end.

Definition check_argument_name (a : Ast.arguments) : M unit :=
  check_argument_names (Ast.walk_arguments a).

(** [for tuple_item in item.elts]: [tuple_item.id] exists on a [Name]
    only; the entry is keyed by the line of the tuple and worded with
    the line of the element; the loop breaks at the first failing
    element. *)
Fixpoint check_tuple_items (item_lineno : Z) (elts : list Ast.node)
  : M unit :=
  match elts with
  | [] => ret tt
  | tuple_item :: rest =>
      match Ast.node_kind tuple_item with
      | Ast.Name id =>
          if negb (is_snake_case id) then
            p <- get path ;;
            append_warning item_lineno
              (Msg p (Ast.lineno tuple_item) S011_tuple id)
          else check_tuple_items item_lineno rest
      | _ => raise AttributeError
      end
  end.

(** [for item in list_item.targets]: it breaks at the first [Name]
    that fails; after a tuple it goes on. *)
Fixpoint check_targets (targets : list Ast.node) : M unit :=
  match targets with
  | [] => ret tt
  | item :: rest =>
      match Ast.node_kind item with
      | Ast.Name id =>
          if negb (is_snake_case id) then
            p <- get path ;;
            append_warning (Ast.lineno item)
              (Msg p (Ast.lineno item) S011 id)
          else check_targets rest
      | Ast.Tuple =>
          check_tuple_items (Ast.lineno item) (Ast.children item) ;;
          check_targets rest
      | _ => check_targets rest
      end
  end.

(** The body of [for list_item in node.body]: an [AnnAssign] passes
    the [isinstance] test and has no attribute [targets]. *)
Definition check_statement (list_item : Ast.stmt) : M unit :=
  match list_item with
  | Ast.Assign targets => check_targets targets
  | Ast.AnnAssign _ => raise AttributeError
  | _ => ret tt
  end.

Definition check_local_variable_name (body : list Ast.stmt) : M unit :=
  for_each body check_statement.

(** [isinstance(defaults, mutable_type)] for one of [ast.List],
    [ast.Dict], [ast.Set]; a [None] of [kw_defaults] is none of
    them. *)
Definition is_mutable (d : option Ast.node) : bool :=
  match d with
  | Some (Ast.Node Ast.List_ _ _)
  | Some (Ast.Node Ast.Dict _ _)
  | Some (Ast.Node Ast.Set_ _ _) => true
  | _ => false
  end.

(** [for defaults in arguments_list]: the method returns at the first
    mutable default. *)
Fixpoint check_defaults (arguments_list : list (option Ast.node))
  : M unit :=
  match arguments_list with
  | [] => ret tt
  | defaults :: rest =>
      match defaults with
      | Some d =>
          if is_mutable defaults then
            p <- get path ;;
            append_warning (Ast.lineno d) (Msg p (Ast.lineno d) S012 "")
          else check_defaults rest
      | None => check_defaults rest
      end
  end.

(** [arguments_list]: [kw_defaults] first, then [defaults]. *)
Definition is_default_argument_mutable (a : Ast.arguments) : M unit :=
  let arguments_list :=
    (Ast.kw_defaults a ++ List.map Some (Ast.defaults a))%list in
  check_defaults arguments_list.

(** [sorted(self.warning_queue, key=lambda x: x[0])] *)
Definition by_key (x y : Z * message) : bool := fst x <=? fst y.

Definition visit_FunctionDef (a : Ast.arguments) (body : list Ast.stmt)
  : M unit :=
  check_argument_name a ;;
  check_local_variable_name body ;;
  is_default_argument_mutable a ;;
  modify (fun s => set_warning_queue (Py.sorted by_key (warning_queue s)) s).

(** [NodeVisitor.visit]: [visit_FunctionDef] on a routine definition,
    [generic_visit] on every other node.  [visit_FunctionDef] does
    not call [generic_visit], so the body of a routine is not
    visited. *)
Fixpoint visit (node : Ast.stmt) : M unit :=
  match node with
  | Ast.FunctionDef _ a body => visit_FunctionDef a body
  | Ast.Block body =>
      (fix visit_all (l : list Ast.stmt) : M unit :=
         match l with
         | [] => ret tt
         | child :: l' => visit child ;; visit_all l'
         end) body
  | _ => ret tt
  end.

(** [generic_visit(tree)] on the module *)
Definition generic_visit (tree : Ast.module) : M unit :=
  for_each tree visit.

(** [check_warning_queue]: the [while] pops from the left and prints
    as long as the head is keyed by the current line; [q] is the
    queue at the test. *)
Fixpoint pop_while_current (q : list (Z * message)) : M unit :=
  match q with
  | (key, m) :: q' =>
      n <- get line_number ;;
      if key =? n then
        modify (set_warning_queue q') ;;
        print m ;;
        pop_while_current q'
      else ret tt
  | [] => ret tt
  end.

Definition check_warning_queue : M unit :=
  q <- get warning_queue ;;
  pop_while_current q.

(** ** The Python runtime around the analyzer *)

(** What [ast.parse] does with a text: a tree, an
    [IndentationError] or another [SyntaxError] with its [lineno], or
    an exception of another class. *)
Inductive parsed : Type :=
| Tree (tree : Ast.module)
| IndentationError (lineno : Z)
| SyntaxError (lineno : Z)
| Failure (e : exn).

Section Runtime.

(** [ast.parse]; [open(path).read()], [None] when the file cannot
    be opened; [scandir(path)], the entries with [is_file()], in
    the order of the iterator, [None] when the directory cannot be
    listed.  The files do not change while the analyzer runs. *)
Variable parse : string -> parsed.
Variable read : string -> option string.
Variable scandir : string -> option (list (string * bool)).

Definition open_read : M string :=
  p <- get path ;;
  match read p with
  | Some text => ret text
  | None => raise OSError
  end.

(** ** The resilient parser *)

Definition create_working_source : M unit :=
  modify (fun s =>
    set_file_list_of_lines (Py.splitlines (file_text s)) s).

(** [self.file_list_of_lines[error_location]] *)
Definition line_at (error_location : Z) : M string :=
  ls <- get file_list_of_lines ;;
  match Py.getitem ls error_location with
  | Some l => ret l
  | None => raise IndexError
  end.

Definition store_line (error_location : Z) (l : string) : M unit :=
  modify (fun s =>
    set_file_list_of_lines
      (Py.setitem (file_list_of_lines s) error_location l) s) ;;
  modify (fun s => set_file_text (Py.join (file_list_of_lines s)) s).

Definition fix_indentation_error (lineno : Z) : M unit :=
  create_working_source ;;
  let error_location := lineno - 1 in
  l <- line_at error_location ;;
  store_line error_location (Py.lstrip l).

(** The right-hand side is evaluated left to right: the slice up to
    [semicolon_index] (the whole line when it is [None]), then
    [semicolon_index + 1], a [TypeError] on [None]. *)
Definition fix_syntax_error (lineno : Z) : M unit :=
  create_working_source ;;
  let error_location := lineno - 1 in
  l <- line_at error_location ;;
  let semicolon_index := find_extra_semicolon l in
  l1 <- line_at error_location ;;
  let before := Py.slice l1 None semicolon_index in
  l2 <- line_at error_location ;;
  match semicolon_index with
  | None => raise TypeError
  | Some i =>
      store_line error_location (before ++ Py.slice l2 (Some (i + 1)) None)
  end.

(** [while True] of [built_ast], at most [rounds] times round. *)
Fixpoint parse_loop (rounds : nat) : M Ast.module :=
  match rounds with
  | O => fun s => (Spin, s)
  | S rounds' =>
      text <- get file_text ;;
      match parse text with
      | Tree tree => ret tree
      | IndentationError lineno =>
          fix_indentation_error lineno ;; parse_loop rounds'
      | SyntaxError lineno =>
          fix_syntax_error lineno ;; parse_loop rounds'
      | Failure e => raise e
      end
  end.

Definition built_ast (rounds : nat) : M Ast.module :=
  text <- open_read ;;
  modify (set_file_text text) ;;
  parse_loop rounds.

(** ** The driver of one file *)

(** The body of [for line in file2]. *)
Definition check_line (line : string) : M unit :=
  modify (set_string line) ;;
  g <- _get_groups ;;
  modify (set_match_object g) ;;
  h <- refresh_hash_index ;;
  modify (set_hash_index h) ;;
  check_line_length ;;
  check_indentation ;;
  check_semicolon ;;
  check_comment_spaces ;;
  check_is_todo ;;
  check_blank_lines ;;
  m <- get match_object ;;
  match m with
  | Some g =>
      check_definition_spaces g ;;
      check_class_name g ;;
      check_function_name g
  | None => ret tt
  end ;;
  check_warning_queue ;;
  modify (fun s => set_line_number (line_number s + 1) s).

Definition run_checks (rounds : nat) : M unit :=
  tree <- built_ast rounds ;;
  generic_visit tree ;;
  text <- open_read ;;
  for_each (Py.readlines text) check_line.

(** ** Files and directories *)

Definition is_file_names (entries : list (string * bool)) : list string :=
  List.map fst (List.filter snd entries).

Definition check_path (rounds : nat) : M unit :=
  p <- get path ;;
  if Py.endswith p ".py" then run_checks rounds
  else
    modify (set_directory_path p) ;;
    match scandir p with
    | None => raise OSError
    | Some entries =>
        let entries_list := Py.sorted Py.str_le (is_file_names entries) in
        for_each entries_list (fun file_name =>
          d <- get directory_path ;;
          modify (set_path (d ++ "/" ++ file_name)) ;;
          modify (set_line_number 1) ;;
          run_checks rounds)
    end.

End Runtime.

End Analyzer.

(* ===================================================================== *)
(** * Vocabulary of the statements *)
(* ===================================================================== *)

Module Claimed.

Import Analyzer.
Local Open Scope analyzer_scope.

(** The state after [out] has been printed. *)
Definition emit (out : list message) (s : analyzer) : analyzer :=
  set_stdout (stdout s ++ out) s.

(** What a computation prints from state [s]. *)
Definition printed {A} (c : M A) (s : analyzer) : list message :=
  List.skipn (List.length (stdout s)) (stdout (snd (c s))).

(** The entries at the head of the queue keyed by [line_number], and
    the queue behind them. *)
Fixpoint drain (line_number : Z) (q : list (Z * message))
  : list message * list (Z * message) :=
  match q with
  | (key, m) :: q' =>
      if key =? line_number
      then (m :: fst (drain line_number q'), snd (drain line_number q'))
      else ([], q)
  | [] => ([], [])
  end.

(** A routine definition, as the visitor sees it. *)
Definition routine : Type := Ast.arguments * list Ast.stmt.

Definition visit_routine (r : routine) : M unit :=
  visit_FunctionDef (fst r) (snd r).

(** Every routine definition of a tree in document order, those
    nested inside other routines included. *)
Fixpoint every_routine (node : Ast.stmt) : list routine :=
  match node with
  | Ast.FunctionDef _ a body => (a, body) :: flat_map every_routine body
  | Ast.Block body => flat_map every_routine body
  | _ => []
  end.

(** The routine definitions of a tree that lie in no other routine
    definition, in document order. *)
Fixpoint outermost_routine (node : Ast.stmt) : list routine :=
  match node with
  | Ast.FunctionDef _ a body => [(a, body)]
  | Ast.Block body => flat_map outermost_routine body
  | _ => []
  end.

(** The tree pass as the specification words it: one visit per
    routine definition, nested ones included. *)
Definition visit_every_routine (tree : Ast.module) : M unit :=
  for_each (flat_map every_routine tree) visit_routine.

(** [run_checks] as the specification words it: the line pass over
    the text as it stands after the repairs. *)
Definition run_checks_over_repaired_text
           (parse : string -> parsed) (read : string -> option string)
           (rounds : nat) : M unit :=
  tree <- built_ast parse read rounds ;;
  generic_visit tree ;;
  text <- get file_text ;;
  for_each (Py.readlines text) check_line.

(** [repaired parse n s s']: from [s], the loop of [built_ast] meets
    [n] failures in a row that it repairs, and stands at [s']. *)
Inductive repaired (parse : string -> parsed)
  : nat -> analyzer -> analyzer -> Prop :=
| repaired_none s : repaired parse O s s
| repaired_indentation n s s1 s2 lineno :
    parse (file_text s) = IndentationError lineno ->
    fix_indentation_error lineno s = (Ret tt, s1) ->
    repaired parse n s1 s2 ->
    repaired parse (S n) s s2
| repaired_syntax n s s1 s2 lineno :
    parse (file_text s) = SyntaxError lineno ->
    fix_syntax_error lineno s = (Ret tt, s1) ->
    repaired parse n s1 s2 ->
    repaired parse (S n) s s2.

(** The place of a message in the order the specification gives the
    output: by line, the line pass before the tree pass. *)
Definition place (m : message) : Z :=
  2 * msg_line m + (if tree_rule (msg_rule m) then 1 else 0).

Definition in_order (out : list message) : Prop :=
  Sorted (fun m1 m2 => place m1 <= place m2) out.

(** What the stray-semicolon rule prints for a line. *)
Definition semicolon_findings (line : string) (s : analyzer)
  : list message :=
  printed check_semicolon (set_string line s).

(** A finding of the line pass made while the cursor of [s] is on its
    line. *)
Definition line_finding (s : analyzer) (m : message) : Prop :=
  msg_path m = path s /\ msg_line m = line_number s
  /\ tree_rule (msg_rule m) = false.

(** A check of the line pass that only prints, findings at the
    cursor, none of them of the blank-line rule. *)
Definition plain_check (c : M unit) : Prop :=
  forall s, exists out,
    c s = (Ret tt, emit out s)
    /\ Forall (fun m => line_finding s m /\ msg_rule m <> S006) out.

(** [s'] differs from [s] in the warning queue at most; in the
    working text and its lines at most. *)
Definition only_queue (s s' : analyzer) : Prop :=
  s' = set_warning_queue (warning_queue s') s.

Definition only_working_text (s s' : analyzer) : Prop :=
  s' = set_file_text (file_text s')
         (set_file_list_of_lines (file_list_of_lines s') s).

(** A computation that keeps its states related by [R], whatever its
    outcome. *)
Definition keeps (R : analyzer -> analyzer -> Prop) {A} (c : M A) : Prop :=
  forall s, R s (snd (c s)).

(** What the tree pass does queue: an entry of a tree rule, keyed by
    the line its message names unless it is the finding on an element
    of a tuple. *)
Definition tree_entry (e : Z * message) : Prop :=
  tree_rule (msg_rule (snd e)) = true
  /\ (msg_rule (snd e) <> S011_tuple -> msg_line (snd e) = fst e).

(** [s'] has a queue of entries that satisfy [P] if [s] has. *)
Definition queue_stays (P : Z * message -> Prop) (s s' : analyzer) : Prop :=
  Forall P (warning_queue s) -> Forall P (warning_queue s').

(** A target that is a name in snake case. *)
Definition passing_name (t : Ast.node) : Prop :=
  match Ast.node_kind t with
  | Ast.Name id => is_snake_case id = true
  | _ => False
  end.

(** A node [ast.walk] yields that is a parameter with a name not in
    snake case. *)
Definition bad_arg (n : Ast.node) : bool :=
  match Ast.node_kind n with
  | Ast.Arg arg => negb (is_snake_case arg)
  | _ => false
  end.

(** The queue in ascending order of its keys. *)
Definition key_sorted (q : list (Z * message)) : Prop :=
  StronglySorted (fun x y => fst x <= fst y) q.

(** [n] spaces. *)
Fixpoint spaces (n : nat) : string :=
  match n with
  | O => EmptyString
  | S n' => String " " (spaces n')
  end.

(** [s'] has the queue of [s] with entries of the tree pass appended. *)
Definition appends_only (s s' : analyzer) : Prop :=
  exists added,
    warning_queue s' = (warning_queue s ++ added)%list
    /\ Forall tree_entry added.

(** The message of rule [r] at the cursor of [s], and the list that
    holds it when [b] is true. *)
Definition at_cursor (s : analyzer) (r : rule) : message :=
  Msg (path s) (line_number s) r "".

Definition finding (b : bool) (s : analyzer) (r : rule) : list message :=
  if b then [at_cursor s r] else [].

(** A message of one of the three rules on definition headers. *)
Definition header_rule (m : message) : Prop :=
  msg_rule m = S007 \/ msg_rule m = S008 \/ msg_rule m = S009.

(** What directory mode does for one file name. *)
Definition visit_file (parse : string -> parsed)
           (read : string -> option string) (rounds : nat)
           (file_name : string) : M unit :=
  d <- get directory_path ;;
  modify (set_path (d ++ "/" ++ file_name)) ;;
  modify (set_line_number 1) ;;
  run_checks parse read rounds.

(** A list of names in ascending order. *)
Definition names_sorted (l : list string) : Prop :=
  StronglySorted (fun a b => Py.str_le a b = true) l.

(** A queue entry as the tree pass should leave it: of a tree rule,
    keyed by the line its message names. *)
Definition keyed_by_line (e : Z * message) : Prop :=
  tree_rule (msg_rule (snd e)) = true /\ msg_line (snd e) = fst e.

(** The first default of a list that is a list, mapping or set
    display splits the list in what comes before it and after it. *)
Definition first_mutable (l : list (option Ast.node)) (d : Ast.node)
  : Prop :=
  exists before after,
    l = (before ++ Some d :: after)%list
    /\ is_mutable (Some d) = true
    /\ Forall (fun x => is_mutable x = false) before.

(** The specification's words on defaults: a default expression that
    is a literal list, a literal mapping or a literal set. *)
Inductive literal_display : Ast.node -> Prop :=
| literal_list lineno cs : literal_display (Ast.Node Ast.List_ lineno cs)
| literal_mapping lineno cs : literal_display (Ast.Node Ast.Dict lineno cs)
| literal_set lineno cs : literal_display (Ast.Node Ast.Set_ lineno cs).

(** An entry of a list of defaults that is no such literal: another
    expression, or the missing default of a keyword-only parameter. *)
Definition no_literal (d : option Ast.node) : Prop :=
  forall n, d = Some n -> ~ literal_display n.

(** The first such literal of a list of defaults, in the
    specification's words. *)
Definition first_literal (l : list (option Ast.node)) (d : Ast.node)
  : Prop :=
  exists before after,
    l = (before ++ Some d :: after)%list
    /\ literal_display d
    /\ Forall no_literal before.

(** Letters of the name patterns, [[a-z]] and [[A-Z]]. *)
Definition is_lower (c : ascii) : bool := Py.in_range 97 122 c.
Definition is_upper (c : ascii) : bool := Py.in_range 65 90 c.

Fixpoint all_of (p : ascii -> bool) (s : string) : bool :=
  match s with
  | EmptyString => true
  | String c s' => p c && all_of p s'
  end.

Definition begins_lower (s : string) : bool :=
  match s with
  | String c _ => is_lower c
  | EmptyString => false
  end.

(** A name that begins with at most two underscores and a lowercase
    letter. *)
Definition begins_snake (name : string) : bool :=
  begins_lower name
  || match name with
     | String c1 s1 =>
         Ascii.eqb "_" c1
         && (begins_lower s1
             || match s1 with
                | String c2 s2 => Ascii.eqb "_" c2 && begins_lower s2
                | EmptyString => false
                end)
     | EmptyString => false
     end.

(** What follows the underscores in the pattern of [is_snake_case]. *)
Definition snake_body : Re.regex :=
  Re.seq [Re.plus Re.lower; Re.opt Re.digit; Re.opt (Re.chr "_");
          Re.opt Re.lower; Re.opt Re.digit].

Definition accept : string -> Re.groups -> option Re.groups :=
  fun _ g => Some g.

(** What the pattern of [is_camel_case] wants behind its first run
    of lowercase letters: a lowercase letter, or an uppercase letter
    and a lowercase one. *)
Definition camel_tail (s : string) : bool :=
  begins_lower s
  || match s with
     | String c s1 => is_upper c && begins_lower s1
     | EmptyString => false
     end.

(** The same behind [n] lowercase letters already read. *)
Fixpoint camel_rest (n : nat) (s : string) : bool :=
  match s with
  | String c s' => is_lower c && camel_rest (S n) s'
  | EmptyString => false
  end
  || ((1 <=? n)%nat && camel_tail s).

Definition camel_body : Re.regex :=
  Re.seq [Re.opt Re.upper; Re.plus Re.lower].

Definition matched (m : option Re.groups) : bool :=
  match m with Some _ => true | None => false end.

(** The specification's words on semicolons.  The comment marker of
    a line is its first [#]; [marker line] counts the characters in
    front of it, all the characters of a line without one. *)
Fixpoint marker (line : string) : nat :=
  match line with
  | EmptyString => O
  | String c rest => if Ascii.eqb c "#" then O else S (marker rest)
  end.

Definition is_quote (c : ascii) : bool :=
  Ascii.eqb c "034" || Ascii.eqb c "'".

(** A semicolon qualifies when it stands in front of the comment
    marker with no quote character between it and the marker. *)
Definition qualifies (line : string) (i : nat) : bool :=
  match String.get i line with
  | Some c => Ascii.eqb c ";"
  | None => false
  end
  && (i <? marker line)%nat
  && all_of (fun c => negb (is_quote c))
            (String.substring (S i) (marker line - S i) line).

Definition first_qualifying (line : string) : option nat :=
  List.find (qualifies line) (List.seq 0 (String.length line)).

(** At most one diagnostic on a line, at its first qualifying
    semicolon. *)
Definition claimed_semicolon_findings (line : string) (s : analyzer)
  : list message :=
  match first_qualifying line with
  | Some _ => [at_cursor s S003]
  | None => []
  end.

(** A continuation of the matcher that accepts whatever is left. *)
Definition total (k : string -> Re.groups -> option Re.groups) : Prop :=
  forall s g, exists g', k s g = Some g'.

End Claimed.

(* ===================================================================== *)
(** * The rounds of a repetition *)
(* ===================================================================== *)

(** The loop inside [Re.run] on a repetition, under a name: [n]
    rounds are done, [fuel] bounds the rounds still to come. *)
Module Rounds.

Section Rounds.

Variables (r1 : Re.regex) (lo : nat) (hi : option nat) (greedy : bool)
          (k : string -> Re.groups -> option Re.groups).

Fixpoint rounds (fuel n : nat) (s : string) (g : Re.groups) {struct fuel}
  : option Re.groups :=
  let leave := fun _ : unit =>
    if (lo <=? n)%nat then k s g else None in
  let again := fun _ : unit =>
    match fuel with
    | O => None
    | S fuel' =>
        if Re.below hi n
        then Re.run r1 s g (fun s1 g1 =>
               if (String.length s1 <? String.length s)%nat
               then rounds fuel' (S n) s1 g1 else None)
        else None
    end in
  if greedy then Re.orelse (again tt) leave
  else Re.orelse (leave tt) again.

End Rounds.

End Rounds.

(* ===================================================================== *)
(** * Sample files *)
(* ===================================================================== *)

Module Sample.

Import Analyzer.

Definition nl : string := String "010" "".

Fixpoint lookup {A} (table : list (string * A)) (k : string) : option A :=
  match table with
  | [] => None
  | (k', v) :: table' => if String.eqb k' k then Some v else lookup table' k
  end.

(** A parser known on the texts of a table only. *)
Definition parser (table : list (string * parsed)) (text : string)
  : parsed :=
  match lookup table text with
  | Some r => r
  | None => Failure ValueError
  end.

Definition no_arguments : Ast.arguments :=
  Ast.Arguments [] [] None [] [] None [].

Definition positional (params defaults : list Ast.node) : Ast.arguments :=
  Ast.Arguments [] params None [] [] None defaults.

Definition name (id : string) (lineno : Z) : Ast.node :=
  Ast.Node (Ast.Name id) lineno [].

Definition arg (id : string) (lineno : Z) : Ast.node :=
  Ast.Node (Ast.Arg id) lineno [].

(** The analyzer called on one file [a.py]. *)
Definition on_file (text : string) (table : list (string * parsed))
  : outcome unit * analyzer :=
  check_path (parser table) (lookup [("a.py", text)]) (fun _ => None)
             8 (set_path "a.py" init).

(** The lines a run has printed. *)
Definition lines_of (r : outcome unit * analyzer) : list string :=
  List.map render (stdout (snd r)).

(** A line of 79 characters with its line feed, and alone. *)
Definition x79 : string :=
  "xxxxxxxxxxxxxxxxxxxxxxxxxxxxxxxxxxxxxxxxxxxxxxxxxxxxxxxxxxxxxxxxxxxxxxxxxxxxxxx".
Definition x80 : string := String "x" x79.

(** Two files of a directory: the first ends in three blank lines. *)
Definition blank_tail : string := "x = 1" ++ nl ++ nl ++ nl ++ nl.
Definition one_line : string := "y = 2" ++ nl.

Definition two_files : list (string * string) :=
  [("d/a.py", blank_tail); ("d/b.py", one_line)].

Definition two_files_parser : string -> parsed :=
  parser [(blank_tail, Tree [Ast.Assign [name "x" 1]]);
          (one_line, Tree [Ast.Assign [name "y" 1]])].

Definition listing (p : string) : option (list (string * bool)) :=
  if String.eqb p "d" then Some [("b.py", true); ("a.py", true)] else None.

(** A file that parses after its second line has lost its
    indentation. *)
Definition indented : string := "x = 1" ++ nl ++ "  y = 2" ++ nl.
Definition indented_repaired : string := "x = 1" ++ nl ++ "y = 2" ++ nl.

Definition indented_parser : string -> parsed :=
  parser [(indented, IndentationError 2);
          (indented_repaired,
           Tree [Ast.Assign [name "x" 1]; Ast.Assign [name "y" 2]])].

(** The run of the analyzer on it, and the run the specification
    describes. *)
Definition indented_run : outcome unit * analyzer :=
  run_checks indented_parser (lookup [("a.py", indented)]) 8
             (set_path "a.py" init).

Definition indented_as_claimed : outcome unit * analyzer :=
  Claimed.run_checks_over_repaired_text indented_parser
    (lookup [("a.py", indented)]) 8 (set_path "a.py" init).

(** A routine inside a routine. *)
Definition nested : string :=
  "def outer(x):" ++ nl ++ "    def inner(Bad):" ++ nl
  ++ "        pass" ++ nl.

Definition inner_routine : Claimed.routine :=
  (positional [arg "Bad" 2] [], [Ast.Block []]).

Definition outer_routine : Claimed.routine :=
  (positional [arg "x" 1] [],
   [Ast.FunctionDef "inner" (fst inner_routine) (snd inner_routine)]).

Definition nested_tree : Ast.module :=
  [Ast.FunctionDef "outer" (fst outer_routine) (snd outer_routine)].

(** An annotated assignment in a routine. *)
Definition annotated : string :=
  "def f():" ++ nl ++ "    Bad: int = 1" ++ nl.

Definition annotated_tree : Ast.module :=
  [Ast.FunctionDef "f" no_arguments [Ast.AnnAssign (name "Bad" 2)]].

(** A routine on three lines: the default on the second, the target
    tuple from the second to the third. *)
Definition three_lines : string :=
  "def f(a=" ++ nl ++ "[]): (x," ++ nl ++ "    Y) = 1,2" ++ nl.

Definition three_lines_tree : Ast.module :=
  [Ast.FunctionDef "f"
     (positional [arg "a" 1] [Ast.Node Ast.List_ 2 []])
     [Ast.Assign [Ast.Node Ast.Tuple 2 [name "x" 2; name "Y" 3]]]].

(** A target tuple whose second element shares its line with a
    comment. *)
Definition tuple_todo : string :=
  "def f():" ++ nl ++ "    (a," ++ nl ++ "        B) = 1, 2  # todo" ++ nl.

Definition tuple_todo_tree : Ast.module :=
  [Ast.FunctionDef "f" no_arguments
     [Ast.Assign [Ast.Node Ast.Tuple 2 [name "a" 2; name "B" 3]]]].

(** The three lines of the specification for the stray-semicolon
    rule. *)
Definition trailing_semicolon : string := "x = 1;".
Definition semicolon_in_comment : string := "x = 1  # comment; not code".
Definition semicolon_in_quotes : string :=
  "s = " ++ String "034" ("a;b" ++ String "034" "").

(** A routine without a body: the parser reports an indentation error
    on line 1, a line that has no indentation to strip. *)
Definition no_body : string := "def f():" ++ nl.

(** A semicolon after the colon of a routine header. *)
Definition header_semicolon : string :=
  "def f():;" ++ nl ++ "    pass" ++ nl.

(** A tuple target with a subscript among its elements. *)
Definition subscript_target : string :=
  "def f():" ++ nl ++ "    a, b[0] = 1, 2" ++ nl.

Definition subscript_target_tree : Ast.module :=
  [Ast.FunctionDef "f" no_arguments
     [Ast.Assign
        [Ast.Node Ast.Tuple 2
           [name "a" 2; Ast.Node Ast.Expr 2 [Ast.Node Ast.Expr 2 []]]]]].

(** A routine with a badly named parameter, a mapping as a default and
    a badly named local variable. *)
Definition three_findings : string :=
  "def f(Bad, x={}):" ++ nl ++ "    Worse = 1" ++ nl.

Definition three_findings_tree : Ast.module :=
  [Ast.FunctionDef "f"
     (positional [arg "Bad" 1; arg "x" 1] [Ast.Node Ast.Dict 1 []])
     [Ast.Assign [name "Worse" 2]]].

(** Routines with one default each: a list, a number, a mapping and a
    set; and a routine whose positional default, a list, stands on
    line 1 and whose keyword default, a mapping, on line 2. *)
Definition routine_with (a : Ast.arguments) : Ast.module :=
  [Ast.FunctionDef "f" a [Ast.Block []]].

Definition list_default : string :=
  "def f(x=[]):" ++ nl ++ "    pass" ++ nl.
Definition list_default_tree : Ast.module :=
  routine_with (positional [arg "x" 1] [Ast.Node Ast.List_ 1 []]).

Definition number_default : string :=
  "def f(x=1):" ++ nl ++ "    pass" ++ nl.
Definition number_default_tree : Ast.module :=
  routine_with (positional [arg "x" 1] [Ast.Node Ast.Expr 1 []]).

Definition mapping_default : string :=
  "def f(x={}):" ++ nl ++ "    pass" ++ nl.
Definition mapping_default_tree : Ast.module :=
  routine_with (positional [arg "x" 1] [Ast.Node Ast.Dict 1 []]).

Definition set_default : string :=
  "def f(x={1}):" ++ nl ++ "    pass" ++ nl.
Definition set_default_tree : Ast.module :=
  routine_with
    (positional [arg "x" 1] [Ast.Node Ast.Set_ 1 [Ast.Node Ast.Expr 1 []]]).

Definition keyword_first : string :=
  "def f(a=[], *," ++ nl ++ "        b={}):" ++ nl ++ "    pass" ++ nl.
Definition keyword_first_tree : Ast.module :=
  routine_with
    (Ast.Arguments [] [arg "a" 1] None [arg "b" 2]
       [Some (Ast.Node Ast.Dict 2 [])] None [Ast.Node Ast.List_ 1 []]).

(** A semicolon in the first column: alone in front of a statement,
    and as the separator of two statements behind a line joined by a
    backslash, a file that parses as it is. *)
Definition leading_semicolon : string := ";x = 1".
Definition leading_semicolon_file : string := leading_semicolon ++ nl.
Definition leading_semicolon_repaired : string := "x = 1" ++ nl.
Definition joined_lines : string :=
  "x = 1 " ++ String "092" nl ++ "; y = 2" ++ nl.

(** Semicolons in a comment that holds a second comment character. *)
Definition commented_semicolons : string := "x = 1  # a; b # c;".

(** A semicolon between single quotes. *)
Definition semicolon_in_single_quotes : string := "s = 'a;b'".

(** A parenthesis left open: a syntax error on a line without a
    semicolon. *)
Definition unclosed : string := "x = (1" ++ nl.

End Sample.

(* ===================================================================== *)
(** * Runs on the sample files *)
(* ===================================================================== *)

Import Analyzer.
Local Open Scope analyzer_scope.

Section Runs.

Import Sample.

Ltac conjuncts := intros; repeat match goal with |- _ /\ _ => split end.
Ltac evaluate := conjuncts; vm_compute; reflexivity.

(** A line of 80 characters is reported, with or without its line
    feed; a line of 79 characters is not reported when it is the
    last line and has no line feed. *)
Lemma line_of_80_reported :
  lines_of (on_file (x80 ++ nl) [(x80 ++ nl, Tree [Ast.Block []])])
  = ["a.py: Line 1: S001 Too long line."]
  /\ lines_of (on_file x80 [(x80, Tree [Ast.Block []])])
     = ["a.py: Line 1: S001 Too long line."]
  /\ lines_of (on_file x79 [(x79, Tree [Ast.Block []])]) = [].
Proof. evaluate. Qed.

(** C5, at the failing input: a line of 79 characters followed by its
    line feed is reported as too long, the line feed being counted. *)
Theorem line_of_79_with_line_feed_reported :
  String.length x79 = 79%nat
  /\ fst (on_file (x79 ++ nl) [(x79 ++ nl, Tree [Ast.Block []])]) = Ret tt
  /\ stdout (snd (on_file (x79 ++ nl) [(x79 ++ nl, Tree [Ast.Block []])]))
     = [Msg "a.py" 1 S001 ""]
  /\ lines_of (on_file (x79 ++ nl) [(x79 ++ nl, Tree [Ast.Block []])])
     = ["a.py: Line 1: S001 Too long line."].
Proof. evaluate. Qed.

(** C1, at the failing input: in directory mode the second file
    starts with the blank-line counter the first file left, three,
    and its first line is reported for blank lines it does not
    follow. *)
Theorem blank_lines_leak_into_next_file :
  let first := run_checks two_files_parser (lookup two_files) 8
                 (set_line_number 1 (set_path "d/a.py"
                    (set_directory_path "d" (set_path "d" init)))) in
  let whole := check_path two_files_parser (lookup two_files) listing 8
                 (set_path "d" init) in
  fst first = Ret tt
  /\ stdout (snd first) = []
  /\ blank_lines_counter (snd first) = 3
  /\ whole = run_checks two_files_parser (lookup two_files) 8
               (set_line_number 1 (set_path "d/b.py" (snd first)))
  /\ blank_lines_counter
       (set_line_number 1 (set_path "d/b.py" (snd first))) = 3
  /\ fst whole = Ret tt
  /\ stdout (snd whole) = [Msg "d/b.py" 1 S006 ""]
  /\ lines_of whole
     = ["d/b.py: Line 1: S006 More than two blank lines used before this line."].
Proof. evaluate. Qed.

(** The same second file analyzed alone is not reported. *)
Lemma second_file_alone_is_clean :
  stdout (snd (run_checks two_files_parser (lookup two_files) 8
                 (set_path "d/b.py" init))) = [].
Proof. vm_compute; reflexivity. Qed.

(** C2, the claim refuted: the file parses after a repair, and the
    line pass reports the indentation of the stored second line,
    which the repaired text does not have. *)
Lemma line_pass_not_over_repaired_text :
  fst indented_run = Ret tt
  /\ file_text (snd indented_run) = indented_repaired
  /\ indented_repaired <> indented
  /\ stdout (snd indented_run) = [Msg "a.py" 2 S002 ""]
  /\ fst indented_as_claimed = Ret tt
  /\ stdout (snd indented_as_claimed) = []
  /\ snd indented_run <> snd indented_as_claimed.
Proof.
  conjuncts; try (vm_compute; reflexivity);
    vm_compute; intro H; discriminate H.
Qed.

(** C3, the claim refuted: the routine [inner], nested in [outer], is
    a routine definition of the tree and has a badly named parameter;
    the tree pass queues nothing and the file gets no diagnostic,
    where a visit of every routine queues the parameter. *)
Lemma nested_routine_not_visited :
  flat_map Claimed.every_routine nested_tree
  = [outer_routine; inner_routine]
  /\ warning_queue (snd (generic_visit nested_tree (set_path "a.py" init)))
     = []
  /\ warning_queue
       (snd (Claimed.visit_every_routine nested_tree (set_path "a.py" init)))
     = [(2, Msg "a.py" 2 S010 "Bad")]
  /\ fst (on_file nested [(nested, Tree nested_tree)]) = Ret tt
  /\ stdout (snd (on_file nested [(nested, Tree nested_tree)])) = [].
Proof. evaluate. Qed.

(** C4, at the failing input: a routine whose body holds an annotated
    assignment ends the analysis with [AttributeError], nothing
    queued and nothing printed. *)
Theorem annotated_assignment_raises :
  fst (on_file annotated [(annotated, Tree annotated_tree)])
  = Raise AttributeError
  /\ warning_queue (snd (on_file annotated [(annotated, Tree annotated_tree)]))
     = []
  /\ stdout (snd (on_file annotated [(annotated, Tree annotated_tree)])) = [].
Proof. evaluate. Qed.

(** C6, at the failing input: the finding on the tuple element of
    line 3 is keyed by line 2, the line of the tuple, and is printed
    before the finding on the default of line 2. *)
Theorem tuple_finding_printed_out_of_order :
  fst (on_file three_lines [(three_lines, Tree three_lines_tree)]) = Ret tt
  /\ stdout (snd (on_file three_lines [(three_lines, Tree three_lines_tree)]))
     = [Msg "a.py" 3 S011_tuple "Y"; Msg "a.py" 2 S012 ""]
  /\ lines_of (on_file three_lines [(three_lines, Tree three_lines_tree)])
     = ["a.py: Line 3: S011 Variable 'Y' in functions should be snake_case.";
        "a.py: Line 2: S012 Default argument value is mutable."]
  /\ ~ Claimed.in_order
         (stdout (snd (on_file three_lines
                         [(three_lines, Tree three_lines_tree)]))).
Proof.
  conjuncts; try (vm_compute; reflexivity).
  intro H.
  replace (stdout (snd (on_file three_lines
                          [(three_lines, Tree three_lines_tree)])))
    with [Msg "a.py" 3 S011_tuple "Y"; Msg "a.py" 2 S012 ""] in H
    by (vm_compute; reflexivity).
  inversion H as [| ? ? _ Hd]; subst.
  inversion Hd as [| ? ? Hle]; subst.
  vm_compute in Hle. apply Hle. reflexivity.
Qed.

(** On the same line, a tree-pass finding before a line-pass finding:
    the tuple element of line 3 is reported while line 2 is read, the
    comment of line 3 while line 3 is. *)
Lemma tuple_finding_before_line_finding :
  stdout (snd (on_file tuple_todo [(tuple_todo, Tree tuple_todo_tree)]))
  = [Msg "a.py" 3 S011_tuple "B"; Msg "a.py" 3 S005 ""].
Proof. vm_compute; reflexivity. Qed.

End Runs.

(* ===================================================================== *)
(** * The line pass, check by check *)
(* ===================================================================== *)

Local Open Scope list_scope.

Section LinePass.

Import Claimed.

Lemma emit_nil s : emit [] s = s.
Proof.
  destruct s; unfold emit, set_stdout; simpl.
  rewrite app_nil_r; reflexivity.
Qed.

Lemma emit_emit out1 out2 s :
  emit out2 (emit out1 s) = emit (out1 ++ out2) s.
Proof.
  destruct s; unfold emit, set_stdout; simpl.
  rewrite app_assoc; reflexivity.
Qed.

Lemma report_run r name s :
  report r name s = (Ret tt, emit [Msg (path s) (line_number s) r name] s).
Proof. reflexivity. Qed.

(** A check that prints one message under a condition. *)
Lemma when_report_run (b : bool) r name s :
  when b (report r name) s
  = (Ret tt, emit (if b then [Msg (path s) (line_number s) r name] else []) s).
Proof.
  destruct b; simpl; [apply report_run | rewrite emit_nil; reflexivity].
Qed.

Lemma refresh_hash_index_run s :
  refresh_hash_index s
  = (Ret (if Py.contains hash (string_ s)
          then Py.find (string_ s) hash 0 else Py.len (string_ s)), s).
Proof.
  unfold refresh_hash_index, bind, get.
  destruct (Py.contains hash (string_ s)); reflexivity.
Qed.

Lemma check_line_length_run s :
  check_line_length s
  = (Ret tt,
     emit (if 79 <? Py.len (string_ s)
           then [Msg (path s) (line_number s) S001 ""] else []) s).
Proof. unfold check_line_length, bind, get. apply when_report_run. Qed.

Lemma check_semicolon_run s :
  check_semicolon s
  = (Ret tt,
     emit (if Py.contains semicolon (string_ s)
              && truthy (find_extra_semicolon (string_ s))
           then [Msg (path s) (line_number s) S003 ""] else []) s).
Proof. unfold check_semicolon, bind, get. apply when_report_run. Qed.

(** [check_blank_lines]: the window, the counter, and the one message
    it can print. *)
Lemma check_blank_lines_run s :
  exists window,
    check_blank_lines s
    = (Ret tt,
       set_blank_lines_counter
         (if is_blank (string_ s) then blank_lines_counter s + 1 else 0)
         (emit (if negb (is_blank (string_ s)) && (blank_lines_counter s =? 3)
                then [Msg (path s) (line_number s) S006 ""] else [])
            (set_last_3_lines_queue window s))).
Proof.
  destruct s as [p d l n g w c h q fl ft out].
  unfold check_blank_lines, bind, get, modify, when, report, here, print,
    emit; simpl.
  destruct (4 <? _); destruct (is_blank l); simpl;
    try destruct (c =? 3); simpl; eexists;
    unfold set_blank_lines_counter, set_stdout, set_last_3_lines_queue;
    simpl; rewrite ?app_nil_r; reflexivity.
Qed.

Lemma check_class_names_run names s :
  exists out,
    check_class_names names s = (Ret tt, emit out s)
    /\ Forall (fun m => msg_path m = path s /\ msg_line m = line_number s
                        /\ msg_rule m = S008) out.
Proof.
  revert s; induction names as [| class_name rest IH]; intros s; simpl.
  - exists []. rewrite emit_nil. split; [reflexivity | constructor].
  - destruct (Py.len class_name =? 0).
    + exists []. rewrite emit_nil. split; [reflexivity | constructor].
    + unfold bind. rewrite when_report_run.
      match goal with
      | |- context [check_class_names rest ?s1] =>
          destruct (IH s1) as (out & Hrun & Hall)
      end.
      rewrite Hrun, emit_emit. eexists; split; [reflexivity |].
      apply Forall_app; split; [| exact Hall].
      destruct (negb (is_camel_case class_name)); repeat constructor.
Qed.

Lemma check_class_name_run g s :
  exists out,
    check_class_name g s = (Ret tt, emit out s)
    /\ Forall (fun m => msg_path m = path s /\ msg_line m = line_number s
                        /\ msg_rule m = S008) out.
Proof.
  unfold check_class_name.
  destruct (negb _).
  - exists []. unfold ret. rewrite emit_nil. split; [reflexivity | constructor].
  - apply check_class_names_run.
Qed.

(** The [while] of [check_warning_queue] prints the head of the queue
    keyed by the current line and leaves the rest. *)
Lemma pop_while_current_run q s :
  warning_queue s = q ->
  pop_while_current q s
  = (Ret tt,
     emit (fst (drain (line_number s) q))
          (set_warning_queue (snd (drain (line_number s) q)) s)).
Proof.
  revert s; induction q as [| [key m] q IH]; intros s Hq; simpl.
  - unfold ret. rewrite emit_nil. destruct s; simpl in *; subst; reflexivity.
  - unfold bind, get. destruct (key =? line_number s) eqn:E; simpl.
    + rewrite IH by reflexivity. simpl.
      destruct s; unfold emit, set_stdout, set_warning_queue; simpl.
      rewrite <- app_assoc. reflexivity.
    + unfold ret. rewrite emit_nil.
      destruct s; simpl in *; subst; reflexivity.
Qed.

Lemma check_warning_queue_run s :
  check_warning_queue s
  = (Ret tt,
     emit (fst (drain (line_number s) (warning_queue s)))
          (set_warning_queue (snd (drain (line_number s) (warning_queue s)))
             s)).
Proof.
  unfold check_warning_queue, bind, get.
  apply pop_while_current_run; reflexivity.
Qed.

Lemma plain_nothing s :
  exists out,
    (Ret tt, s) = (Ret tt, emit out s)
    /\ Forall (fun m => line_finding s m /\ msg_rule m <> S006) out.
Proof. exists []. rewrite emit_nil. split; [reflexivity | constructor]. Qed.

Lemma plain_when_report (b : bool) r name s :
  tree_rule r = false -> r <> S006 ->
  exists out,
    when b (report r name) s = (Ret tt, emit out s)
    /\ Forall (fun m => line_finding s m /\ msg_rule m <> S006) out.
Proof.
  intros Ht Hr. rewrite when_report_run. eexists; split; [reflexivity |].
  destruct b; repeat constructor; assumption.
Qed.

Ltac plain_rule := apply plain_when_report; [reflexivity | discriminate].

Lemma check_line_length_plain : plain_check check_line_length.
Proof. intros s. unfold check_line_length, bind, get. plain_rule. Qed.

Lemma check_indentation_plain : plain_check check_indentation.
Proof. intros s. unfold check_indentation, bind, get. plain_rule. Qed.

Lemma check_semicolon_plain : plain_check check_semicolon.
Proof. intros s. unfold check_semicolon, bind, get. plain_rule. Qed.

Lemma check_comment_spaces_plain : plain_check check_comment_spaces.
Proof.
  intros s. unfold check_comment_spaces, bind, get.
  destruct (Py.contains hash (string_ s)); [| apply plain_nothing].
  destruct (Py.startswith _ _); [apply plain_nothing |].
  destruct (Py.endswith _ _); [apply plain_nothing |].
  apply (plain_when_report true); [reflexivity | discriminate].
Qed.

Lemma check_is_todo_plain : plain_check check_is_todo.
Proof.
  intros s. unfold check_is_todo, bind, get.
  destruct (Py.contains hash (string_ s)); [plain_rule | apply plain_nothing].
Qed.

Lemma check_definition_spaces_plain g :
  plain_check (check_definition_spaces g).
Proof. intros s. unfold check_definition_spaces. plain_rule. Qed.

Lemma check_class_name_plain g : plain_check (check_class_name g).
Proof.
  intros s. destruct (check_class_name_run g s) as (out & Hrun & Hall).
  exists out; split; [exact Hrun |].
  eapply Forall_impl; [| exact Hall].
  intros m (Hp & Hl & Hr). unfold line_finding. rewrite Hr.
  repeat split; try assumption; discriminate.
Qed.

Lemma check_function_name_plain g : plain_check (check_function_name g).
Proof.
  intros s. unfold check_function_name.
  destruct (negb (String.eqb _ _)); [apply plain_nothing | plain_rule].
Qed.

Lemma line_finding_emit out s m :
  line_finding (emit out s) m <-> line_finding s m.
Proof. destruct s; unfold line_finding; simpl; tauto. Qed.

(** A plain check followed by the rest of a computation. *)
Lemma plain_then (c : M unit) {A} (k : unit -> M A) s :
  plain_check c ->
  exists out,
    bind c k s = k tt (emit out s)
    /\ Forall (fun m => line_finding s m /\ msg_rule m <> S006) out.
Proof.
  intros Hc. destruct (Hc s) as (out & Hrun & Hall).
  exists out. unfold bind. rewrite Hrun. split; [reflexivity | exact Hall].
Qed.

Lemma check_blank_lines_step s :
  exists window out,
    check_blank_lines s
    = (Ret tt,
       set_blank_lines_counter
         (if is_blank (string_ s) then blank_lines_counter s + 1 else 0)
         (emit out (set_last_3_lines_queue window s)))
    /\ Forall (fun m => line_finding s m
                        /\ (msg_rule m = S006 ->
                            is_blank (string_ s) = false
                            /\ blank_lines_counter s = 3)) out.
Proof.
  destruct (check_blank_lines_run s) as (window & Hrun).
  exists window. eexists. split; [exact Hrun |].
  destruct (is_blank (string_ s)); simpl; [constructor |].
  destruct (blank_lines_counter s =? 3) eqn:E; simpl; [| constructor].
  apply Z.eqb_eq in E. repeat constructor. exact E.
Qed.

Lemma plain_seq c1 c2 :
  plain_check c1 -> plain_check c2 -> plain_check (c1 ;; c2).
Proof.
  intros H1 H2 s.
  destruct (plain_then c1 (fun _ => c2) s H1) as (o1 & E1 & F1).
  destruct (H2 (emit o1 s)) as (o2 & E2 & F2).
  exists (o1 ++ o2). rewrite E1, E2, emit_emit. split; [reflexivity |].
  apply Forall_app; split; [exact F1 |].
  eapply Forall_impl; [| exact F2].
  intros m (Hm & Hr). split; [apply (line_finding_emit o1 s m), Hm | exact Hr].
Qed.

Lemma definition_checks_plain (m : option Re.groups) :
  plain_check
    match m with
    | Some g =>
        check_definition_spaces g ;;
        check_class_name g ;;
        check_function_name g
    | None => ret tt
    end.
Proof.
  destruct m as [g |].
  - apply plain_seq; [apply check_definition_spaces_plain |].
    apply plain_seq; [apply check_class_name_plain |].
    apply check_function_name_plain.
  - intros s. apply plain_nothing.
Qed.

Ltac peel c L o F :=
  match goal with
  | |- context [bind c ?k ?s] =>
      let E := fresh "E" in
      destruct (@plain_then c _ k s L) as (o & E & F); rewrite E; clear E
  end.

(** One round of the line loop: what it prints, and the state it
    leaves. *)
Lemma check_line_run line s :
  exists lp s',
    check_line line s = (Ret tt, s')
    /\ stdout s'
       = stdout s ++ lp ++ fst (drain (line_number s) (warning_queue s))
    /\ warning_queue s' = snd (drain (line_number s) (warning_queue s))
    /\ line_number s' = line_number s + 1
    /\ path s' = path s
    /\ blank_lines_counter s'
       = (if is_blank line then blank_lines_counter s + 1 else 0)
    /\ Forall (line_finding s) lp
    /\ (forall m, In m lp -> msg_rule m = S006 ->
          is_blank line = false /\ blank_lines_counter s = 3).
Proof.
  unfold check_line, _get_groups.
  unfold bind at 1. unfold modify at 1.
  unfold bind at 1. unfold bind at 1. unfold get at 1. unfold ret at 1.
  unfold bind at 1. unfold modify at 1.
  unfold bind at 1. rewrite refresh_hash_index_run.
  unfold bind at 1. unfold modify at 1.
  set (g := Re.rmatch definition_header _).
  set (h := if Py.contains hash _ then _ else _).
  clearbody g h.
  set (s0 := set_hash_index h (set_match_object g (set_string line s))).
  peel check_line_length check_line_length_plain o1 F1.
  peel check_indentation check_indentation_plain o2 F2.
  peel check_semicolon check_semicolon_plain o3 F3.
  peel check_comment_spaces check_comment_spaces_plain o4 F4.
  peel check_is_todo check_is_todo_plain o5 F5.
  unfold bind at 1.
  match goal with
  | |- context [check_blank_lines ?s1] =>
      destruct (check_blank_lines_step s1) as (window & o6 & E6 & F6);
      rewrite E6; clear E6
  end.
  unfold bind at 1. unfold get at 1.
  match goal with
  | |- context [bind ?c ?k ?s1] =>
      destruct (@plain_then c _ k s1 (definition_checks_plain _))
        as (o7 & E7 & F7); rewrite E7; clear E7
  end.
  unfold bind at 1. rewrite check_warning_queue_run.
  unfold modify.
  exists (o1 ++ o2 ++ o3 ++ o4 ++ o5 ++ o6 ++ o7). eexists.
  split; [reflexivity |].
  subst s0. unfold line_finding in *.
  cbn [stdout warning_queue line_number path blank_lines_counter string_
       emit set_hash_index set_match_object set_string set_stdout
       set_blank_lines_counter set_last_3_lines_queue set_warning_queue
       set_line_number] in *.
  assert (Hall : Forall (fun m =>
                   (msg_path m = path s /\ msg_line m = line_number s
                    /\ tree_rule (msg_rule m) = false)
                   /\ (msg_rule m = S006 ->
                       is_blank line = false /\ blank_lines_counter s = 3))
                   (o1 ++ o2 ++ o3 ++ o4 ++ o5 ++ o6 ++ o7)).
  { repeat (apply Forall_app; split);
      try exact F6;
      match goal with
      | H : Forall _ ?o |- Forall _ ?o =>
          eapply Forall_impl; [| exact H];
          intros m (Hm & Hr); split; [exact Hm | intros E; contradiction]
      end. }
  repeat split.
  - rewrite <- !app_assoc. reflexivity.
  - eapply Forall_impl; [| exact Hall]. intros m (Hm & _). exact Hm.
  - rewrite Forall_forall in Hall. apply (Hall m); assumption.
  - rewrite Forall_forall in Hall. apply (Hall m); assumption.
Qed.

Lemma length_append a b :
  String.length (a ++ b)%string = (String.length a + String.length b)%nat.
Proof. induction a as [| c a IH]; simpl; [reflexivity | rewrite IH; reflexivity]. Qed.

(** The length rule counts the line feed: a line is reported when
    its text and its line feed together pass 79 characters. *)
Lemma line_length_counts_line_feed text s :
  check_line_length (set_string (text ++ Sample.nl)%string s)
  = (Ret tt,
     emit (if 78 <? Py.len text
           then [Msg (path s) (line_number s) S001 ""] else [])
          (set_string (text ++ Sample.nl)%string s)).
Proof.
  rewrite check_line_length_run.
  replace (string_ (set_string (text ++ Sample.nl)%string s))
    with (text ++ Sample.nl)%string by (destruct s; reflexivity).
  unfold Py.len. rewrite length_append. cbn [Sample.nl String.length].
  replace (79 <? Z.of_nat (String.length text + 1))
    with (78 <? Z.of_nat (String.length text)).
  - destruct s; reflexivity.
  - destruct (78 <? _) eqn:E1; destruct (79 <? _) eqn:E2;
      try reflexivity;
      rewrite ?Z.ltb_lt, ?Z.ltb_ge in *; lia.
Qed.

End LinePass.

(* ===================================================================== *)
(** * The line loop *)
(* ===================================================================== *)

Section LineLoop.

Import Claimed.

Lemma drain_rest_Forall (P : Z * message -> Prop) n q :
  Forall P q -> Forall P (snd (drain n q)).
Proof.
  induction q as [| [key m] q IH]; intros H; simpl; [constructor |].
  destruct (key =? n); simpl; [| exact H].
  apply IH. inversion H; assumption.
Qed.

Lemma drain_head_keyed n q :
  Forall keyed_by_line q ->
  Forall (fun m => tree_rule (msg_rule m) = true /\ msg_line m = n)
         (fst (drain n q)).
Proof.
  induction q as [| [key m] q IH]; intros H; simpl; [constructor |].
  destruct (key =? n) eqn:E; simpl; [| constructor].
  inversion H as [| ? ? (Ht & Hl) Hq]; subst. simpl in *.
  apply Z.eqb_eq in E. constructor; [split; [exact Ht | congruence] |].
  apply IH; exact Hq.
Qed.

Lemma drain_head_rules (P : message -> Prop) n q :
  Forall (fun e => P (snd e)) q -> Forall P (fst (drain n q)).
Proof.
  induction q as [| [key m] q IH]; intros H; simpl; [constructor |].
  destruct (key =? n); simpl; [| constructor].
  inversion H; subst. constructor; [assumption | apply IH; assumption].
Qed.

(** A run of blank lines adds its length to the counter. *)
Lemma blank_run_counts blanks :
  forall s,
    Forall (fun b => is_blank b = true) blanks ->
    exists s1,
      for_each blanks check_line s = (Ret tt, s1)
      /\ blank_lines_counter s1
         = blank_lines_counter s + Z.of_nat (List.length blanks)
      /\ (forall P, Forall P (warning_queue s) ->
                    Forall P (warning_queue s1)).
Proof.
  induction blanks as [| b blanks IH]; intros s Hb.
  - exists s. simpl. repeat split; [lia | auto].
  - inversion Hb as [| ? ? Hblank Hrest]; subst.
    destruct (check_line_run b s)
      as (lp & s' & Hrun & _ & Hq & _ & _ & Hc & _).
    destruct (IH s' Hrest) as (s1 & Hloop & Hc1 & Hq1).
    exists s1. cbn [for_each]. unfold bind. rewrite Hrun.
    split; [exact Hloop |]. split.
    + rewrite Hc1, Hc, Hblank. cbn [List.length]. lia.
    + intros P HP. apply Hq1. rewrite Hq. apply drain_rest_Forall, HP.
Qed.

(** The blank-line rule speaks exactly when a line that is not blank
    meets the counter at three. *)
Lemma blank_rule_fires_iff s :
  In (Msg (path s) (line_number s) S006 "") (printed check_blank_lines s)
  <-> is_blank (string_ s) = false /\ blank_lines_counter s = 3.
Proof.
  unfold printed. destruct (check_blank_lines_run s) as (window & Hrun).
  rewrite Hrun. cbn [snd stdout set_blank_lines_counter emit set_stdout
                     set_last_3_lines_queue].
  rewrite List.skipn_app, List.skipn_all, Nat.sub_diag. cbn [skipn app].
  destruct (is_blank (string_ s)); cbn [negb andb].
  - split; [intros [] | intros (H & _); discriminate].
  - destruct (blank_lines_counter s =? 3) eqn:E.
    + apply Z.eqb_eq in E. split; [auto | intros _; left; reflexivity].
    + apply Z.eqb_neq in E. split; [intros [] | intros (_ & H); contradiction].
Qed.

(** C10: after four or more blank lines in a row the counter stands
    above three, and the line that breaks the run gets no finding of
    the blank-line rule, which speaks at exactly three. *)
Theorem no_blank_finding_after_four_blank_lines :
  forall (blanks : list string) (line : string) (s : analyzer),
    0 <= blank_lines_counter s ->
    Forall (fun e => tree_rule (msg_rule (snd e)) = true) (warning_queue s) ->
    Forall (fun b => is_blank b = true) blanks ->
    (4 <= List.length blanks)%nat ->
    is_blank line = false ->
    exists s1 s2 out,
      for_each blanks check_line s = (Ret tt, s1)
      /\ 3 < blank_lines_counter s1
      /\ check_line line s1 = (Ret tt, s2)
      /\ stdout s2 = stdout s1 ++ out
      /\ Forall (fun m => msg_rule m <> S006) out
      /\ blank_lines_counter s2 = 0.
Proof.
  intros blanks line s Hc Hq Hb Hlen Hline.
  destruct (blank_run_counts blanks s Hb) as (s1 & Hloop & Hc1 & Hq1).
  destruct (check_line_run line s1)
    as (lp & s2 & Hrun & Hout & _ & _ & _ & Hc2 & Hlp & H6).
  exists s1, s2. eexists. split; [exact Hloop |].
  split; [lia |]. split; [exact Hrun |]. split; [exact Hout |].
  split; [| rewrite Hc2, Hline; reflexivity].
  apply Forall_app; split.
  - apply Forall_forall. intros m Hin E.
    destruct (H6 m Hin E) as (_ & H3). lia.
  - apply drain_head_rules. apply Hq1.
    eapply Forall_impl; [| exact Hq].
    intros e He E. cbv beta in He, E. rewrite E in He. discriminate.
Qed.

Lemma no_blank_finding_after_four_blank_lines_witness :
  exists s1 s2 out,
    for_each [Sample.nl; Sample.nl; Sample.nl; Sample.nl] check_line init
    = (Ret tt, s1)
    /\ 3 < blank_lines_counter s1
    /\ check_line "x = 1" s1 = (Ret tt, s2)
    /\ stdout s2 = stdout s1 ++ out
    /\ Forall (fun m => msg_rule m <> S006) out
    /\ blank_lines_counter s2 = 0.
Proof.
  apply (no_blank_finding_after_four_blank_lines
           [Sample.nl; Sample.nl; Sample.nl; Sample.nl] "x = 1" init).
  - simpl; lia.
  - constructor.
  - repeat constructor.
  - simpl; lia.
  - reflexivity.
Defined.

Lemma in_order_same_place c l :
  Forall (fun m => place m = c) l -> in_order l.
Proof.
  induction 1 as [| m l Hm Hl IH]; [constructor |].
  constructor; [exact IH |].
  destruct Hl as [| m' l' Hm' _]; constructor. lia.
Qed.

Lemma in_order_app l1 l2 :
  in_order l1 -> in_order l2 ->
  (forall x y, In x l1 -> In y l2 -> place x <= place y) ->
  in_order (l1 ++ l2).
Proof.
  intros H1 H2 Hx. induction H1 as [| m l Hl IH Hd]; [exact H2 |].
  cbn [app]. constructor.
  - apply IH. intros x y Hin. apply Hx. right; exact Hin.
  - destruct Hd as [| m' l' Hm'].
    + destruct l2 as [| y l2']; constructor.
      apply Hx; left; reflexivity.
    + constructor. exact Hm'.
Qed.

(** When every queued entry is keyed by the line its message names,
    the line loop prints in order: by line, and on one line the
    findings of the line pass before those of the tree pass. *)
Lemma line_loop_in_order lines :
  forall s,
    Forall keyed_by_line (warning_queue s) ->
    exists out s',
      for_each lines check_line s = (Ret tt, s')
      /\ stdout s' = stdout s ++ out
      /\ in_order out
      /\ Forall (fun m => 2 * line_number s <= place m) out.
Proof.
  induction lines as [| line rest IH]; intros s Hq.
  - exists [], s. cbn [for_each]. rewrite app_nil_r.
    repeat split; constructor.
  - destruct (check_line_run line s)
      as (lp & s1 & Hrun & Hout & Hq1 & Hn & _ & _ & Hlp & _).
    pose proof (drain_head_keyed (line_number s) _ Hq) as Htp.
    pose proof (drain_rest_Forall _ (line_number s) _ Hq) as Hrest.
    rewrite <- Hq1 in Hrest.
    destruct (IH s1 Hrest) as (out & s' & Hloop & Hout' & Hord & Hlow).
    set (tp := fst (drain (line_number s) (warning_queue s))) in *.
    exists ((lp ++ tp) ++ out), s'.
    cbn [for_each]. unfold bind. rewrite Hrun.
    split; [exact Hloop |].
    split; [rewrite Hout', Hout, <- !app_assoc; reflexivity |].
    assert (Hlp' : Forall (fun m => place m = 2 * line_number s) lp).
    { eapply Forall_impl; [| exact Hlp].
      intros m (_ & Hl & Ht). unfold place. rewrite Hl, Ht. lia. }
    assert (Htp' : Forall (fun m => place m = 2 * line_number s + 1) tp).
    { eapply Forall_impl; [| exact Htp].
      intros m (Ht & Hl). unfold place. rewrite Hl, Ht. lia. }
    rewrite Forall_forall in Hlp', Htp', Hlow.
    split.
    + apply in_order_app; [apply in_order_app | exact Hord |].
      * apply (in_order_same_place (2 * line_number s)), Forall_forall, Hlp'.
      * apply (in_order_same_place (2 * line_number s + 1)), Forall_forall, Htp'.
      * intros x y Hx Hy. rewrite (Hlp' x Hx), (Htp' y Hy). lia.
      * intros x y Hx Hy. specialize (Hlow y Hy). rewrite Hn in Hlow.
        apply in_app_or in Hx. destruct Hx as [Hx | Hx];
          [rewrite (Hlp' x Hx) | rewrite (Htp' x Hx)]; lia.
    + apply Forall_forall. intros m Hm.
      apply in_app_or in Hm. destruct Hm as [Hm | Hm].
      * apply in_app_or in Hm. destruct Hm as [Hm | Hm];
          [rewrite (Hlp' m Hm) | rewrite (Htp' m Hm)]; lia.
      * specialize (Hlow m Hm). lia.
Qed.

End LineLoop.

(* ===================================================================== *)
(** * The tree walker *)
(* ===================================================================== *)

Section TreeWalker.

Import Claimed.

Lemma check_defaults_run l s :
  (Forall (fun x => is_mutable x = false) l
   /\ check_defaults l s = (Ret tt, s))
  \/ (exists d,
        first_mutable l d
        /\ check_defaults l s
           = (Ret tt,
              set_warning_queue
                (warning_queue s
                 ++ [(Ast.lineno d, Msg (path s) (Ast.lineno d) S012 "")])
                s)).
Proof.
  induction l as [| x l IH]; [left; split; [constructor | reflexivity] |].
  cbn [check_defaults].
  destruct x as [d |].
  - destruct (is_mutable (Some d)) eqn:E.
    + right. exists d. split; [| reflexivity].
      exists [], l. repeat split; [exact E | constructor].
    + destruct IH as [(Hall & Hrun) | (d' & (before & after & Hl & Hd & Hb) & Hrun)].
      * left. split; [constructor; assumption | exact Hrun].
      * right. exists d'. split; [| exact Hrun].
        exists (Some d :: before), after. subst l.
        repeat split; [exact Hd | constructor; assumption].
  - destruct IH as [(Hall & Hrun) | (d' & (before & after & Hl & Hd & Hb) & Hrun)].
    + left. split; [constructor; [reflexivity | assumption] | exact Hrun].
    + right. exists d'. split; [| exact Hrun].
      exists (None :: before), after. subst l.
      repeat split; [exact Hd | constructor; [reflexivity | assumption]].
Qed.

Lemma is_mutable_literal d :
  is_mutable (Some d) = true <-> literal_display d.
Proof.
  split.
  - destruct d as [[] l cs]; cbn [is_mutable]; try discriminate;
      intros _; constructor.
  - intros H. destruct H; reflexivity.
Qed.

Lemma is_mutable_no_literal d :
  is_mutable d = false <-> no_literal d.
Proof.
  unfold no_literal. split.
  - intros H n -> Hl. apply is_mutable_literal in Hl. congruence.
  - intros H. destruct d as [n |]; [| reflexivity].
    destruct (is_mutable (Some n)) eqn:E; [| reflexivity].
    apply is_mutable_literal in E. exfalso. exact (H n eq_refl E).
Qed.

(** C7: the defaults are scanned as one list, the keyword defaults
    first, then the positional ones.  Either none of them is a literal
    list, mapping or set and the check leaves the analyzer as it was,
    or the check queues one entry, for the first such literal, at its
    line, and nothing else.  On the files of the specification:
    [def f(x=[])] gets the finding once, [def f(x=1)] gets none; a
    mapping and a set get it as a list does; and of a list on line 1
    among the positional defaults and a mapping on line 2 among the
    keyword defaults, the mapping is the one reported. *)
Theorem mutable_default_reported_once :
  (forall (a : Ast.arguments) (s : analyzer),
      let arguments_list :=
        Ast.kw_defaults a ++ List.map Some (Ast.defaults a) in
      (Forall no_literal arguments_list
       /\ is_default_argument_mutable a s = (Ret tt, s))
      \/ (exists d,
            first_literal arguments_list d
            /\ is_default_argument_mutable a s
               = (Ret tt,
                  set_warning_queue
                    (warning_queue s
                     ++ [(Ast.lineno d,
                          Msg (path s) (Ast.lineno d) S012 "")])
                    s)))
  /\ Sample.lines_of
       (Sample.on_file Sample.list_default
          [(Sample.list_default, Tree Sample.list_default_tree)])
     = ["a.py: Line 1: S012 Default argument value is mutable."]
  /\ Sample.lines_of
       (Sample.on_file Sample.number_default
          [(Sample.number_default, Tree Sample.number_default_tree)])
     = []
  /\ Sample.lines_of
       (Sample.on_file Sample.mapping_default
          [(Sample.mapping_default, Tree Sample.mapping_default_tree)])
     = ["a.py: Line 1: S012 Default argument value is mutable."]
  /\ Sample.lines_of
       (Sample.on_file Sample.set_default
          [(Sample.set_default, Tree Sample.set_default_tree)])
     = ["a.py: Line 1: S012 Default argument value is mutable."]
  /\ Sample.lines_of
       (Sample.on_file Sample.keyword_first
          [(Sample.keyword_first, Tree Sample.keyword_first_tree)])
     = ["a.py: Line 2: S012 Default argument value is mutable."].
Proof.
  split; [| repeat match goal with |- _ /\ _ => split end;
            vm_compute; reflexivity].
  intros a s arguments_list.
  destruct (check_defaults_run arguments_list s)
    as [(Hall & Hrun) | (d & (before & after & Hl & Hd & Hb) & Hrun)].
  - left. split; [| exact Hrun].
    eapply Forall_impl; [| exact Hall].
    intros x Hx. apply is_mutable_no_literal, Hx.
  - right. exists d. split; [| exact Hrun].
    exists before, after. split; [exact Hl |].
    split; [apply is_mutable_literal, Hd |].
    eapply Forall_impl; [| exact Hb].
    intros x Hx. apply is_mutable_no_literal, Hx.
Qed.

(** Induction on statements, the statements of a body taken
    together. *)
Section StmtInduction.
Variable P : Ast.stmt -> Prop.
Hypothesis P_def : forall name a body,
    Forall P body -> P (Ast.FunctionDef name a body).
Hypothesis P_assign : forall targets, P (Ast.Assign targets).
Hypothesis P_ann : forall target, P (Ast.AnnAssign target).
Hypothesis P_block : forall body, Forall P body -> P (Ast.Block body).

Fixpoint stmt_induction (node : Ast.stmt) : P node :=
  match node with
  | Ast.FunctionDef name a body =>
      P_def name a body
        ((fix all (l : list Ast.stmt) : Forall P l :=
            match l with
            | [] => Forall_nil P
            | x :: l' => Forall_cons x (stmt_induction x) (all l')
            end) body)
  | Ast.Assign targets => P_assign targets
  | Ast.AnnAssign target => P_ann target
  | Ast.Block body =>
      P_block body
        ((fix all (l : list Ast.stmt) : Forall P l :=
            match l with
            | [] => Forall_nil P
            | x :: l' => Forall_cons x (stmt_induction x) (all l')
            end) body)
  end.
End StmtInduction.

Lemma bind_ret_tt (c : M unit) s : bind c (fun _ => ret tt) s = c s.
Proof. unfold bind, ret. destruct (c s) as [[[] | e |] s']; reflexivity. Qed.

Lemma for_each_app {A} (l1 l2 : list A) (f : A -> M unit) s :
  for_each (l1 ++ l2) f s
  = bind (for_each l1 f) (fun _ => for_each l2 f) s.
Proof.
  revert s; induction l1 as [| a l1 IH]; intros s; [reflexivity |].
  cbn [for_each app]. unfold bind.
  destruct (f a s) as [[[] | e |] s']; [| reflexivity | reflexivity].
  rewrite IH. reflexivity.
Qed.

Lemma for_each_flat_map {A B} (f : A -> list B) (v : A -> M unit)
      (w : B -> M unit) (l : list A) :
  Forall (fun a => forall s, v a s = for_each (f a) w s) l ->
  forall s, for_each l v s = for_each (flat_map f l) w s.
Proof.
  induction 1 as [| a l Ha Hl IH]; intros s; [reflexivity |].
  cbn [for_each flat_map]. rewrite for_each_app. unfold bind.
  rewrite Ha. destruct (for_each (f a) w s) as [[[] | e |] s'];
    [apply IH | reflexivity | reflexivity].
Qed.

Lemma visit_outermost node :
  forall s, visit node s = for_each (outermost_routine node) visit_routine s.
Proof.
  induction node as [name a body _ | targets | target | body IH]
    using stmt_induction; intros s.
  - cbn [visit outermost_routine for_each]. rewrite bind_ret_tt. reflexivity.
  - reflexivity.
  - reflexivity.
  - cbn [visit outermost_routine].
    rewrite <- (for_each_flat_map outermost_routine visit visit_routine body IH).
    clear IH. revert s. induction body as [| child rest IHr]; intros s;
      [reflexivity |].
    cbn [for_each]. unfold bind. destruct (visit child s) as [[[] | e |] s'];
      [apply IHr | reflexivity | reflexivity].
Qed.

(** C3, amended: the tree pass visits the routine definitions that
    lie in no other routine definition, in document order, each one
    once; a visit runs the three checks and sorts the queue.  What is
    nested inside a routine is not visited. *)
Theorem tree_pass_visits_outermost_routines :
  forall (tree : Ast.module) (s : analyzer),
    generic_visit tree s
    = for_each (flat_map outermost_routine tree)
        (fun r =>
           check_argument_name (fst r) ;;
           check_local_variable_name (snd r) ;;
           is_default_argument_mutable (fst r) ;;
           modify (fun s =>
             set_warning_queue (Py.sorted by_key (warning_queue s)) s))
        s.
Proof.
  intros tree s. unfold generic_visit.
  apply (for_each_flat_map outermost_routine visit visit_routine tree).
  apply Forall_forall. intros node _. apply visit_outermost.
Qed.

(** The local-variable check raises nothing but [AttributeError]. *)
Lemma check_tuple_items_outcome n elts s :
  fst (check_tuple_items n elts s) = Ret tt
  \/ fst (check_tuple_items n elts s) = Raise AttributeError.
Proof.
  induction elts as [| item rest IH]; [left; reflexivity |].
  cbn [check_tuple_items].
  destruct (Ast.node_kind item); try (right; reflexivity).
  destruct (negb _); [left; reflexivity | exact IH].
Qed.

Lemma check_targets_outcome targets s :
  fst (check_targets targets s) = Ret tt
  \/ fst (check_targets targets s) = Raise AttributeError.
Proof.
  revert s; induction targets as [| item rest IH]; intros s;
    [left; reflexivity |].
  cbn [check_targets].
  destruct (Ast.node_kind item); try apply IH.
  - destruct (negb _); [left; reflexivity | apply IH].
  - unfold bind.
    destruct (check_tuple_items_outcome (Ast.lineno item)
                (Ast.children item) s) as [H | H];
      destruct (check_tuple_items _ _ s) as [[[] | e |] s'];
      cbn [fst] in *; try discriminate; [apply IH | right; exact H].
Qed.

(** A routine that holds an annotated assignment among the statements
    of its body makes the local-variable check raise
    [AttributeError]. *)
Lemma annotated_assignment_always_raises body target s :
  In (Ast.AnnAssign target) body ->
  fst (check_local_variable_name body s) = Raise AttributeError.
Proof.
  unfold check_local_variable_name.
  revert s; induction body as [| st rest IH]; intros s Hin; [destruct Hin |].
  cbn [for_each]. unfold bind.
  destruct st as [name a body' | targets | target' | body'];
    cbn [check_statement]; try reflexivity.
  - destruct Hin as [Hin | Hin]; [discriminate | apply IH, Hin].
  - destruct Hin as [Hin | Hin]; [discriminate |].
    destruct (check_targets_outcome targets s) as [H | H];
      destruct (check_targets targets s) as [[[] | e |] s'];
      cbn [fst] in *; try discriminate; [apply IH, Hin | exact H].
  - destruct Hin as [Hin | Hin]; [discriminate | apply IH, Hin].
Qed.

(** On a simple assignment the targets are scanned up to the first
    name that is not in snake case; it is queued at its line, and the
    targets behind it are not looked at. *)
Lemma first_failing_name_target before id lineno cs after s :
  Forall passing_name before ->
  is_snake_case id = false ->
  check_statement
    (Ast.Assign (before ++ Ast.Node (Ast.Name id) lineno cs :: after)) s
  = (Ret tt,
     set_warning_queue
       (warning_queue s ++ [(lineno, Msg (path s) lineno S011 id)]) s).
Proof.
  intros Hb Hid. cbn [check_statement].
  induction Hb as [| t before Ht _ IH]; cbn [app check_targets].
  - cbn [Ast.node_kind]. rewrite Hid. reflexivity.
  - unfold passing_name in Ht. destruct (Ast.node_kind t); try contradiction.
    rewrite Ht. exact IH.
Qed.

End TreeWalker.

(* ===================================================================== *)
(** * What the passes leave alone *)
(* ===================================================================== *)

Section Frames.

Import Claimed.

Section Keeps.
Variable R : analyzer -> analyzer -> Prop.
Hypothesis R_refl : forall s, R s s.
Hypothesis R_trans : forall s1 s2 s3, R s1 s2 -> R s2 s3 -> R s1 s3.

Lemma keeps_ret {A} (a : A) : keeps R (ret a).
Proof. intros s. apply R_refl. Qed.

Lemma keeps_raise {A} e : keeps R (@raise A e).
Proof. intros s. apply R_refl. Qed.

Lemma keeps_get {A} (f : analyzer -> A) : keeps R (get f).
Proof. intros s. apply R_refl. Qed.

Lemma keeps_bind {A B} (c : M A) (k : A -> M B) :
  keeps R c -> (forall a, keeps R (k a)) -> keeps R (bind c k).
Proof.
  intros Hc Hk s. unfold bind. specialize (Hc s).
  destruct (c s) as [[a | e |] s']; simpl in *; try exact Hc.
  eapply R_trans; [exact Hc | apply Hk].
Qed.

Lemma keeps_for_each {A} (l : list A) (f : A -> M unit) :
  (forall a, keeps R (f a)) -> keeps R (for_each l f).
Proof.
  intros Hf. induction l as [| a l IH]; [apply keeps_ret |].
  cbn [for_each]. apply keeps_bind; [apply Hf | intros _; exact IH].
Qed.
End Keeps.

Lemma only_queue_refl s : only_queue s s.
Proof. destruct s; reflexivity. Qed.

Lemma only_queue_trans s1 s2 s3 :
  only_queue s1 s2 -> only_queue s2 s3 -> only_queue s1 s3.
Proof.
  unfold only_queue. intros H12 H23. rewrite H23, H12.
  destruct s1; reflexivity.
Qed.

Lemma only_working_text_refl s : only_working_text s s.
Proof. destruct s; reflexivity. Qed.

Lemma only_working_text_trans s1 s2 s3 :
  only_working_text s1 s2 -> only_working_text s2 s3 ->
  only_working_text s1 s3.
Proof.
  unfold only_working_text. intros H12 H23. rewrite H23, H12.
  destruct s1; reflexivity.
Qed.

(** The tree pass keeps every relation on states that is reflexive
    and transitive, holds across the queueing of a [tree_entry] and
    across the sorting of the queue. *)
Section TreePass.
Variable R : analyzer -> analyzer -> Prop.
Hypothesis R_refl : forall s, R s s.
Hypothesis R_trans : forall s1 s2 s3, R s1 s2 -> R s2 s3 -> R s1 s3.
Hypothesis R_append : forall key m,
    tree_entry (key, m) -> keeps R (append_warning key m).
Hypothesis R_sort : forall s,
    R s (set_warning_queue (Py.sorted by_key (warning_queue s)) s).

Lemma queue_append_keeps key (f : string -> message) :
  (forall p, tree_entry (key, f p)) ->
  keeps R (p <- get path ;; append_warning key (f p)).
Proof.
  intros Hf. apply (keeps_bind R R_trans); [apply (keeps_get R R_refl) |].
  intros p. apply R_append, Hf.
Qed.

Lemma check_argument_names_keeps items :
  keeps R (check_argument_names items).
Proof.
  induction items as [| item rest IH]; [apply (keeps_ret R R_refl) |].
  cbn [check_argument_names].
  destruct (Ast.node_kind item); try exact IH.
  destruct (negb _); [| exact IH].
  apply (queue_append_keeps _ (fun p => Msg p _ _ _)).
  intros p; split; reflexivity.
Qed.

Lemma check_tuple_items_keeps n elts :
  keeps R (check_tuple_items n elts).
Proof.
  induction elts as [| item rest IH]; [apply (keeps_ret R R_refl) |].
  cbn [check_tuple_items].
  destruct (Ast.node_kind item); try apply (keeps_raise R R_refl).
  destruct (negb _); [| exact IH].
  apply (queue_append_keeps _ (fun p => Msg p _ _ _)).
  intros p; split; [reflexivity | intros H; exfalso; apply H; reflexivity].
Qed.

Lemma check_targets_keeps targets : keeps R (check_targets targets).
Proof.
  induction targets as [| item rest IH]; [apply (keeps_ret R R_refl) |].
  cbn [check_targets].
  destruct (Ast.node_kind item); try exact IH.
  - destruct (negb _); [| exact IH].
    apply (queue_append_keeps _ (fun p => Msg p _ _ _)).
    intros p; split; reflexivity.
  - apply (keeps_bind R R_trans);
      [apply check_tuple_items_keeps | intros _; exact IH].
Qed.

Lemma check_defaults_keeps l : keeps R (check_defaults l).
Proof.
  induction l as [| [d |] l IH]; [apply (keeps_ret R R_refl) | | exact IH].
  cbn [check_defaults]. destruct (is_mutable (Some d)); [| exact IH].
  apply (queue_append_keeps _ (fun p => Msg p _ _ _)).
  intros p; split; reflexivity.
Qed.

Lemma visit_FunctionDef_keeps a body : keeps R (visit_FunctionDef a body).
Proof.
  unfold visit_FunctionDef.
  apply (keeps_bind R R_trans);
    [apply check_argument_names_keeps | intros _].
  apply (keeps_bind R R_trans); [| intros _].
  { apply (keeps_for_each R R_refl R_trans).
    intros [name a' body' | targets | target | body'];
      cbn [check_statement];
      try apply (keeps_ret R R_refl);
      [apply check_targets_keeps | apply (keeps_raise R R_refl)]. }
  apply (keeps_bind R R_trans); [apply check_defaults_keeps | intros _].
  intros s. apply R_sort.
Qed.

Lemma generic_visit_keeps tree : keeps R (generic_visit tree).
Proof.
  intros s. unfold generic_visit.
  rewrite (for_each_flat_map outermost_routine visit visit_routine tree)
    by (apply Forall_forall; intros node _; apply visit_outermost).
  apply (keeps_for_each R R_refl R_trans).
  intros r. apply visit_FunctionDef_keeps.
Qed.
End TreePass.

(** The tree pass touches the warning queue only. *)
Lemma generic_visit_only_queue tree : keeps only_queue (generic_visit tree).
Proof.
  apply (generic_visit_keeps only_queue only_queue_refl only_queue_trans).
  - intros key m _ s. destruct s; reflexivity.
  - intros s. destruct s; reflexivity.
Qed.

Lemma insert_Forall {A} (P : A -> Prop) le x l :
  P x -> Forall P l -> Forall P (Py.insert le x l).
Proof.
  intros Hx Hl. induction Hl as [| y l Hy Hl IH]; simpl.
  - repeat constructor; exact Hx.
  - destruct (le x y); repeat constructor; assumption.
Qed.

Lemma sorted_Forall {A} (P : A -> Prop) le l :
  Forall P l -> Forall P (Py.sorted le l).
Proof.
  induction 1 as [| x l Hx Hl IH]; simpl; [constructor |].
  apply insert_Forall; assumption.
Qed.

(** The tree pass queues entries of [tree_entry] only. *)
Lemma generic_visit_entries tree :
  keeps (queue_stays tree_entry) (generic_visit tree).
Proof.
  apply (generic_visit_keeps (queue_stays tree_entry)).
  - intros s H; exact H.
  - intros s1 s2 s3 H12 H23 H; auto.
  - intros key m Hm s H. destruct s; simpl in *.
    apply Forall_app; split; [exact H | constructor; [exact Hm | constructor]].
  - intros s H. destruct s; simpl in *. apply sorted_Forall, H.
Qed.

End Frames.

(* ===================================================================== *)
(** * The resilient parser and the driver of one file *)
(* ===================================================================== *)

Section Parser.

Import Claimed.

Variable parse : string -> parsed.
Variable read : string -> option string.

Ltac text_bind :=
  apply (keeps_bind only_working_text only_working_text_trans).

Lemma create_working_source_keeps :
  keeps only_working_text create_working_source.
Proof. intros s. destruct s; reflexivity. Qed.

Lemma line_at_keeps i : keeps only_working_text (line_at i).
Proof.
  unfold line_at. text_bind; [apply (keeps_get _ only_working_text_refl) |].
  intros ls. destruct (Py.getitem ls i);
    [apply (keeps_ret _ only_working_text_refl)
    | apply (keeps_raise _ only_working_text_refl)].
Qed.

Lemma store_line_keeps i l : keeps only_working_text (store_line i l).
Proof.
  unfold store_line. text_bind; [| intros _]; intros s; destruct s; reflexivity.
Qed.

Lemma fix_indentation_error_keeps lineno :
  keeps only_working_text (fix_indentation_error lineno).
Proof.
  unfold fix_indentation_error.
  text_bind; [apply create_working_source_keeps | intros _].
  text_bind; [apply line_at_keeps | intros l]. apply store_line_keeps.
Qed.

Lemma fix_syntax_error_keeps lineno :
  keeps only_working_text (fix_syntax_error lineno).
Proof.
  unfold fix_syntax_error.
  text_bind; [apply create_working_source_keeps | intros _].
  text_bind; [apply line_at_keeps | intros l].
  text_bind; [apply line_at_keeps | intros l1].
  text_bind; [apply line_at_keeps | intros l2].
  destruct (find_extra_semicolon l);
    [apply store_line_keeps | apply (keeps_raise _ only_working_text_refl)].
Qed.

Lemma parse_loop_keeps rounds :
  keeps only_working_text (parse_loop parse rounds).
Proof.
  induction rounds as [| rounds IH]; [intros s; apply only_working_text_refl |].
  cbn [parse_loop].
  text_bind; [apply (keeps_get _ only_working_text_refl) | intros text].
  destruct (parse text).
  - apply (keeps_ret _ only_working_text_refl).
  - text_bind; [apply fix_indentation_error_keeps | intros _; exact IH].
  - text_bind; [apply fix_syntax_error_keeps | intros _; exact IH].
  - apply (keeps_raise _ only_working_text_refl).
Qed.

(** [built_ast] touches the working text and its lines only. *)
Lemma built_ast_keeps rounds :
  keeps only_working_text (built_ast parse read rounds).
Proof.
  unfold built_ast, open_read.
  text_bind; [| intros text].
  { text_bind; [apply (keeps_get _ only_working_text_refl) | intros p].
    destruct (read p);
      [apply (keeps_ret _ only_working_text_refl)
      | apply (keeps_raise _ only_working_text_refl)]. }
  text_bind; [intros s; destruct s; reflexivity | intros _].
  apply parse_loop_keeps.
Qed.

Lemma only_working_text_fields s s' :
  only_working_text s s' ->
  path s' = path s /\ stdout s' = stdout s
  /\ warning_queue s' = warning_queue s
  /\ line_number s' = line_number s
  /\ blank_lines_counter s' = blank_lines_counter s.
Proof. intros H. rewrite H. destruct s; repeat split. Qed.

Lemma only_queue_fields s s' :
  only_queue s s' ->
  path s' = path s /\ stdout s' = stdout s
  /\ line_number s' = line_number s
  /\ blank_lines_counter s' = blank_lines_counter s
  /\ file_text s' = file_text s.
Proof. intros H. rewrite H. destruct s; repeat split. Qed.

(** When [built_ast] returns, the file could be read. *)
Lemma built_ast_returns rounds s tree s1 :
  built_ast parse read rounds s = (Ret tree, s1) ->
  exists text,
    read (path s) = Some text
    /\ parse_loop parse rounds (set_file_text text s) = (Ret tree, s1).
Proof.
  unfold built_ast, open_read, bind, get, modify.
  destruct (read (path s)) as [text |]; [| discriminate].
  intros H. exists text. split; [reflexivity | exact H].
Qed.

(** [run_checks] once the tree is built: the tree pass, then the
    line loop over the lines of the file read again. *)
Lemma run_checks_after_built_ast :
  forall (rounds : nat) (s : analyzer) (tree : Ast.module) (s1 : analyzer),
    built_ast parse read rounds s = (Ret tree, s1) ->
    exists text,
      read (path s) = Some text
      /\ run_checks parse read rounds s
         = (generic_visit tree ;;
            for_each (Py.readlines text) check_line) s1.
Proof.
  intros rounds s tree s1 Hbuilt.
  destruct (built_ast_returns rounds s tree s1 Hbuilt) as (text & Hread & _).
  exists text. split; [exact Hread |].
  unfold run_checks. unfold bind at 1. rewrite Hbuilt.
  unfold bind at 1 3.
  pose proof (generic_visit_only_queue tree s1) as Hq.
  destruct (generic_visit tree s1) as [[[] | e |] s2]; try reflexivity.
  cbn [snd] in Hq. apply only_queue_fields in Hq. destruct Hq as (Hp & _).
  pose proof (built_ast_keeps rounds s) as Ht. rewrite Hbuilt in Ht.
  cbn [snd] in Ht. apply only_working_text_fields in Ht.
  destruct Ht as (Hp1 & _).
  unfold open_read. unfold bind, get. cbv beta iota.
  rewrite Hp, Hp1, Hread. reflexivity.
Qed.

(** A file in whose tree the walker finds no badly named element of
    a tuple gets its diagnostics in order. *)
Lemma diagnostics_in_order_without_tuple_findings
      rounds s tree s1 s2 :
  built_ast parse read rounds s = (Ret tree, s1) ->
  generic_visit tree s1 = (Ret tt, s2) ->
  Forall tree_entry (warning_queue s) ->
  Forall (fun e => msg_rule (snd e) <> S011_tuple) (warning_queue s2) ->
  exists out s',
    run_checks parse read rounds s = (Ret tt, s')
    /\ stdout s' = stdout s ++ out
    /\ in_order out.
Proof.
  intros Hbuilt Hvisit Hq Hno.
  destruct (run_checks_after_built_ast rounds s tree s1 Hbuilt)
    as (text & _ & Hrun).
  pose proof (built_ast_keeps rounds s) as Ht. rewrite Hbuilt in Ht.
  apply only_working_text_fields in Ht. cbn [snd] in Ht.
  destruct Ht as (_ & Hout1 & Hq1 & _).
  pose proof (generic_visit_only_queue tree s1) as Ho. rewrite Hvisit in Ho.
  apply only_queue_fields in Ho. cbn [snd] in Ho.
  destruct Ho as (_ & Hout2 & _).
  pose proof (generic_visit_entries tree s1) as He. rewrite Hvisit in He.
  cbn [snd] in He. unfold queue_stays in He. rewrite Hq1 in He.
  specialize (He Hq).
  assert (Hkeyed : Forall keyed_by_line (warning_queue s2)).
  { rewrite Forall_forall in *. intros e Hin.
    destruct (He e Hin) as (Hr & Hl). split; [exact Hr |].
    apply Hl, Hno, Hin. }
  destruct (line_loop_in_order (Py.readlines text) s2 Hkeyed)
    as (out & s' & Hloop & Hout & Hord & _).
  exists out, s'. rewrite Hrun. unfold bind. rewrite Hvisit.
  split; [exact Hloop |]. split; [| exact Hord].
  rewrite Hout, Hout2, Hout1. reflexivity.
Qed.

(** C2, amended: whenever the tree could be built, repairs or not,
    the line loop runs over the lines of the file as it is stored
    under the path, read a second time; the repaired text serves the
    tree only. *)
Theorem line_pass_reads_stored_file :
  forall (rounds : nat) (s : analyzer) (tree : Ast.module) (s1 : analyzer),
    built_ast parse read rounds s = (Ret tree, s1) ->
    exists text,
      read (path s) = Some text
      /\ run_checks parse read rounds s
         = (generic_visit tree ;;
            for_each (Py.readlines text) check_line) s1.
Proof. exact run_checks_after_built_ast. Qed.

Lemma line_at_run i l s :
  Py.getitem (file_list_of_lines s) i = Some l -> line_at i s = (Ret l, s).
Proof. intros H. unfold line_at, bind, get. rewrite H. reflexivity. Qed.

(** The repair of a line in which no semicolon is found raises
    [TypeError]; the lines of the working text are all it has set. *)
Lemma fix_syntax_error_without_semicolon lineno line s :
  Py.getitem (Py.splitlines (file_text s)) (lineno - 1) = Some line ->
  find_extra_semicolon line = None ->
  fix_syntax_error lineno s
  = (Raise TypeError,
     set_file_list_of_lines (Py.splitlines (file_text s)) s).
Proof.
  intros Hline Hnone.
  assert (Hat : line_at (lineno - 1)
                  (set_file_list_of_lines (Py.splitlines (file_text s)) s)
                = (Ret line,
                   set_file_list_of_lines (Py.splitlines (file_text s)) s)).
  { apply line_at_run. destruct s; exact Hline. }
  unfold fix_syntax_error, create_working_source.
  unfold bind at 1. unfold modify at 1.
  unfold bind at 1. rewrite Hat.
  unfold bind at 1. rewrite Hat.
  unfold bind at 1. rewrite Hat.
  rewrite Hnone. reflexivity.
Qed.

(** Repairs that succeed use up one round of the loop each. *)
Lemma parse_loop_repaired n s s1 :
  repaired parse n s s1 ->
  forall rounds,
    parse_loop parse (n + rounds) s = parse_loop parse rounds s1.
Proof.
  induction 1 as [s | n s s1 s2 lineno Hp Hfix _ IH
                    | n s s1 s2 lineno Hp Hfix _ IH]; intros rounds.
  - reflexivity.
  - cbn [Nat.add parse_loop]. unfold bind at 1. unfold get at 1.
    cbv beta iota. rewrite Hp. unfold bind at 1. rewrite Hfix. apply IH.
  - cbn [Nat.add parse_loop]. unfold bind at 1. unfold get at 1.
    cbv beta iota. rewrite Hp. unfold bind at 1. rewrite Hfix. apply IH.
Qed.

Lemma repaired_keeps n s s1 :
  repaired parse n s s1 -> only_working_text s s1.
Proof.
  induction 1 as [s | n s s1 s2 lineno Hp Hfix _ IH
                    | n s s1 s2 lineno Hp Hfix _ IH].
  - apply only_working_text_refl.
  - eapply only_working_text_trans; [| exact IH].
    pose proof (fix_indentation_error_keeps lineno s) as H.
    rewrite Hfix in H. exact H.
  - eapply only_working_text_trans; [| exact IH].
    pose proof (fix_syntax_error_keeps lineno s) as H.
    rewrite Hfix in H. exact H.
Qed.

(** C9: the file is read; after any number of repairs that succeed,
    [ast.parse] reports a syntax error on a line of the working text
    in which [find_extra_semicolon] finds no semicolon.  Then
    [run_checks] ends with the [TypeError] of the repair, uncaught,
    and has printed and queued nothing. *)
Theorem repair_without_semicolon_is_fatal :
  forall (rounds n : nat) (s s1 : analyzer) (text line : string)
         (lineno : Z),
    read (path s) = Some text ->
    repaired parse n (set_file_text text s) s1 ->
    parse (file_text s1) = SyntaxError lineno ->
    Py.getitem (Py.splitlines (file_text s1)) (lineno - 1) = Some line ->
    find_extra_semicolon line = None ->
    (n < rounds)%nat ->
    exists s',
      run_checks parse read rounds s = (Raise TypeError, s')
      /\ stdout s' = stdout s
      /\ warning_queue s' = warning_queue s.
Proof.
  intros rounds n s s1 text line lineno Hread Hrep Hparse Hline Hnone Hlt.
  exists (set_file_list_of_lines (Py.splitlines (file_text s1)) s1).
  split.
  - unfold run_checks. unfold bind at 1.
    unfold built_ast, open_read. unfold bind at 1. unfold bind at 1.
    unfold get at 1. cbv beta iota. rewrite Hread.
    unfold ret at 1. cbv beta iota.
    unfold bind at 1. unfold modify at 1. cbv beta iota.
    replace rounds with (n + S (rounds - n - 1))%nat by lia.
    rewrite (parse_loop_repaired n _ s1 Hrep).
    cbn [parse_loop]. unfold bind at 1. unfold get at 1. cbv beta iota.
    rewrite Hparse. unfold bind at 1.
    rewrite (fix_syntax_error_without_semicolon lineno line s1 Hline Hnone).
    reflexivity.
  - apply repaired_keeps, only_working_text_fields in Hrep.
    destruct Hrep as (_ & Hout & Hq & _).
    destruct s1; destruct s; simpl in *. split; assumption.
Qed.

End Parser.

Section ParserRuns.

Import Sample Claimed.

Lemma line_pass_reads_stored_file_witness :
  exists text,
    lookup [("a.py", indented)] (path (set_path "a.py" init)) = Some text
    /\ run_checks indented_parser (lookup [("a.py", indented)]) 8
         (set_path "a.py" init)
       = (generic_visit
            [Ast.Assign [name "x" 1]; Ast.Assign [name "y" 2]] ;;
          for_each (Py.readlines text) check_line)
           (snd (built_ast indented_parser (lookup [("a.py", indented)]) 8
                   (set_path "a.py" init))).
Proof.
  apply (line_pass_reads_stored_file indented_parser
           (lookup [("a.py", indented)]) 8 (set_path "a.py" init)).
  vm_compute. reflexivity.
Defined.

Lemma repair_without_semicolon_is_fatal_witness :
  exists s',
    run_checks (parser [(unclosed, SyntaxError 1)])
               (lookup [("a.py", unclosed)]) 8 (set_path "a.py" init)
    = (Raise TypeError, s')
    /\ stdout s' = stdout (set_path "a.py" init)
    /\ warning_queue s' = warning_queue (set_path "a.py" init).
Proof.
  apply (repair_without_semicolon_is_fatal
           (parser [(unclosed, SyntaxError 1)])
           (lookup [("a.py", unclosed)]) 8 0
           (set_path "a.py" init)
           (set_file_text unclosed (set_path "a.py" init))
           unclosed unclosed 1).
  - reflexivity.
  - apply repaired_none.
  - reflexivity.
  - reflexivity.
  - reflexivity.
  - lia.
Defined.

End ParserRuns.

(* ===================================================================== *)
(** * The stray-semicolon rule *)
(* ===================================================================== *)

Section Semicolon.

Import Claimed.

Lemma drop_drop a b s : Py.drop b (Py.drop a s) = Py.drop (a + b) s.
Proof.
  revert s; induction a as [| a IH]; intros s; simpl; [reflexivity |].
  destruct s; simpl; [destruct b; reflexivity | apply IH].
Qed.

Lemma get_drop a k s : String.get k (Py.drop a s) = String.get (a + k) s.
Proof.
  revert s; induction a as [| a IH]; intros s; simpl; [reflexivity |].
  destruct s; simpl; [destruct k; reflexivity | apply IH].
Qed.

Lemma count_nonneg c s : 0 <= Py.count c s.
Proof. induction s as [| a s IH]; simpl; [lia |]. destruct (Ascii.eqb a c); lia. Qed.

(** Where a character occurs, [find_at] gives its first place, and
    one occurrence less lies behind it. *)
Lemma find_at_first c s i0 :
  0 < Py.count c s ->
  exists k,
    Py.find_at c s i0 = i0 + Z.of_nat k
    /\ String.get k s = Some c
    /\ Py.count c (Py.drop (S k) s) = Py.count c s - 1.
Proof.
  revert i0; induction s as [| a s IH]; intros i0 Hc; simpl in *; [lia |].
  destruct (Ascii.eqb a c) eqn:E.
  - apply Ascii.eqb_eq in E. subst a. exists O. cbn [Py.drop String.get].
    split; [lia | split; [reflexivity | lia]].
  - destruct (IH (i0 + 1)) as (k & Hf & Hg & Hd); [lia |].
    exists (S k). cbn [Py.drop String.get] in *.
    split; [lia | split; [exact Hg | lia]].
Qed.

Lemma find_from c s (p : nat) :
  (p <= String.length s)%nat ->
  Py.find s c (Z.of_nat p) = Py.find_at c (Py.drop p s) (Z.of_nat p).
Proof.
  intros Hp. unfold Py.find, Py.clip, Py.len.
  destruct (Z.of_nat (String.length s) <? Z.of_nat p) eqn:E;
    [apply Z.ltb_lt in E; lia |].
  destruct (Z.of_nat p <? 0) eqn:E0; [apply Z.ltb_lt in E0; lia |].
  rewrite Z.min_l by lia. rewrite Nat2Z.id. reflexivity.
Qed.

Lemma hash_rounds_returns s ha si n hi j h' :
  hash_rounds s ha si n hi = (Some j, h') -> j = si.
Proof.
  revert hi; induction n as [| n IH]; intros hi; simpl; [discriminate |].
  destruct (skipped s si hi); [apply IH |].
  intros H; inversion H; reflexivity.
Qed.

Lemma semicolon_rounds_returns s ha n :
  forall (p : nat) hi i,
    (p <= String.length s)%nat ->
    Z.of_nat n <= Py.count semicolon (Py.drop p s) ->
    semicolon_rounds s ha n (Z.of_nat p - 1) hi = Some i ->
    0 <= i /\ String.get (Z.to_nat i) s = Some semicolon.
Proof.
  induction n as [| n IH]; intros p hi i Hp Hc; simpl; [discriminate |].
  replace (Z.of_nat p - 1 + 1) with (Z.of_nat p) by lia.
  rewrite (find_from semicolon s p Hp).
  destruct (find_at_first semicolon (Py.drop p s) (Z.of_nat p))
    as (k & Hf & Hg & Hd); [lia |].
  rewrite Hf. rewrite get_drop in Hg.
  destruct (hash_rounds s ha (Z.of_nat p + Z.of_nat k) (Z.to_nat ha) hi)
    as [[j |] h'] eqn:Hh.
  - apply hash_rounds_returns in Hh. intros H; inversion H; subst.
    split; [lia |].
    replace (Z.to_nat (Z.of_nat p + Z.of_nat k)) with (p + k)%nat by lia.
    exact Hg.
  - replace (Z.of_nat p + Z.of_nat k) with (Z.of_nat (S (p + k)) - 1) by lia.
    apply IH.
    + assert (p + k < String.length s)%nat; [| lia].
      destruct (Nat.lt_ge_cases (p + k) (String.length s)) as [Hlt | Hge];
        [exact Hlt |].
      clear - Hg Hge. exfalso.
      revert Hg Hge. generalize (p + k)%nat as m. clear.
      induction s as [| a s IHs]; intros m Hg Hge; simpl in *;
        [destruct m; discriminate |].
      destruct m; [lia |]. apply (IHs m Hg). lia.
    + rewrite drop_drop in Hd.
      replace (S (p + k)) with (p + S k)%nat by lia. lia.
Qed.

(** What [find_extra_semicolon] returns is the place of a semicolon
    of the line. *)
Lemma find_extra_semicolon_is_semicolon line i :
  find_extra_semicolon line = Some i ->
  0 <= i /\ String.get (Z.to_nat i) line = Some semicolon.
Proof.
  unfold find_extra_semicolon. intros H.
  apply (semicolon_rounds_returns line _ _ O _ i) in H;
    [exact H | lia |].
  cbn [Py.drop]. pose proof (count_nonneg semicolon line). lia.
Qed.

Lemma printed_emit {A} (c : M A) s r out :
  c s = (r, emit out s) -> printed c s = out.
Proof.
  intros H. unfold printed. rewrite H. destruct s; simpl.
  rewrite List.skipn_app, List.skipn_all, Nat.sub_diag. reflexivity.
Qed.

Lemma semicolon_findings_run line s :
  semicolon_findings line s
  = if Py.contains semicolon line && truthy (find_extra_semicolon line)
    then [Msg (path s) (line_number s) S003 ""] else [].
Proof.
  unfold semicolon_findings.
  erewrite printed_emit by apply check_semicolon_run.
  destruct s; reflexivity.
Qed.

(** C8, at the failing input: a semicolon in the first column
    qualifies in the specification's words (no comment marker, no
    quote), so the rule should print its one diagnostic; the code
    finds it, at index 0, takes the 0 for "none found" and prints
    nothing: on the line alone, on the file [;x = 1], which is
    repaired by removing that very semicolon, and on a file that
    parses as it is, where the semicolon separates two statements.
    The three lines of the specification, and a semicolon between
    single quotes, do as claimed.  The other way round, on
    [x = 1  # a; b # c;] no semicolon qualifies, both stand behind
    the comment marker, and the code reports the first. *)
Theorem semicolon_in_first_column_not_reported :
  (forall s,
      semicolon_findings Sample.trailing_semicolon s = [at_cursor s S003]
      /\ semicolon_findings
           (Sample.trailing_semicolon ++ Sample.nl)%string s
         = [at_cursor s S003]
      /\ claimed_semicolon_findings Sample.trailing_semicolon s
         = [at_cursor s S003])
  /\ (forall s,
         semicolon_findings Sample.semicolon_in_comment s = []
         /\ semicolon_findings
              (Sample.semicolon_in_comment ++ Sample.nl)%string s = []
         /\ claimed_semicolon_findings Sample.semicolon_in_comment s = [])
  /\ (forall s,
         semicolon_findings Sample.semicolon_in_quotes s = []
         /\ semicolon_findings
              (Sample.semicolon_in_quotes ++ Sample.nl)%string s = []
         /\ claimed_semicolon_findings Sample.semicolon_in_quotes s = [])
  /\ (forall s,
         semicolon_findings Sample.semicolon_in_single_quotes s = []
         /\ claimed_semicolon_findings Sample.semicolon_in_single_quotes s
            = [])
  /\ first_qualifying Sample.leading_semicolon = Some 0%nat
  /\ find_extra_semicolon Sample.leading_semicolon = Some 0
  /\ (forall s,
         claimed_semicolon_findings Sample.leading_semicolon s
         = [at_cursor s S003]
         /\ semicolon_findings Sample.leading_semicolon s = []
         /\ semicolon_findings
              (Sample.leading_semicolon ++ Sample.nl)%string s = [])
  /\ fst (Sample.on_file Sample.leading_semicolon_file
            [(Sample.leading_semicolon_file, SyntaxError 1);
             (Sample.leading_semicolon_repaired,
              Tree [Ast.Assign [Sample.name "x" 1]])])
     = Ret tt
  /\ file_text
       (snd (Sample.on_file Sample.leading_semicolon_file
               [(Sample.leading_semicolon_file, SyntaxError 1);
                (Sample.leading_semicolon_repaired,
                 Tree [Ast.Assign [Sample.name "x" 1]])]))
     = Sample.leading_semicolon_repaired
  /\ Sample.lines_of
       (Sample.on_file Sample.leading_semicolon_file
          [(Sample.leading_semicolon_file, SyntaxError 1);
           (Sample.leading_semicolon_repaired,
            Tree [Ast.Assign [Sample.name "x" 1]])])
     = []
  /\ fst (Sample.on_file Sample.joined_lines
            [(Sample.joined_lines,
              Tree [Ast.Assign [Sample.name "x" 1];
                    Ast.Assign [Sample.name "y" 2]])])
     = Ret tt
  /\ Sample.lines_of
       (Sample.on_file Sample.joined_lines
          [(Sample.joined_lines,
            Tree [Ast.Assign [Sample.name "x" 1];
                  Ast.Assign [Sample.name "y" 2]])])
     = []
  /\ first_qualifying Sample.commented_semicolons = None
  /\ find_extra_semicolon Sample.commented_semicolons = Some 10
  /\ (forall s,
         claimed_semicolon_findings Sample.commented_semicolons s = []
         /\ semicolon_findings Sample.commented_semicolons s
            = [at_cursor s S003]).
Proof.
  repeat match goal with |- _ /\ _ => split end;
    try (vm_compute; reflexivity);
    intros s; rewrite ?semicolon_findings_run;
    repeat match goal with |- _ /\ _ => split end; reflexivity.
Qed.

End Semicolon.

(* ===================================================================== *)
(** * Lines and text *)
(* ===================================================================== *)

Section Text.

Lemma append_assoc (a b c : string) :
  ((a ++ b) ++ c)%string = (a ++ (b ++ c))%string.
Proof. induction a as [| x a IH]; simpl; [reflexivity | rewrite IH; reflexivity]. Qed.

Lemma append_empty (a : string) : (a ++ "")%string = a.
Proof. induction a as [| x a IH]; simpl; [reflexivity | rewrite IH; reflexivity]. Qed.

Lemma join_app (l1 l2 : list string) :
  Py.join (l1 ++ l2) = (Py.join l1 ++ Py.join l2)%string.
Proof.
  induction l1 as [| a l1 IH]; simpl; [reflexivity |].
  unfold Py.join in *. simpl. rewrite IH, append_assoc. reflexivity.
Qed.

Lemma join_push_front c ls : Py.join (Py.push_front c ls) = String c (Py.join ls).
Proof. destruct ls; reflexivity. Qed.

(** Cutting a text into lines with their ends kept and joining the
    lines gives the text back. *)
Lemma join_splitlines t : Py.join (Py.splitlines t) = t.
Proof.
  induction t as [| c t IH]; [reflexivity |].
  cbn [Py.splitlines].
  destruct (Py.is_linebreak c);
    [destruct (_ && _) |];
    rewrite ?join_push_front; unfold Py.join in *; simpl; rewrite IH;
    reflexivity.
Qed.

Lemma join_readlines t : Py.join (Py.readlines t) = t.
Proof.
  induction t as [| c t IH]; [reflexivity |].
  cbn [Py.readlines].
  destruct (Py.code c =? 10);
    rewrite ?join_push_front; unfold Py.join in *; simpl; rewrite IH;
    reflexivity.
Qed.

Lemma set_nth_middle {A} (l1 l2 : list A) a v :
  Py.set_nth (l1 ++ a :: l2) (List.length l1) v = l1 ++ v :: l2.
Proof. induction l1 as [| x l1 IH]; simpl; [reflexivity | rewrite IH; reflexivity]. Qed.

(** An index [getitem] accepts names one element of the list, the one
    [setitem] replaces. *)
Lemma getitem_split {A} (l : list A) i a :
  Py.getitem l i = Some a ->
  exists l1 l2,
    l = l1 ++ a :: l2 /\ forall v, Py.setitem l i v = l1 ++ v :: l2.
Proof.
  unfold Py.getitem, Py.setitem.
  destruct (i <? 0) eqn:E.
  - destruct (i + Z.of_nat (List.length l) <? 0); [discriminate |].
    intros H. apply nth_error_split in H. destruct H as (l1 & l2 & Hl & Hn).
    exists l1, l2. split; [exact Hl |]. intros v.
    rewrite <- Hn. rewrite Hl at 1. apply set_nth_middle.
  - intros H. apply nth_error_split in H. destruct H as (l1 & l2 & Hl & Hn).
    exists l1, l2. split; [exact Hl |]. intros v.
    rewrite <- Hn. rewrite Hl at 1. apply set_nth_middle.
Qed.

End Text.

(* ===================================================================== *)
(** * The two repairs *)
(* ===================================================================== *)

Section Repairs.

Import Claimed.

Variable parse : string -> parsed.
Variable read : string -> option string.

Lemma line_at_working_source i s :
  line_at i (set_file_list_of_lines (Py.splitlines (file_text s)) s)
  = match Py.getitem (Py.splitlines (file_text s)) i with
    | Some l =>
        (Ret l, set_file_list_of_lines (Py.splitlines (file_text s)) s)
    | None =>
        (Raise IndexError,
         set_file_list_of_lines (Py.splitlines (file_text s)) s)
    end.
Proof.
  unfold line_at, bind, get. cbv beta iota.
  replace (file_list_of_lines
             (set_file_list_of_lines (Py.splitlines (file_text s)) s))
    with (Py.splitlines (file_text s)) by (destruct s; reflexivity).
  destruct (Py.getitem _ i); reflexivity.
Qed.

(** The state a repair leaves when it stores line [l'] at index [i]. *)
Lemma store_line_working_source i l' s :
  store_line i l' (set_file_list_of_lines (Py.splitlines (file_text s)) s)
  = (Ret tt,
     set_file_text
       (Py.join (Py.setitem (Py.splitlines (file_text s)) i l'))
       (set_file_list_of_lines
          (Py.setitem (Py.splitlines (file_text s)) i l') s)).
Proof. destruct s; reflexivity. Qed.

Lemma fix_indentation_error_run lineno s :
  fix_indentation_error lineno s
  = match Py.getitem (Py.splitlines (file_text s)) (lineno - 1) with
    | Some l =>
        (Ret tt,
         set_file_text
           (Py.join (Py.setitem (Py.splitlines (file_text s)) (lineno - 1)
                       (Py.lstrip l)))
           (set_file_list_of_lines
              (Py.setitem (Py.splitlines (file_text s)) (lineno - 1)
                 (Py.lstrip l)) s))
    | None =>
        (Raise IndexError,
         set_file_list_of_lines (Py.splitlines (file_text s)) s)
    end.
Proof.
  unfold fix_indentation_error, create_working_source, bind, modify.
  rewrite line_at_working_source.
  destruct (Py.getitem _ _); [apply store_line_working_source | reflexivity].
Qed.

(** X1: the indentation repair fails with [IndexError] when the line
    the parser names is not a line of the working text; otherwise it
    returns, and the working text is the old one with the leading white
    space of that one line removed, every other line as it was. *)
Theorem indentation_repair_strips_one_line :
  forall (lineno : Z) (s : analyzer),
    (Py.getitem (Py.splitlines (file_text s)) (lineno - 1) = None
     /\ fst (fix_indentation_error lineno s) = Raise IndexError
     /\ file_text (snd (fix_indentation_error lineno s)) = file_text s)
    \/ (exists l before after s',
          Py.getitem (Py.splitlines (file_text s)) (lineno - 1) = Some l
          /\ fix_indentation_error lineno s = (Ret tt, s')
          /\ file_text s
             = (Py.join before ++ l ++ Py.join after)%string
          /\ file_text s'
             = (Py.join before ++ Py.lstrip l ++ Py.join after)%string
          /\ file_list_of_lines s' = before ++ Py.lstrip l :: after
          /\ stdout s' = stdout s).
Proof.
  intros lineno s. rewrite fix_indentation_error_run.
  destruct (Py.getitem (Py.splitlines (file_text s)) (lineno - 1))
    as [l |] eqn:Hget.
  - right.
    destruct (getitem_split _ _ _ Hget) as (before & after & Hsplit & Hset).
    exists l, before, after. eexists. split; [reflexivity |].
    split; [reflexivity |]. rewrite Hset.
    replace (file_text s) with (Py.join (Py.splitlines (file_text s)))
      at 1 by apply join_splitlines.
    rewrite Hsplit. destruct s. cbn [file_text file_list_of_lines stdout
      set_file_text set_file_list_of_lines].
    rewrite !join_app. unfold Py.join. cbn [fold_right].
    repeat split.
  - left. destruct s; repeat split.
Qed.

Lemma setitem_same {A} (l : list A) i a :
  Py.getitem l i = Some a -> Py.setitem l i a = l.
Proof.
  intros H. destruct (getitem_split l i a H) as (l1 & l2 & Hl & Hset).
  rewrite Hset. symmetry. exact Hl.
Qed.

(** An indentation repair on a line without leading white space
    changes nothing in the working text. *)
Lemma fix_indentation_error_without_indentation lineno l s :
  Py.getitem (Py.splitlines (file_text s)) (lineno - 1) = Some l ->
  Py.lstrip l = l ->
  fix_indentation_error lineno s
  = (Ret tt,
     set_file_text (file_text s)
       (set_file_list_of_lines (Py.splitlines (file_text s)) s)).
Proof.
  intros Hget Hl. rewrite fix_indentation_error_run, Hget, Hl.
  rewrite (setitem_same _ _ _ Hget), join_splitlines. reflexivity.
Qed.

Lemma parse_loop_without_progress text lineno l :
  parse text = IndentationError lineno ->
  Py.getitem (Py.splitlines text) (lineno - 1) = Some l ->
  Py.lstrip l = l ->
  forall rounds s,
    file_text s = text ->
    exists s',
      parse_loop parse rounds s = (Spin, s')
      /\ file_text s' = text /\ stdout s' = stdout s.
Proof.
  intros Hparse Hget Hl. induction rounds as [| rounds IH]; intros s Ht.
  - exists s. repeat split. exact Ht.
  - cbn [parse_loop]. unfold bind at 1. unfold get at 1. cbv beta iota.
    rewrite Ht, Hparse. unfold bind at 1.
    rewrite (fix_indentation_error_without_indentation lineno l s)
      by (rewrite ?Ht; assumption).
    destruct (IH (set_file_text (file_text s)
                    (set_file_list_of_lines (Py.splitlines (file_text s)) s)))
      as (s' & Hloop & Ht' & Hout).
    { destruct s; exact Ht. }
    exists s'. split; [exact Hloop |]. split; [exact Ht' |].
    rewrite Hout. destruct s; reflexivity.
Qed.

(** X2: when the parser reports an indentation error on a line that
    has no leading white space, the repair changes nothing and the
    loop of [built_ast] never ends: whatever number of rounds it is
    given, [run_checks] is still in the loop, with nothing printed. *)
Theorem indentation_error_without_indentation_loops :
  forall (rounds : nat) (s : analyzer) (text l : string) (lineno : Z),
    read (path s) = Some text ->
    parse text = IndentationError lineno ->
    Py.getitem (Py.splitlines text) (lineno - 1) = Some l ->
    Py.lstrip l = l ->
    exists s',
      run_checks parse read rounds s = (Spin, s')
      /\ stdout s' = stdout s.
Proof.
  intros rounds s text l lineno Hread Hparse Hget Hl.
  destruct (parse_loop_without_progress text lineno l Hparse Hget Hl rounds
              (set_file_text text s)) as (s' & Hloop & _ & Hout).
  { destruct s; reflexivity. }
  exists s'. split; [| rewrite Hout; destruct s; reflexivity].
  unfold run_checks. unfold bind at 1. unfold built_ast, open_read.
  unfold bind at 1. unfold bind at 1. unfold get at 1. cbv beta iota.
  rewrite Hread. unfold ret at 1. cbv beta iota.
  unfold bind at 1. unfold modify at 1. cbv beta iota.
  rewrite Hloop. reflexivity.
Qed.

Lemma drop_length n t :
  String.length (Py.drop n t) = (String.length t - n)%nat.
Proof.
  revert t; induction n as [| n IH]; intros t; simpl; [lia |].
  destruct t; simpl; [reflexivity | apply IH].
Qed.

Lemma take_all n t : (String.length t <= n)%nat -> Py.take n t = t.
Proof.
  revert t; induction n as [| n IH]; intros [| c t] H; simpl in *;
    try reflexivity; [lia |].
  rewrite IH by lia. reflexivity.
Qed.

Lemma take_get_drop n t c :
  String.get n t = Some c ->
  t = (Py.take n t ++ String c (Py.drop (S n) t))%string
  /\ (n < String.length t)%nat.
Proof.
  revert t; induction n as [| n IH]; intros [| a t] H; simpl in *;
    try discriminate.
  - inversion H; subst. split; [reflexivity | lia].
  - destruct (IH t H) as (Ht & Hn). split; [| lia].
    f_equal. exact Ht.
Qed.

Lemma count_append c a b :
  Py.count c (a ++ b)%string = Py.count c a + Py.count c b.
Proof. induction a as [| x a IH]; simpl; [reflexivity | rewrite IH; lia]. Qed.

(** The two slices of [fix_syntax_error] around a place of the line. *)
Lemma slice_before i t :
  0 <= i -> (Z.to_nat i < String.length t)%nat ->
  Py.slice t None (Some i) = Py.take (Z.to_nat i) t.
Proof.
  intros Hi Hn. unfold Py.slice, Py.clip, Py.len.
  destruct (i <? 0) eqn:E; [apply Z.ltb_lt in E; lia |].
  rewrite Z.min_l by lia. rewrite Z.sub_0_r. reflexivity.
Qed.

Lemma slice_after i t :
  0 <= i -> (Z.to_nat i < String.length t)%nat ->
  Py.slice t (Some (i + 1)) None = Py.drop (S (Z.to_nat i)) t.
Proof.
  intros Hi Hn. unfold Py.slice, Py.clip, Py.len.
  destruct (i + 1 <? 0) eqn:E; [apply Z.ltb_lt in E; lia |].
  rewrite Z.min_l by lia.
  replace (Z.to_nat (i + 1)) with (S (Z.to_nat i)) by lia.
  apply take_all. rewrite drop_length. lia.
Qed.

Lemma fix_syntax_error_run lineno l i s :
  Py.getitem (Py.splitlines (file_text s)) (lineno - 1) = Some l ->
  find_extra_semicolon l = Some i ->
  fix_syntax_error lineno s
  = (Ret tt,
     set_file_text
       (Py.join (Py.setitem (Py.splitlines (file_text s)) (lineno - 1)
                   (Py.slice l None (Some i)
                    ++ Py.slice l (Some (i + 1)) None)%string))
       (set_file_list_of_lines
          (Py.setitem (Py.splitlines (file_text s)) (lineno - 1)
             (Py.slice l None (Some i)
              ++ Py.slice l (Some (i + 1)) None)%string) s)).
Proof.
  intros Hget Hfind.
  unfold fix_syntax_error, create_working_source, bind, modify.
  rewrite !line_at_working_source, Hget. cbv beta iota.
  rewrite !line_at_working_source, Hget. cbv beta iota.
  rewrite !line_at_working_source, Hget. cbv beta iota.
  rewrite Hfind. apply store_line_working_source.
Qed.

(** X3: a syntax repair that finds a semicolon returns, and the
    working text is the old one without that one character, a
    semicolon of the line the parser named: one semicolon and one
    character less, every other line as it was, nothing printed. *)
Theorem syntax_repair_removes_one_semicolon :
  forall (lineno i : Z) (l : string) (s : analyzer),
    Py.getitem (Py.splitlines (file_text s)) (lineno - 1) = Some l ->
    find_extra_semicolon l = Some i ->
    exists before after s',
      fix_syntax_error lineno s = (Ret tt, s')
      /\ file_text s
         = (Py.join before
            ++ (Py.take (Z.to_nat i) l
                ++ String semicolon (Py.drop (S (Z.to_nat i)) l))
            ++ Py.join after)%string
      /\ file_text s'
         = (Py.join before
            ++ (Py.take (Z.to_nat i) l ++ Py.drop (S (Z.to_nat i)) l)
            ++ Py.join after)%string
      /\ Py.count semicolon (file_text s')
         = Py.count semicolon (file_text s) - 1
      /\ Py.len (file_text s') = Py.len (file_text s) - 1
      /\ stdout s' = stdout s.
Proof.
  intros lineno i l s Hget Hfind.
  destruct (find_extra_semicolon_is_semicolon l i Hfind) as (Hi & Hchar).
  destruct (take_get_drop _ _ _ Hchar) as (Hl & Hn).
  destruct (getitem_split _ _ _ Hget) as (before & after & Hsplit & Hset).
  exists before, after. eexists.
  split; [apply (fix_syntax_error_run lineno l i s Hget Hfind) |].
  rewrite Hset, (slice_before i l Hi Hn), (slice_after i l Hi Hn).
  assert (Hold : file_text s
                 = (Py.join before
                    ++ (Py.take (Z.to_nat i) l
                        ++ String semicolon (Py.drop (S (Z.to_nat i)) l))
                    ++ Py.join after)%string).
  { rewrite <- Hl. rewrite <- (join_splitlines (file_text s)) at 1.
    rewrite Hsplit, join_app. unfold Py.join. cbn [fold_right]. reflexivity. }
  assert (Hnew : file_text
                   (set_file_text
                      (Py.join
                         (before
                          ++ (Py.take (Z.to_nat i) l
                              ++ Py.drop (S (Z.to_nat i)) l)%string :: after))
                      (set_file_list_of_lines
                         (before
                          ++ (Py.take (Z.to_nat i) l
                              ++ Py.drop (S (Z.to_nat i)) l)%string :: after)
                         s))
                 = (Py.join before
                    ++ (Py.take (Z.to_nat i) l ++ Py.drop (S (Z.to_nat i)) l)
                    ++ Py.join after)%string).
  { destruct s. cbn [file_text set_file_text set_file_list_of_lines].
    rewrite join_app. unfold Py.join. cbn [fold_right]. reflexivity. }
  split; [exact Hold |]. split; [exact Hnew |].
  rewrite Hnew, Hold. unfold Py.len.
  rewrite !count_append, !length_append. cbn [Py.count String.length].
  rewrite Ascii.eqb_refl.
  split; [lia |]. split; [lia |]. destruct s; reflexivity.
Qed.

End Repairs.

Section RepairRuns.

Import Sample.

Lemma indentation_error_without_indentation_loops_witness :
  exists s',
    run_checks (parser [(no_body, IndentationError 1)])
               (lookup [("a.py", no_body)]) 1000 (set_path "a.py" init)
    = (Spin, s')
    /\ stdout s' = stdout (set_path "a.py" init).
Proof.
  apply (indentation_error_without_indentation_loops
           (parser [(no_body, IndentationError 1)])
           (lookup [("a.py", no_body)]) 1000 (set_path "a.py" init)
           no_body no_body 1); reflexivity.
Defined.

Lemma syntax_repair_removes_one_semicolon_witness :
  exists before after s',
    fix_syntax_error 1 (set_file_text header_semicolon init) = (Ret tt, s')
    /\ file_text (set_file_text header_semicolon init)
       = (Py.join before
          ++ (Py.take (Z.to_nat 8) ("def f():;" ++ nl)
              ++ String semicolon
                   (Py.drop (S (Z.to_nat 8)) ("def f():;" ++ nl)))
          ++ Py.join after)%string
    /\ file_text s'
       = (Py.join before
          ++ (Py.take (Z.to_nat 8) ("def f():;" ++ nl)
              ++ Py.drop (S (Z.to_nat 8)) ("def f():;" ++ nl))
          ++ Py.join after)%string
    /\ Py.count semicolon (file_text s')
       = Py.count semicolon (file_text (set_file_text header_semicolon init))
         - 1
    /\ Py.len (file_text s')
       = Py.len (file_text (set_file_text header_semicolon init)) - 1
    /\ stdout s' = stdout (set_file_text header_semicolon init).
Proof.
  apply (syntax_repair_removes_one_semicolon 1 8 ("def f():;" ++ nl)%string
           (set_file_text header_semicolon init)); reflexivity.
Defined.

End RepairRuns.

(* ===================================================================== *)
(** * More on the tree walker *)
(* ===================================================================== *)

Section TreeWalkerMore.

Import Claimed.

Variable parse : string -> parsed.
Variable read : string -> option string.

(** X4: whatever the tree and however the walk ends, the tree pass
    prints nothing and leaves the path, the line number, the counter of
    blank lines and the working text as they were: it touches the
    queue only. *)
Theorem tree_pass_prints_nothing :
  forall (tree : Ast.module) (s : analyzer),
    stdout (snd (generic_visit tree s)) = stdout s
    /\ path (snd (generic_visit tree s)) = path s
    /\ line_number (snd (generic_visit tree s)) = line_number s
    /\ blank_lines_counter (snd (generic_visit tree s))
       = blank_lines_counter s
    /\ file_text (snd (generic_visit tree s)) = file_text s.
Proof.
  intros tree s.
  destruct (only_queue_fields _ _ (generic_visit_only_queue tree s))
    as (Hp & Ho & Hn & Hc & Ht).
  repeat split; assumption.
Qed.

(** X5: however [built_ast] ends (a tree, an exception, or still in
    its loop), it has printed nothing and has left the path, the queue,
    the line number and the counter of blank lines as they were: the
    repairs touch the working text and its lines only, never the
    file. *)
Theorem built_ast_touches_working_text_only :
  forall (rounds : nat) (s : analyzer),
    path (snd (built_ast parse read rounds s)) = path s
    /\ stdout (snd (built_ast parse read rounds s)) = stdout s
    /\ warning_queue (snd (built_ast parse read rounds s)) = warning_queue s
    /\ line_number (snd (built_ast parse read rounds s)) = line_number s
    /\ blank_lines_counter (snd (built_ast parse read rounds s))
       = blank_lines_counter s.
Proof.
  intros rounds s.
  apply only_working_text_fields, built_ast_keeps.
Qed.

(** X6: every entry the tree pass queues is of one of the rules S010
    to S012 and is keyed by the line its message names, the finding on
    an element of a tuple excepted; sorting keeps that. *)
Theorem tree_pass_queues_tree_entries :
  forall (tree : Ast.module) (s : analyzer),
    Forall tree_entry (warning_queue s) ->
    Forall tree_entry (warning_queue (snd (generic_visit tree s))).
Proof. intros tree s. apply (generic_visit_entries tree s). Qed.

Lemma check_argument_names_run items s :
  (Forall (fun n => bad_arg n = false) items
   /\ check_argument_names items s = (Ret tt, s))
  \/ (exists before item after name,
        items = before ++ item :: after
        /\ Forall (fun n => bad_arg n = false) before
        /\ Ast.node_kind item = Ast.Arg name
        /\ is_snake_case name = false
        /\ check_argument_names items s
           = (Ret tt,
              set_warning_queue
                (warning_queue s
                 ++ [(Ast.lineno item,
                      Msg (path s) (Ast.lineno item) S010 name)]) s)).
Proof.
  induction items as [| item rest IH]; [left; split; [constructor | reflexivity] |].
  cbn [check_argument_names].
  destruct (Ast.node_kind item) as [id | | | | | name |] eqn:K;
    try (destruct IH as [(Hall & Hrun)
                        | (before & item' & after & name' & Hi & Hb & Hk
                           & Hn & Hrun)];
         [left; split; [constructor; [unfold bad_arg; rewrite K; reflexivity
                                     | exact Hall] | exact Hrun]
         | right; exists (item :: before), item', after, name';
           subst rest;
           repeat split;
             [constructor; [unfold bad_arg; rewrite K; reflexivity | exact Hb]
             | exact Hk | exact Hn | exact Hrun]]).
  destruct (is_snake_case name) eqn:E; cbn [negb].
  - destruct IH as [(Hall & Hrun)
                   | (before & item' & after & name' & Hi & Hb & Hk
                      & Hn & Hrun)].
    + left. split; [| exact Hrun].
      constructor; [unfold bad_arg; rewrite K, E; reflexivity | exact Hall].
    + right. exists (item :: before), item', after, name'. subst rest.
      repeat split; try assumption.
      constructor; [unfold bad_arg; rewrite K, E; reflexivity | exact Hb].
  - right. exists [], item, rest, name.
    repeat split; [constructor | exact K | exact E].
Qed.

(** X7: the parameter check walks the parameters of a routine breadth
    first and reports one of them at most: either no parameter has a
    name outside snake case and nothing is queued, or exactly one entry
    is queued, for the first such parameter of the walk, at its
    line. *)
Theorem first_bad_argument_reported_once :
  forall (a : Ast.arguments) (s : analyzer),
    (Forall (fun n => bad_arg n = false) (Ast.walk_arguments a)
     /\ check_argument_name a s = (Ret tt, s))
    \/ (exists before item after name,
          Ast.walk_arguments a = before ++ item :: after
          /\ Forall (fun n => bad_arg n = false) before
          /\ Ast.node_kind item = Ast.Arg name
          /\ is_snake_case name = false
          /\ check_argument_name a s
             = (Ret tt,
                set_warning_queue
                  (warning_queue s
                   ++ [(Ast.lineno item,
                        Msg (path s) (Ast.lineno item) S010 name)]) s)).
Proof. intros a s. apply check_argument_names_run. Qed.

(** X8: a tuple target whose elements are names in snake case up to
    an element that is no name (a subscript, an attribute, a starred
    or nested target) makes the check of the statement raise
    [AttributeError], with nothing queued. *)
Theorem tuple_element_without_id_raises :
  forall (before after : list Ast.node) (other : Ast.node)
         (lineno : Z) (rest : list Ast.node) (s : analyzer),
    Forall passing_name before ->
    (forall id, Ast.node_kind other <> Ast.Name id) ->
    check_statement
      (Ast.Assign
         (Ast.Node Ast.Tuple lineno (before ++ other :: after) :: rest)) s
    = (Raise AttributeError, s).
Proof.
  intros before after other lineno rest s Hb Hother.
  cbn [check_statement check_targets Ast.node_kind Ast.lineno Ast.children].
  unfold bind.
  replace (check_tuple_items lineno (before ++ other :: after) s)
    with (@Raise unit AttributeError, s); [reflexivity |].
  symmetry. induction Hb as [| t before Ht _ IH]; cbn [app check_tuple_items].
  - destruct (Ast.node_kind other) as [id | | | | | |] eqn:K;
      try reflexivity.
    exfalso. apply (Hother id). reflexivity.
  - unfold passing_name in Ht.
    destruct (Ast.node_kind t); try contradiction.
    rewrite Ht. exact IH.
Qed.

(** X9: when the tree pass raises, [run_checks] ends with that
    exception before it reads a line: the file gets no diagnostic, not
    even those of the line pass. *)
Theorem tree_pass_failure_suppresses_line_pass :
  forall (rounds : nat) (s s1 s2 : analyzer) (tree : Ast.module) (e : exn),
    built_ast parse read rounds s = (Ret tree, s1) ->
    generic_visit tree s1 = (Raise e, s2) ->
    run_checks parse read rounds s = (Raise e, s2)
    /\ stdout s2 = stdout s.
Proof.
  intros rounds s s1 s2 tree e Hbuilt Hvisit. split.
  - unfold run_checks. unfold bind at 1. rewrite Hbuilt.
    unfold bind at 1. rewrite Hvisit. reflexivity.
  - destruct (only_queue_fields _ _ (generic_visit_only_queue tree s1))
      as (_ & Ho & _).
    destruct (only_working_text_fields _ _ (built_ast_keeps parse read rounds s))
      as (_ & Ho1 & _).
    rewrite Hvisit in Ho. rewrite Hbuilt in Ho1. cbn [snd] in *.
    congruence.
Qed.

End TreeWalkerMore.

Section TreeWalkerRuns.

Import Sample Claimed.

Lemma tree_pass_queues_tree_entries_witness :
  Forall tree_entry
         (warning_queue
            (snd (generic_visit three_lines_tree (set_path "a.py" init)))).
Proof.
  apply (tree_pass_queues_tree_entries three_lines_tree (set_path "a.py" init)).
  constructor.
Defined.

Lemma tuple_element_without_id_raises_witness :
  check_statement
    (Ast.Assign
       [Ast.Node Ast.Tuple 2
          ([name "a" 2] ++ Ast.Node Ast.Expr 2 [Ast.Node Ast.Expr 2 []] :: [])])
    init
  = (Raise AttributeError, init).
Proof.
  apply (tuple_element_without_id_raises [name "a" 2] []
           (Ast.Node Ast.Expr 2 [Ast.Node Ast.Expr 2 []]) 2 [] init).
  - constructor; [reflexivity | constructor].
  - intros id H. discriminate H.
Defined.

Lemma tree_pass_failure_suppresses_line_pass_witness :
  run_checks (parser [(subscript_target, Tree subscript_target_tree)])
             (lookup [("a.py", subscript_target)]) 8 (set_path "a.py" init)
  = (Raise AttributeError,
     set_file_text subscript_target (set_path "a.py" init))
  /\ stdout (set_file_text subscript_target (set_path "a.py" init))
     = stdout (set_path "a.py" init).
Proof.
  apply (tree_pass_failure_suppresses_line_pass
           (parser [(subscript_target, Tree subscript_target_tree)])
           (lookup [("a.py", subscript_target)]) 8 (set_path "a.py" init)
           (set_file_text subscript_target (set_path "a.py" init))
           (set_file_text subscript_target (set_path "a.py" init))
           subscript_target_tree AttributeError); reflexivity.
Defined.

End TreeWalkerRuns.

(* ===================================================================== *)
(** * The order of the queue *)
(* ===================================================================== *)

Section QueueOrder.

Import Claimed.

Lemma insert_perm {A} (le : A -> A -> bool) x l :
  Permutation (x :: l) (Py.insert le x l).
Proof.
  induction l as [| y l IH]; simpl; [apply Permutation_refl |].
  destruct (le x y); [apply Permutation_refl |].
  eapply Permutation_trans; [apply perm_swap |].
  apply perm_skip, IH.
Qed.

Lemma sorted_perm {A} (le : A -> A -> bool) l :
  Permutation l (Py.sorted le l).
Proof.
  induction l as [| x l IH]; simpl; [apply Permutation_refl |].
  eapply Permutation_trans; [apply perm_skip, IH | apply insert_perm].
Qed.

Lemma insert_key_sorted x q :
  key_sorted q -> key_sorted (Py.insert by_key x q).
Proof.
  unfold key_sorted. induction 1 as [| y q Hq IH Hy]; simpl.
  - constructor; constructor.
  - unfold by_key at 1. destruct (fst x <=? fst y) eqn:E.
    + apply Z.leb_le in E. constructor; [constructor; assumption |].
      constructor; [exact E |].
      eapply Forall_impl; [| exact Hy]. intros z Hz. cbv beta in *. lia.
    + apply Z.leb_gt in E. constructor; [exact IH |].
      eapply Permutation_Forall; [apply insert_perm |].
      constructor; [lia | exact Hy].
Qed.

Lemma sorted_key_sorted q : key_sorted (Py.sorted by_key q).
Proof.
  induction q as [| x q IH]; simpl; [constructor |].
  apply insert_key_sorted, IH.
Qed.

(** Entries of one key keep their order through the sort. *)
Lemma insert_stable k x q :
  filter (fun e => fst e =? k) (Py.insert by_key x q)
  = filter (fun e => fst e =? k) (x :: q).
Proof.
  induction q as [| y q IH]; [reflexivity |].
  cbn [Py.insert]. unfold by_key at 1.
  destruct (fst x <=? fst y) eqn:E; [reflexivity |].
  apply Z.leb_gt in E. cbn [filter] in *. rewrite IH.
  destruct (fst x =? k) eqn:Ex; destruct (fst y =? k) eqn:Ey;
    try reflexivity.
  apply Z.eqb_eq in Ex, Ey. lia.
Qed.

Lemma sorted_stable k q :
  filter (fun e => fst e =? k) (Py.sorted by_key q)
  = filter (fun e => fst e =? k) q.
Proof.
  induction q as [| x q IH]; [reflexivity |].
  cbn [Py.sorted fold_right]. fold (Py.sorted by_key q).
  rewrite insert_stable. cbn [filter]. rewrite IH. reflexivity.
Qed.

Lemma appends_only_refl s : appends_only s s.
Proof. exists []. rewrite app_nil_r. split; [reflexivity | constructor]. Qed.

Lemma appends_only_trans s1 s2 s3 :
  appends_only s1 s2 -> appends_only s2 s3 -> appends_only s1 s3.
Proof.
  intros (a1 & H1 & F1) (a2 & H2 & F2). exists (a1 ++ a2).
  rewrite H2, H1, app_assoc. split; [reflexivity |].
  apply Forall_app; split; assumption.
Qed.

Lemma appends_only_append key m :
  tree_entry (key, m) -> keeps appends_only (append_warning key m).
Proof.
  intros Hm s. exists [(key, m)]. destruct s; simpl.
  split; [reflexivity | constructor; [exact Hm | constructor]].
Qed.

Lemma check_local_variable_name_appends body :
  keeps appends_only (check_local_variable_name body).
Proof.
  apply (keeps_for_each _ appends_only_refl appends_only_trans).
  intros [name a' body' | targets | target | body']; cbn [check_statement];
    try apply (keeps_ret _ appends_only_refl).
  - apply (check_targets_keeps _ appends_only_refl appends_only_trans
             appends_only_append).
  - apply (keeps_raise _ appends_only_refl).
Qed.

(** What a visit that returns has done to the queue. *)
Lemma visit_FunctionDef_returns a body s s' :
  visit_FunctionDef a body s = (Ret tt, s') ->
  exists added,
    Forall tree_entry added
    /\ warning_queue s' = Py.sorted by_key (warning_queue s ++ added).
Proof.
  unfold visit_FunctionDef. intros H.
  unfold bind at 1 in H.
  pose proof (check_argument_names_keeps _ appends_only_refl
                appends_only_trans appends_only_append
                (Ast.walk_arguments a) s) as R1.
  unfold check_argument_name in H.
  destruct (check_argument_names (Ast.walk_arguments a) s)
    as [[[] | e |] s1]; try discriminate. cbn [snd] in R1.
  unfold bind at 1 in H.
  pose proof (check_local_variable_name_appends body s1) as R2.
  destruct (check_local_variable_name body s1) as [[[] | e |] s2];
    try discriminate. cbn [snd] in R2.
  unfold bind at 1 in H.
  pose proof (check_defaults_keeps _ appends_only_refl appends_only_trans
                appends_only_append
                (Ast.kw_defaults a ++ List.map Some (Ast.defaults a)) s2)
    as R3.
  unfold is_default_argument_mutable in H.
  destruct (check_defaults _ s2) as [[[] | e |] s3]; try discriminate.
  cbn [snd] in R3. unfold modify in H. inversion H; subst s'.
  destruct (appends_only_trans _ _ _ (appends_only_trans _ _ _ R1 R2) R3)
    as (added & Hq & Hadded).
  exists added. split; [exact Hadded |].
  rewrite <- Hq. destruct s3; reflexivity.
Qed.

(** X10: a visit of a routine that returns has appended its findings
    to the queue, those on parameters first, then those on local
    variables, then the one on a default, and has sorted the whole
    queue by key: the queue ascends, holds what it held and what was
    appended, and entries of one key are in the order of before. *)
Theorem visit_sorts_queue_stably :
  forall (a : Ast.arguments) (body : list Ast.stmt) (s s' : analyzer),
    visit_FunctionDef a body s = (Ret tt, s') ->
    exists added,
      Forall tree_entry added
      /\ key_sorted (warning_queue s')
      /\ Permutation (warning_queue s ++ added) (warning_queue s')
      /\ (forall k,
             filter (fun e => fst e =? k) (warning_queue s')
             = filter (fun e => fst e =? k) (warning_queue s ++ added)).
Proof.
  intros a body s s' H.
  destruct (visit_FunctionDef_returns a body s s' H) as (added & Ha & Hq).
  exists added. rewrite Hq. split; [exact Ha |].
  split; [apply sorted_key_sorted |].
  split; [apply sorted_perm | intros k; apply sorted_stable].
Qed.

Lemma visits_keep_sorted rs :
  forall s s',
    for_each rs visit_routine s = (Ret tt, s') ->
    key_sorted (warning_queue s) -> key_sorted (warning_queue s').
Proof.
  induction rs as [| r rs IH]; intros s s' H Hs.
  - inversion H; subst; exact Hs.
  - cbn [for_each] in H. unfold bind in H.
    destruct (visit_routine r s) as [[[] | e |] s1] eqn:E; try discriminate.
    apply (IH s1 s' H).
    destruct (visit_FunctionDef_returns _ _ _ _ E) as (added & _ & Hq).
    rewrite Hq. apply sorted_key_sorted.
Qed.

(** X11: a tree pass that returns leaves a queue in ascending order of
    keys when it started from one, the empty queue of a fresh analyzer
    in particular. *)
Theorem tree_pass_keeps_queue_sorted :
  forall (tree : Ast.module) (s s' : analyzer),
    generic_visit tree s = (Ret tt, s') ->
    key_sorted (warning_queue s) ->
    key_sorted (warning_queue s').
Proof.
  intros tree s s' H. apply (visits_keep_sorted (flat_map outermost_routine tree)).
  rewrite <- H. symmetry. unfold generic_visit.
  apply (for_each_flat_map outermost_routine visit visit_routine tree).
  apply Forall_forall. intros node _. apply visit_outermost.
Qed.

End QueueOrder.

Section QueueOrderRuns.

Import Sample Claimed.

Lemma visit_sorts_queue_stably_witness :
  exists added,
    Forall tree_entry added
    /\ key_sorted
         (warning_queue
            (snd (visit_FunctionDef
                    (positional [arg "Bad" 3; arg "x" 3] [Ast.Node Ast.Dict 3 []])
                    [Ast.Assign [name "Worse" 4]]
                    (set_warning_queue [(5, Msg "a.py" 5 S012 "")] init))))
    /\ Permutation
         (warning_queue (set_warning_queue [(5, Msg "a.py" 5 S012 "")] init)
          ++ added)
         (warning_queue
            (snd (visit_FunctionDef
                    (positional [arg "Bad" 3; arg "x" 3] [Ast.Node Ast.Dict 3 []])
                    [Ast.Assign [name "Worse" 4]]
                    (set_warning_queue [(5, Msg "a.py" 5 S012 "")] init))))
    /\ (forall k,
           filter (fun e => fst e =? k)
             (warning_queue
                (snd (visit_FunctionDef
                        (positional [arg "Bad" 3; arg "x" 3]
                                    [Ast.Node Ast.Dict 3 []])
                        [Ast.Assign [name "Worse" 4]]
                        (set_warning_queue [(5, Msg "a.py" 5 S012 "")] init))))
           = filter (fun e => fst e =? k)
               (warning_queue
                  (set_warning_queue [(5, Msg "a.py" 5 S012 "")] init)
                ++ added)).
Proof.
  apply (visit_sorts_queue_stably
           (positional [arg "Bad" 3; arg "x" 3] [Ast.Node Ast.Dict 3 []])
           [Ast.Assign [name "Worse" 4]]
           (set_warning_queue [(5, Msg "a.py" 5 S012 "")] init)).
  vm_compute. reflexivity.
Defined.

Lemma tree_pass_keeps_queue_sorted_witness :
  key_sorted
    (warning_queue (snd (generic_visit three_findings_tree (set_path "a.py" init)))).
Proof.
  apply (tree_pass_keeps_queue_sorted three_findings_tree
           (set_path "a.py" init)).
  - vm_compute. reflexivity.
  - constructor.
Defined.

End QueueOrderRuns.

(* ===================================================================== *)
(** * More on the line loop *)
(* ===================================================================== *)

Section LineLoopMore.

Import Claimed.

Lemma drain_split n q :
  exists popped,
    q = popped ++ snd (drain n q)
    /\ List.map snd popped = fst (drain n q)
    /\ Forall (fun e => fst e = n) popped.
Proof.
  induction q as [| [key m] q IH]; simpl.
  - exists []. repeat split. constructor.
  - destruct (key =? n) eqn:E; simpl.
    + destruct IH as (popped & Hq & Hm & Hk). apply Z.eqb_eq in E.
      exists ((key, m) :: popped). simpl.
      split; [f_equal; exact Hq |]. split; [f_equal; exact Hm |].
      constructor; [exact E | exact Hk].
    + exists []. repeat split. constructor.
Qed.

(** X12: the line loop cannot fail.  On any lines and from any state
    it returns, having advanced the line number by the number of
    lines, kept the path, only added to what was printed, and only
    taken entries off the front of the queue. *)
Theorem line_loop_returns :
  forall (lines : list string) (s : analyzer),
    exists s' out popped,
      for_each lines check_line s = (Ret tt, s')
      /\ line_number s' = line_number s + Z.of_nat (List.length lines)
      /\ path s' = path s
      /\ stdout s' = stdout s ++ out
      /\ warning_queue s = popped ++ warning_queue s'.
Proof.
  induction lines as [| line rest IH]; intros s.
  - exists s, [], []. cbn [for_each List.length]. rewrite app_nil_r.
    repeat split. simpl. lia.
  - destruct (check_line_run line s)
      as (lp & s1 & Hrun & Hout & Hq & Hn & Hp & _).
    destruct (IH s1) as (s' & out & popped & Hloop & Hn' & Hp' & Hout' & Hq').
    destruct (drain_split (line_number s) (warning_queue s))
      as (popped0 & Hsplit & _).
    exists s'. eexists. exists (popped0 ++ popped).
    cbn [for_each]. unfold bind. rewrite Hrun.
    split; [exact Hloop |].
    split; [rewrite Hn', Hn; cbn [List.length]; lia |].
    split; [congruence |].
    split; [rewrite Hout', Hout, <- app_assoc; reflexivity |].
    rewrite <- app_assoc, <- Hq', Hq. exact Hsplit.
Qed.

Lemma drain_rest_above n q :
  key_sorted q ->
  Forall (fun e => n <= fst e) q ->
  Forall (fun e => n + 1 <= fst e) (snd (drain n q)).
Proof.
  unfold key_sorted. induction 1 as [| [key m] q Hq IH Hall]; intros Hn;
    simpl; [constructor |].
  inversion Hn as [| ? ? Hk Hn']; subst. simpl in Hk.
  destruct (key =? n) eqn:E; simpl; [apply IH, Hn' |].
  apply Z.eqb_neq in E. constructor; [simpl; lia |].
  eapply Forall_impl; [| exact Hall]. intros e He. simpl in He. lia.
Qed.

Lemma key_sorted_drain n q : key_sorted q -> key_sorted (snd (drain n q)).
Proof.
  unfold key_sorted. induction 1 as [| [key m] q Hq IH Hall]; simpl;
    [constructor |].
  destruct (key =? n); simpl; [exact IH | constructor; assumption].
Qed.

(** X13: from a queue in ascending order of keys with no key below
    the cursor, the line loop prints every entry keyed by one of the
    lines it reads, and leaves exactly the entries keyed beyond them:
    no finding of the tree pass is lost or printed early. *)
Theorem queue_drained_up_to_cursor :
  forall (lines : list string) (s : analyzer),
    key_sorted (warning_queue s) ->
    Forall (fun e => line_number s <= fst e) (warning_queue s) ->
    exists s' out popped,
      for_each lines check_line s = (Ret tt, s')
      /\ stdout s' = stdout s ++ out
      /\ warning_queue s = popped ++ warning_queue s'
      /\ Forall (fun e => fst e < line_number s + Z.of_nat (List.length lines)
                          /\ In (snd e) out) popped
      /\ Forall (fun e => line_number s + Z.of_nat (List.length lines) <= fst e)
                (warning_queue s').
Proof.
  induction lines as [| line rest IH]; intros s Hs Hlow.
  - exists s, [], []. cbn [for_each List.length]. rewrite app_nil_r.
    repeat split; [constructor |].
    eapply Forall_impl; [| exact Hlow]. intros e He. cbv beta in He.
    simpl. lia.
  - destruct (check_line_run line s)
      as (lp & s1 & Hrun & Hout & Hq & Hn & _).
    destruct (drain_split (line_number s) (warning_queue s))
      as (popped0 & Hsplit & Hmap & Hkeys).
    destruct (IH s1) as (s' & out & popped & Hloop & Hout' & Hq' & Hpop & Hrest).
    { rewrite Hq. apply key_sorted_drain, Hs. }
    { rewrite Hq, Hn. apply drain_rest_above; assumption. }
    exists s'. eexists. exists (popped0 ++ popped).
    cbn [for_each]. unfold bind. rewrite Hrun.
    split; [exact Hloop |].
    split; [rewrite Hout', Hout, <- app_assoc; reflexivity |].
    split; [rewrite <- app_assoc, <- Hq', Hq; exact Hsplit |].
    rewrite Hn in Hpop, Hrest. cbn [List.length].
    split.
    + apply Forall_app; split.
      * rewrite Forall_forall in *. intros e He. split; [rewrite (Hkeys e He); lia |].
        apply in_or_app. left. apply in_or_app. right.
        rewrite <- Hmap. apply in_map, He.
      * eapply Forall_impl; [| exact Hpop]. intros e (He & Hin).
        split; [lia | apply in_or_app; right; exact Hin].
    + eapply Forall_impl; [| exact Hrest]. intros e He. cbv beta in He. lia.
Qed.

End LineLoopMore.

Section LineLoopRuns.

Import Sample Claimed.

Lemma queue_drained_up_to_cursor_witness :
  exists s' out popped,
    for_each (Py.readlines three_findings) check_line
      (set_warning_queue
         [(1, Msg "a.py" 1 S010 "Bad"); (1, Msg "a.py" 1 S012 "");
          (2, Msg "a.py" 2 S011 "Worse")] init)
    = (Ret tt, s')
    /\ stdout s'
       = stdout
           (set_warning_queue
              [(1, Msg "a.py" 1 S010 "Bad"); (1, Msg "a.py" 1 S012 "");
               (2, Msg "a.py" 2 S011 "Worse")] init) ++ out
    /\ warning_queue
         (set_warning_queue
            [(1, Msg "a.py" 1 S010 "Bad"); (1, Msg "a.py" 1 S012 "");
             (2, Msg "a.py" 2 S011 "Worse")] init)
       = popped ++ warning_queue s'
    /\ Forall (fun e =>
                 fst e
                 < line_number
                     (set_warning_queue
                        [(1, Msg "a.py" 1 S010 "Bad");
                         (1, Msg "a.py" 1 S012 "");
                         (2, Msg "a.py" 2 S011 "Worse")] init)
                   + Z.of_nat (List.length (Py.readlines three_findings))
                 /\ In (snd e) out) popped
    /\ Forall (fun e =>
                 line_number
                   (set_warning_queue
                      [(1, Msg "a.py" 1 S010 "Bad");
                       (1, Msg "a.py" 1 S012 "");
                       (2, Msg "a.py" 2 S011 "Worse")] init)
                 + Z.of_nat (List.length (Py.readlines three_findings))
                 <= fst e)
              (warning_queue s').
Proof.
  apply (queue_drained_up_to_cursor (Py.readlines three_findings)
           (set_warning_queue
              [(1, Msg "a.py" 1 S010 "Bad"); (1, Msg "a.py" 1 S012 "");
               (2, Msg "a.py" 2 S011 "Worse")] init)).
  - unfold key_sorted. simpl.
    repeat (constructor; simpl; try lia).
  - simpl. repeat (constructor; simpl; try lia).
Defined.

End LineLoopRuns.

(* ===================================================================== *)
(** * What one line prints *)
(* ===================================================================== *)

Section LineFindings.

Import Claimed.

Lemma finding_run (b : bool) r s :
  when b (report r "") s = (Ret tt, emit (finding b s r) s).
Proof. apply when_report_run. Qed.

Lemma check_indentation_run s :
  check_indentation s
  = (Ret tt,
     emit (finding (negb (leading_spaces (string_ s) 0 mod 4 =? 0)) s S002) s).
Proof. unfold check_indentation, bind, get. apply finding_run. Qed.

Lemma check_comment_spaces_run s :
  check_comment_spaces s
  = (Ret tt,
     emit (finding
             (Py.contains hash (string_ s)
              && negb (Py.startswith (Py.lstrip (string_ s)) "#")
              && negb (Py.endswith
                         (Py.slice (string_ s) None (Some (hash_index s)))
                         "  ")) s S004) s).
Proof.
  unfold check_comment_spaces, bind, get, finding. cbv beta iota.
  destruct (Py.contains hash (string_ s)); cbn [andb negb];
    [| unfold ret; rewrite emit_nil; reflexivity].
  destruct (Py.startswith _ _); cbn [andb negb];
    [unfold ret; rewrite emit_nil; reflexivity |].
  destruct (Py.endswith _ _); cbn [andb negb];
    [unfold ret; rewrite emit_nil; reflexivity | apply report_run].
Qed.

Lemma check_is_todo_run s :
  check_is_todo s
  = (Ret tt,
     emit (finding
             (Py.contains hash (string_ s)
              && Py.has_substring "todo"
                   (Py.casefold
                      (Py.slice (string_ s) (Some (hash_index s + 1)) None)))
             s S005) s).
Proof.
  unfold check_is_todo, bind, get. cbv beta iota.
  destruct (Py.contains hash (string_ s)); cbn [andb];
    [apply finding_run | unfold ret, finding; rewrite emit_nil; reflexivity].
Qed.

Lemma definition_checks_run (m : option Re.groups) s :
  exists out,
    match m with
    | Some g =>
        check_definition_spaces g ;;
        check_class_name g ;;
        check_function_name g
    | None => ret tt
    end s = (Ret tt, emit out s)
    /\ Forall header_rule out.
Proof.
  destruct m as [g |];
    [| exists []; unfold ret; rewrite emit_nil; split; [reflexivity | constructor]].
  unfold bind at 1. unfold check_definition_spaces. rewrite when_report_run.
  unfold bind at 1.
  match goal with
  | |- context [check_class_name g ?s1] =>
      destruct (check_class_name_run g s1) as (o8 & E8 & F8); rewrite E8
  end.
  rewrite emit_emit.
  unfold check_function_name.
  destruct (negb (String.eqb _ _)).
  - unfold ret. eexists. split; [reflexivity |].
    apply Forall_app; split.
    + destruct (1 <? _); [constructor; [left; reflexivity | constructor]
                         | constructor].
    + eapply Forall_impl; [| exact F8]. intros m (_ & _ & Hr).
      right. left. exact Hr.
  - rewrite when_report_run, emit_emit. eexists. split; [reflexivity |].
    apply Forall_app; split; [apply Forall_app; split |].
    + destruct (1 <? _); [constructor; [left; reflexivity | constructor]
                         | constructor].
    + eapply Forall_impl; [| exact F8]. intros m (_ & _ & Hr).
      right. left. exact Hr.
    + destruct (negb (is_snake_case _));
        [constructor; [right; right; reflexivity | constructor]
        | constructor].
Qed.

(** One round of the line loop, finding by finding, in the order of
    the checks: the five rules on the text of the line and the rule on
    blank lines as the tests the source makes, then what the checks of
    a definition header print, then the entries of the queue keyed by
    the line. *)
Lemma check_line_findings line s :
  exists o7 s',
    check_line line s = (Ret tt, s')
    /\ stdout s'
       = stdout s
         ++ (finding (79 <? Py.len line) s S001
             ++ finding (negb (leading_spaces line 0 mod 4 =? 0)) s S002
             ++ finding (Py.contains semicolon line
                         && truthy (find_extra_semicolon line)) s S003
             ++ finding (Py.contains hash line
                         && negb (Py.startswith (Py.lstrip line) "#")
                         && negb (Py.endswith
                                    (Py.slice line None
                                       (Some (if Py.contains hash line
                                              then Py.find line hash 0
                                              else Py.len line)))
                                    "  ")) s S004
             ++ finding (Py.contains hash line
                         && Py.has_substring "todo"
                              (Py.casefold
                                 (Py.slice line
                                    (Some ((if Py.contains hash line
                                            then Py.find line hash 0
                                            else Py.len line) + 1))
                                    None))) s S005
             ++ finding (negb (is_blank line)
                         && (blank_lines_counter s =? 3)) s S006
             ++ o7)
         ++ fst (drain (line_number s) (warning_queue s))
    /\ Forall header_rule o7.
Proof.
  unfold check_line, _get_groups.
  unfold bind at 1. unfold modify at 1.
  unfold bind at 1. unfold bind at 1. unfold get at 1. unfold ret at 1.
  unfold bind at 1. unfold modify at 1.
  unfold bind at 1. rewrite refresh_hash_index_run.
  unfold bind at 1. unfold modify at 1.
  cbn [string_ set_string set_match_object set_hash_index].
  set (g := Re.rmatch definition_header line). clearbody g.
  set (h := if Py.contains hash line then Py.find line hash 0
            else Py.len line).
  unfold bind at 1. rewrite check_line_length_run.
  match goal with
  | |- context [bind _ _ (emit ?x _)] =>
      change x with (finding (79 <? Py.len line) s S001)
  end.
  set (o1 := finding (79 <? Py.len line) s S001).
  unfold bind at 1. rewrite check_indentation_run.
  match goal with
  | |- context [bind _ _ (emit ?x _)] =>
      change x
        with (finding (negb (leading_spaces line 0 mod 4 =? 0)) s S002)
  end.
  set (o2 := finding (negb (leading_spaces line 0 mod 4 =? 0)) s S002).
  unfold bind at 1. rewrite check_semicolon_run.
  match goal with
  | |- context [bind _ _ (emit ?x _)] =>
      change x
        with (finding (Py.contains semicolon line
                       && truthy (find_extra_semicolon line)) s S003)
  end.
  set (o3 := finding (Py.contains semicolon line
                      && truthy (find_extra_semicolon line)) s S003).
  unfold bind at 1. rewrite check_comment_spaces_run.
  match goal with
  | |- context [bind _ _ (emit ?x _)] =>
      change x
        with (finding (Py.contains hash line
                       && negb (Py.startswith (Py.lstrip line) "#")
                       && negb (Py.endswith
                                  (Py.slice line None (Some h)) "  "))
                      s S004)
  end.
  set (o4 := finding (Py.contains hash line
                      && negb (Py.startswith (Py.lstrip line) "#")
                      && negb (Py.endswith (Py.slice line None (Some h)) "  "))
                     s S004).
  unfold bind at 1. rewrite check_is_todo_run.
  match goal with
  | |- context [bind _ _ (emit ?x _)] =>
      change x
        with (finding (Py.contains hash line
                       && Py.has_substring "todo"
                            (Py.casefold (Py.slice line (Some (h + 1)) None)))
                      s S005)
  end.
  set (o5 := finding (Py.contains hash line
                      && Py.has_substring "todo"
                           (Py.casefold (Py.slice line (Some (h + 1)) None)))
                     s S005).
  unfold bind at 1.
  match goal with
  | |- context [check_blank_lines ?s1] =>
      destruct (check_blank_lines_run s1) as (window & E6); rewrite E6;
      clear E6
  end.
  match goal with
  | |- context [emit ?x (set_last_3_lines_queue _ _)] =>
      change x
        with (finding (negb (is_blank line) && (blank_lines_counter s =? 3))
                      s S006)
  end.
  set (o6 := finding (negb (is_blank line) && (blank_lines_counter s =? 3))
                     s S006).
  match goal with
  | |- context [set_blank_lines_counter ?c _] => set (c' := c); clearbody c'
  end.
  unfold bind at 1. unfold get at 1.
  match goal with
  | |- context [bind (match match_object ?s1 with _ => _ end) _ _] =>
      destruct (definition_checks_run (match_object s1) s1)
        as (o7 & E7 & F7)
  end.
  unfold bind at 1. rewrite E7. clear E7.
  unfold bind at 1. rewrite check_warning_queue_run.
  unfold modify.
  exists o7. eexists. split; [reflexivity |]. split; [| exact F7].
  cbn [stdout warning_queue line_number emit set_hash_index set_match_object
       set_string set_stdout set_blank_lines_counter set_last_3_lines_queue
       set_warning_queue set_line_number].
  rewrite <- !app_assoc. reflexivity.
Qed.

Lemma printed_app {A} (c : M A) s out :
  stdout (snd (c s)) = stdout s ++ out -> printed c s = out.
Proof.
  intros H. unfold printed. rewrite H.
  rewrite List.skipn_app, List.skipn_all, Nat.sub_diag. reflexivity.
Qed.

Lemma in_finding m b s r : In m (finding b s r) -> msg_rule m = r /\ b = true.
Proof.
  unfold finding. destruct b; [| intros []].
  intros [H | []]. subst m. split; reflexivity.
Qed.

(** Whether the message of a rule of the line pass on the text of the
    line is among what one round prints is decided by the test of that
    rule alone, when the queue holds findings of the tree pass only. *)
Lemma in_check_line_findings s r (b1 b2 b3 b4 b5 b6 : bool) o7 tp :
  tree_rule r = false -> ~ header_rule (at_cursor s r) ->
  Forall header_rule o7 ->
  Forall (fun m => tree_rule (msg_rule m) = true) tp ->
  In (at_cursor s r)
     ((finding b1 s S001 ++ finding b2 s S002 ++ finding b3 s S003
       ++ finding b4 s S004 ++ finding b5 s S005 ++ finding b6 s S006 ++ o7)
      ++ tp)
  <-> (r = S001 /\ b1 = true) \/ (r = S002 /\ b2 = true)
      \/ (r = S003 /\ b3 = true) \/ (r = S004 /\ b4 = true)
      \/ (r = S005 /\ b5 = true) \/ (r = S006 /\ b6 = true).
Proof.
  intros Hr Hh F7 Ftp. split.
  - intros H.
    repeat (apply in_app_or in H; destruct H as [H | H]);
      try (apply in_finding in H; cbn [at_cursor msg_rule] in H; tauto).
    + rewrite Forall_forall in F7. exfalso. apply Hh, F7, H.
    + rewrite Forall_forall in Ftp. apply Ftp in H.
      cbn [at_cursor msg_rule] in H. congruence.
  - intros H. apply in_or_app. left.
    destruct H as [(-> & ->) | [(-> & ->) | [(-> & ->) | [(-> & ->)
                  | [(-> & ->) | (-> & ->)]]]]];
      unfold finding at 1 2 3 4 5 6;
      repeat (try (left; reflexivity); apply in_or_app; right);
      try (apply in_or_app; left; left; reflexivity).
Qed.

Lemma drained_tree_rules s :
  Forall (fun e => tree_rule (msg_rule (snd e)) = true) (warning_queue s) ->
  Forall (fun m => tree_rule (msg_rule m) = true)
         (fst (drain (line_number s) (warning_queue s))).
Proof. intros H. apply drain_head_rules. exact H. Qed.

Lemma not_header_rule s r :
  r <> S007 -> r <> S008 -> r <> S009 -> ~ header_rule (at_cursor s r).
Proof. intros H7 H8 H9 [H | [H | H]]; cbn in H; contradiction. Qed.

(** X14: from a counter at zero, the line that breaks a run of blank
    lines is reported by the rule on blank lines exactly when the run
    has three lines: not after one or two, and not after four or
    more. *)
Theorem blank_finding_after_exactly_three :
  forall (blanks : list string) (line : string) (s : analyzer),
    blank_lines_counter s = 0 ->
    Forall (fun e => tree_rule (msg_rule (snd e)) = true) (warning_queue s) ->
    Forall (fun b => is_blank b = true) blanks ->
    is_blank line = false ->
    exists s1,
      for_each blanks check_line s = (Ret tt, s1)
      /\ (In (at_cursor s1 S006) (printed (check_line line) s1)
          <-> List.length blanks = 3%nat).
Proof.
  intros blanks line s Hc Hq Hb Hline.
  destruct (blank_run_counts blanks s Hb) as (s1 & Hloop & Hc1 & Hq1).
  exists s1. split; [exact Hloop |].
  destruct (check_line_findings line s1) as (o7 & s2 & Hrun & Hout & F7).
  rewrite (printed_app (check_line line) s1 _
             ltac:(rewrite Hrun; exact Hout)).
  rewrite (in_check_line_findings s1 S006);
    [| reflexivity | apply not_header_rule; discriminate | exact F7
     | apply drained_tree_rules, Hq1, Hq].
  rewrite Hline, Hc1, Hc. cbn [negb andb]. split.
  - intros [(H & _) | [(H & _) | [(H & _) | [(H & _) | [(H & _) | (_ & H)]]]]];
      try discriminate.
    apply Z.eqb_eq in H. lia.
  - intros H. repeat right. split; [reflexivity |]. apply Z.eqb_eq. lia.
Qed.

Lemma leading_spaces_other c rest k :
  c <> " "%char -> leading_spaces (String c rest) k = k.
Proof.
  intros Hc. destruct c as [b0 b1 b2 b3 b4 b5 b6 b7].
  destruct b0, b1, b2, b3, b4, b5, b6, b7; try reflexivity.
  exfalso. apply Hc. reflexivity.
Qed.

Lemma leading_spaces_spaces n rest k :
  Py.startswith rest " " = false ->
  leading_spaces (spaces n ++ rest)%string k = k + Z.of_nat n.
Proof.
  intros Hrest. revert k. induction n as [| n IH]; intros k.
  - cbn [spaces String.append]. rewrite Z.add_0_r.
    destruct rest as [| c rest]; [reflexivity |].
    apply leading_spaces_other. intros ->.
    unfold Py.startswith in Hrest.
    destruct rest; vm_compute in Hrest; discriminate.
  - cbn [spaces String.append leading_spaces]. rewrite IH. lia.
Qed.

(** X15: a line that begins with [n] spaces followed by anything but
    a space (a tab, a letter, the end of the line) is reported for its
    indentation exactly when [n] is no multiple of four; tabs do not
    count. *)
Theorem indentation_finding_iff :
  forall (n : nat) (rest : string) (s : analyzer),
    Py.startswith rest " " = false ->
    Forall (fun e => tree_rule (msg_rule (snd e)) = true) (warning_queue s) ->
    (In (at_cursor s S002)
        (printed (check_line (spaces n ++ rest)%string) s)
     <-> Z.of_nat n mod 4 <> 0).
Proof.
  intros n rest s Hrest Hq.
  destruct (check_line_findings (spaces n ++ rest)%string s)
    as (o7 & s2 & Hrun & Hout & F7).
  rewrite (printed_app (check_line _) s _ ltac:(rewrite Hrun; exact Hout)).
  rewrite (in_check_line_findings s S002);
    [| reflexivity | apply not_header_rule; discriminate | exact F7
     | apply drained_tree_rules, Hq].
  rewrite (leading_spaces_spaces n rest 0 Hrest). rewrite Z.add_0_l. split.
  - intros [(H & _) | [(_ & H) | [(H & _) | [(H & _) | [(H & _) | (H & _)]]]]];
      try discriminate.
    apply negb_true_iff, Z.eqb_neq in H. exact H.
  - intros H. right. left. split; [reflexivity |].
    apply negb_true_iff, Z.eqb_neq. exact H.
Qed.

Lemma contains_app c a b :
  Py.contains c (a ++ b)%string = Py.contains c a || Py.contains c b.
Proof.
  induction a as [| x a IH]; [reflexivity |].
  cbn [String.append Py.contains]. destruct (Ascii.eqb x c); [reflexivity | exact IH].
Qed.

Lemma find_at_first_after c pre rest i0 :
  Py.contains c pre = false ->
  Py.find_at c (pre ++ String c rest)%string i0 = i0 + Py.len pre.
Proof.
  revert i0; induction pre as [| x pre IH]; intros i0 H.
  - cbn. rewrite Ascii.eqb_refl. unfold Py.len. simpl. lia.
  - cbn [Py.contains] in H. cbn [String.append Py.find_at].
    destruct (Ascii.eqb x c); [discriminate |].
    rewrite IH by exact H. unfold Py.len. cbn [String.length]. lia.
Qed.

Lemma find_first_after c pre rest :
  Py.contains c pre = false ->
  Py.find (pre ++ String c rest)%string c 0 = Py.len pre.
Proof.
  intros H. rewrite (find_from c _ O) by lia. cbn [Py.drop Z.of_nat].
  rewrite find_at_first_after by exact H. lia.
Qed.

Lemma drop_app pre rest : Py.drop (String.length pre) (pre ++ rest)%string = rest.
Proof. induction pre as [| x pre IH]; [reflexivity | exact IH]. Qed.

Lemma slice_behind c pre rest :
  Py.slice (pre ++ String c rest)%string (Some (Py.len pre + 1)) None = rest.
Proof.
  unfold Py.slice, Py.clip, Py.len. rewrite length_append.
  cbn [String.length].
  destruct (Z.of_nat (String.length pre) + 1 <? 0) eqn:E;
    [apply Z.ltb_lt in E; lia |].
  rewrite Z.min_l by lia.
  replace (Z.to_nat (Z.of_nat (String.length pre) + 1))
    with (String.length (pre ++ String c "")%string)
    by (rewrite length_append; cbn [String.length]; lia).
  replace (pre ++ String c rest)%string
    with ((pre ++ String c "") ++ rest)%string
    by (rewrite append_assoc; reflexivity).
  rewrite drop_app. apply take_all. rewrite ?length_append.
  cbn [String.length]. lia.
Qed.

Lemma casefold_app a b :
  Py.casefold (a ++ b)%string = (Py.casefold a ++ Py.casefold b)%string.
Proof.
  induction a as [| x a IH]; [reflexivity |].
  cbn [String.append Py.casefold]. rewrite IH. reflexivity.
Qed.

Lemma prefix_app sub b : String.prefix sub (sub ++ b)%string = true.
Proof.
  induction sub as [| x sub IH]; [destruct b; reflexivity |].
  cbn [String.append String.prefix].
  destruct (ascii_dec x x); [exact IH | contradiction].
Qed.

Lemma has_substring_inside sub a b :
  Py.has_substring sub (a ++ sub ++ b)%string = true.
Proof.
  induction a as [| x a IH].
  - cbn [String.append]. destruct (sub ++ b)%string eqn:E;
      cbn [Py.has_substring]; rewrite <- E, prefix_app; reflexivity.
  - cbn [String.append Py.has_substring].
    destruct (String.prefix _ _); [reflexivity | exact IH].
Qed.

(** X16: a line whose text after its first comment marker holds the
    letters of "todo", in any mix of upper and lower case, is reported
    with S005, wherever the marker stands on the line; a whole-line
    comment is no exception. *)
Theorem todo_found_in_any_case :
  forall (pre mid word post : string) (s : analyzer),
    Py.contains hash pre = false ->
    Py.casefold word = "todo"%string ->
    In (at_cursor s S005)
       (printed
          (check_line (pre ++ String hash (mid ++ word ++ post))%string) s).
Proof.
  intros pre mid word post s Hpre Hword.
  destruct (check_line_findings
              (pre ++ String hash (mid ++ word ++ post))%string s)
    as (o7 & s2 & Hrun & Hout & F7).
  rewrite (printed_app (check_line _) s _ ltac:(rewrite Hrun; exact Hout)).
  assert (Hc : Py.contains hash
                 (pre ++ String hash (mid ++ word ++ post))%string = true).
  { rewrite contains_app. cbn [Py.contains]. rewrite Ascii.eqb_refl.
    apply orb_true_r. }
  rewrite Hc, (find_first_after hash pre _ Hpre), slice_behind.
  rewrite !casefold_app, Hword, has_substring_inside. cbn [andb].
  apply in_or_app. left.
  do 4 (apply in_or_app; right). apply in_or_app. left. left. reflexivity.
Qed.

End LineFindings.

Section LineFindingRuns.

Import Sample Claimed.

Lemma blank_finding_after_exactly_three_witness :
  exists s1,
    for_each [nl; nl; nl] check_line init = (Ret tt, s1)
    /\ (In (at_cursor s1 S006) (printed (check_line "x = 1") s1)
        <-> List.length [nl; nl; nl] = 3%nat).
Proof.
  apply (blank_finding_after_exactly_three [nl; nl; nl] "x = 1" init).
  - reflexivity.
  - constructor.
  - repeat constructor.
  - reflexivity.
Defined.

Lemma indentation_finding_iff_witness :
  In (at_cursor init S002)
     (printed (check_line (spaces 2 ++ String "009" "x = 1")%string) init)
  <-> Z.of_nat 2 mod 4 <> 0.
Proof.
  apply (indentation_finding_iff 2 (String "009" "x = 1") init).
  - reflexivity.
  - constructor.
Defined.

Lemma todo_found_in_any_case_witness :
  In (at_cursor init S005)
     (printed
        (check_line ("x = 1  " ++ String hash (" " ++ "ToDo" ++ ": later"))%string)
        init).
Proof.
  apply (todo_found_in_any_case "x = 1  " " " "ToDo" ": later" init);
    reflexivity.
Defined.

End LineFindingRuns.

(* ===================================================================== *)
(** * More on the stray-semicolon rule *)
(* ===================================================================== *)

Section SemicolonMore.

Import Claimed.

Lemma count_of_absent c t : Py.contains c t = false -> Py.count c t = 0.
Proof.
  induction t as [| a t IH]; [reflexivity |]. cbn [Py.contains Py.count].
  destruct (Ascii.eqb a c); [discriminate | intros H; rewrite IH by exact H; lia].
Qed.

Lemma count_of_present c t : Py.contains c t = true -> 0 < Py.count c t.
Proof.
  induction t as [| a t IH]; [discriminate |]. cbn [Py.contains Py.count].
  pose proof (count_nonneg c t) as Hn.
  destruct (Ascii.eqb a c); [lia | intros H; specialize (IH H); lia].
Qed.

Lemma contains_take c n t :
  Py.contains c t = false -> Py.contains c (Py.take n t) = false.
Proof.
  revert t; induction n as [| n IH]; intros [| a t] H; try reflexivity.
  cbn [Py.contains Py.take] in *.
  destruct (Ascii.eqb a c); [discriminate | apply IH, H].
Qed.

Lemma contains_drop c n t :
  Py.contains c t = false -> Py.contains c (Py.drop n t) = false.
Proof.
  revert t; induction n as [| n IH]; intros [| a t] H; try assumption;
    try reflexivity.
  cbn [Py.contains Py.drop] in *.
  destruct (Ascii.eqb a c); [discriminate | apply IH, H].
Qed.

Lemma contains_slice c t a b :
  Py.contains c t = false -> Py.contains c (Py.slice t a b) = false.
Proof. intros H. unfold Py.slice. apply contains_take, contains_drop, H. Qed.

(** On a line without comment marker and without quotes, the first
    semicolon is the one [find_extra_semicolon] returns. *)
Lemma find_extra_semicolon_plain line :
  Py.contains hash line = false ->
  Py.contains double_quote line = false ->
  Py.contains single_quote line = false ->
  find_extra_semicolon line
  = if Py.contains semicolon line
    then Some (Py.find_at semicolon line 0) else None.
Proof.
  intros Hh Hd Hs. unfold find_extra_semicolon.
  rewrite Hh, (count_of_absent hash line Hh). cbn [Z.eqb].
  destruct (Py.contains semicolon line) eqn:Hc.
  - pose proof (count_of_present _ _ Hc) as Hpos.
    destruct (Z.to_nat (Py.count semicolon line)) as [| m] eqn:Em; [lia |].
    cbn [semicolon_rounds]. replace (-1 + 1) with (Z.of_nat 0) by reflexivity.
    rewrite (find_from semicolon line O) by lia. cbn [Py.drop Z.of_nat].
    destruct (find_at_first semicolon line 0 Hpos) as (k & Hk & Hget & _).
    rewrite Hk. replace (Z.to_nat 1) with 1%nat by reflexivity.
    cbn [hash_rounds]. unfold skipped.
    rewrite !contains_slice by assumption.
    destruct (take_get_drop _ _ _ Hget) as (_ & Hlt).
    replace (Py.len line <? 0 + Z.of_nat k) with false; [reflexivity |].
    symmetry. apply Z.ltb_ge. unfold Py.len. lia.
  - rewrite (count_of_absent _ _ Hc). reflexivity.
Qed.

Lemma find_at_from c t i0 :
  Py.contains c t = true -> i0 <= Py.find_at c t i0.
Proof.
  revert i0; induction t as [| a t IH]; intros i0; [discriminate |].
  cbn [Py.contains Py.find_at].
  destruct (Ascii.eqb a c); [lia | intros H; specialize (IH (i0 + 1) H); lia].
Qed.

Lemma first_semicolon_at_start line :
  Py.contains semicolon line = true ->
  (Py.find_at semicolon line 0 =? 0) = Py.startswith line ";".
Proof.
  destruct line as [| a rest]; [discriminate |].
  cbn [Py.contains Py.find_at]. unfold Py.startswith.
  cbn [String.prefix].
  destruct (Ascii.eqb a semicolon) eqn:E.
  - intros _. apply Ascii.eqb_eq in E. subst a.
    destruct (ascii_dec ";" semicolon) as [_ | H]; [| exfalso; apply H; reflexivity].
    destruct rest; reflexivity.
  - intros H. pose proof (find_at_from semicolon rest 1 H).
    destruct (ascii_dec ";" a) as [H' | _].
    + subst a. discriminate.
    + apply Z.eqb_neq. change (0 + 1) with 1. lia.
Qed.

(** X17: on a line without comment marker and without quote
    characters the stray-semicolon rule reports exactly the lines that
    hold a semicolon and do not begin with one: a semicolon in the
    first column is found at index 0, which the test takes for
    "none". *)
Theorem semicolon_rule_on_plain_lines :
  forall (line : string) (s : analyzer),
    Py.contains hash line = false ->
    Py.contains double_quote line = false ->
    Py.contains single_quote line = false ->
    semicolon_findings line s
    = finding (Py.contains semicolon line
               && negb (Py.startswith line ";")) s S003.
Proof.
  intros line s Hh Hd Hs.
  rewrite semicolon_findings_run, (find_extra_semicolon_plain line Hh Hd Hs).
  unfold finding, at_cursor.
  destruct (Py.contains semicolon line) eqn:Hc; [| reflexivity].
  cbn [andb truthy]. rewrite (first_semicolon_at_start line Hc). reflexivity.
Qed.

End SemicolonMore.

Section SemicolonRuns.

Import Sample Claimed.

Lemma semicolon_rule_on_plain_lines_witness :
  semicolon_findings ";x = 1" init
  = finding (Py.contains semicolon ";x = 1"
             && negb (Py.startswith ";x = 1" ";")) init S003.
Proof.
  apply (semicolon_rule_on_plain_lines ";x = 1" init); reflexivity.
Defined.

End SemicolonRuns.

(* ===================================================================== *)
(** * Directory mode *)
(* ===================================================================== *)

Section Directory.

Import Claimed.

Lemma code_inj x y : Py.code x = Py.code y -> x = y.
Proof.
  unfold Py.code. intros H. apply Nat2Z.inj in H.
  rewrite <- (ascii_nat_embedding x), <- (ascii_nat_embedding y), H.
  reflexivity.
Qed.

Lemma str_le_total a b : Py.str_le a b = true \/ Py.str_le b a = true.
Proof.
  revert b; induction a as [| x a IH]; intros [| y b]; cbn [Py.str_le];
    try (left; reflexivity); try (right; reflexivity).
  destruct (Py.code x <? Py.code y) eqn:E1; [left; reflexivity |].
  destruct (Py.code y <? Py.code x) eqn:E2; [right; reflexivity |].
  apply IH.
Qed.

Lemma str_le_trans a b c :
  Py.str_le a b = true -> Py.str_le b c = true -> Py.str_le a c = true.
Proof.
  revert b c; induction a as [| x a IH]; intros [| y b] [| z c];
    cbn [Py.str_le]; try reflexivity; try discriminate.
  destruct (Py.code x <? Py.code y) eqn:E1;
    destruct (Py.code y <? Py.code z) eqn:E2;
    destruct (Py.code x <? Py.code z) eqn:E3;
    destruct (Py.code y <? Py.code x) eqn:E4;
    destruct (Py.code z <? Py.code y) eqn:E5;
    destruct (Py.code z <? Py.code x) eqn:E6;
    rewrite ?Z.ltb_lt, ?Z.ltb_ge in *;
    try reflexivity; try discriminate; try lia.
  apply IH.
Qed.

Lemma str_le_antisym a b :
  Py.str_le a b = true -> Py.str_le b a = true -> a = b.
Proof.
  revert b; induction a as [| x a IH]; intros [| y b]; cbn [Py.str_le];
    try reflexivity; try discriminate.
  destruct (Py.code x <? Py.code y) eqn:E1;
    destruct (Py.code y <? Py.code x) eqn:E2;
    rewrite ?Z.ltb_lt, ?Z.ltb_ge in *;
    try discriminate; try lia.
  intros H1 H2. f_equal; [apply code_inj; lia | apply IH; assumption].
Qed.

Lemma insert_names_sorted x l :
  names_sorted l -> names_sorted (Py.insert Py.str_le x l).
Proof.
  unfold names_sorted. induction 1 as [| y l Hl IH Hy]; simpl.
  - constructor; constructor.
  - destruct (Py.str_le x y) eqn:E.
    + constructor; [constructor; assumption |].
      constructor; [exact E |].
      eapply Forall_impl; [| exact Hy]. intros z Hz.
      apply (str_le_trans x y z); assumption.
    + constructor; [exact IH |].
      eapply Permutation_Forall; [apply insert_perm |].
      constructor; [| exact Hy].
      destruct (str_le_total x y) as [H | H]; [congruence | exact H].
Qed.

Lemma sorted_names_sorted l : names_sorted (Py.sorted Py.str_le l).
Proof.
  induction l as [| x l IH]; simpl; [constructor |].
  apply insert_names_sorted, IH.
Qed.

(** Two lists of names in ascending order with the same names are the
    same list. *)
Lemma names_sorted_unique l1 :
  forall l2,
    names_sorted l1 -> names_sorted l2 -> Permutation l1 l2 -> l1 = l2.
Proof.
  unfold names_sorted.
  induction l1 as [| x l1 IH]; intros l2 H1 H2 Hp.
  - apply Permutation_nil in Hp. symmetry. exact Hp.
  - destruct l2 as [| y l2];
      [apply Permutation_sym, Permutation_nil in Hp; discriminate |].
    inversion H1 as [| ? ? H1' Hx]; subst.
    inversion H2 as [| ? ? H2' Hy]; subst.
    assert (x = y) as ->.
    { assert (Hxy : In x (y :: l2))
        by (eapply Permutation_in; [exact Hp | left; reflexivity]).
      assert (Hyx : In y (x :: l1))
        by (eapply Permutation_in;
            [apply Permutation_sym; exact Hp | left; reflexivity]).
      rewrite Forall_forall in Hx, Hy.
      destruct Hxy as [-> | Hxy]; [reflexivity |].
      destruct Hyx as [-> | Hyx]; [reflexivity |].
      apply str_le_antisym; [apply Hx, Hyx | apply Hy, Hxy]. }
    f_equal. apply IH; try assumption.
    apply Permutation_cons_inv in Hp. exact Hp.
Qed.

Lemma is_file_names_perm e1 e2 :
  Permutation e1 e2 -> Permutation (is_file_names e1) (is_file_names e2).
Proof.
  unfold is_file_names. intros H. apply Permutation_map.
  induction H as [| x l l' _ IH | x y l | l l' l'' _ IH1 _ IH2]; simpl.
  - constructor.
  - destruct (snd x); [constructor |]; exact IH.
  - destruct (snd x), (snd y); try apply Permutation_refl.
    apply perm_swap.
  - eapply Permutation_trans; eassumption.
Qed.

Lemma check_path_directory parse read scandir rounds s entries :
  Py.endswith (path s) ".py" = false ->
  scandir (path s) = Some entries ->
  check_path parse read scandir rounds s
  = for_each (Py.sorted Py.str_le (is_file_names entries))
      (visit_file parse read rounds) (set_directory_path (path s) s).
Proof.
  intros Hpy Hdir. unfold check_path. unfold bind at 1. unfold get at 1.
  cbv beta iota. rewrite Hpy. unfold bind at 1. unfold modify at 1.
  cbv beta iota. rewrite Hdir. reflexivity.
Qed.

(** X18: in directory mode every entry of the directory that is a
    file is analyzed once, entries that are no files are skipped, and
    the files are taken in ascending order of their names; before each
    one the path is set and the line number is set back to 1, and
    nothing else is. *)
Theorem directory_mode_takes_files_in_name_order :
  forall (parse : string -> parsed) (read : string -> option string)
         (scandir : string -> option (list (string * bool)))
         (rounds : nat) (s : analyzer) (entries : list (string * bool)),
    Py.endswith (path s) ".py" = false ->
    scandir (path s) = Some entries ->
    exists files,
      Permutation (List.map fst (List.filter snd entries)) files
      /\ names_sorted files
      /\ check_path parse read scandir rounds s
         = for_each files
             (fun file_name =>
                d <- get directory_path ;;
                modify (set_path (d ++ "/" ++ file_name)) ;;
                modify (set_line_number 1) ;;
                run_checks parse read rounds)
             (set_directory_path (path s) s).
Proof.
  intros parse read scandir rounds s entries Hpy Hdir.
  exists (Py.sorted Py.str_le (is_file_names entries)).
  split; [apply sorted_perm |]. split; [apply sorted_names_sorted |].
  apply (check_path_directory parse read scandir rounds s entries Hpy Hdir).
Qed.

(** X19: the order in which [scandir] lists the entries of the
    directory has no influence on what directory mode does. *)
Theorem directory_mode_independent_of_listing_order :
  forall (parse : string -> parsed) (read : string -> option string)
         (scandir1 scandir2 : string -> option (list (string * bool)))
         (rounds : nat) (s : analyzer) (entries1 entries2 : list (string * bool)),
    scandir1 (path s) = Some entries1 ->
    scandir2 (path s) = Some entries2 ->
    Permutation entries1 entries2 ->
    check_path parse read scandir1 rounds s
    = check_path parse read scandir2 rounds s.
Proof.
  intros parse read scandir1 scandir2 rounds s entries1 entries2 H1 H2 Hp.
  destruct (Py.endswith (path s) ".py") eqn:Hpy.
  - unfold check_path, bind, get. cbv beta iota. rewrite Hpy. reflexivity.
  - rewrite (check_path_directory parse read scandir1 rounds s entries1 Hpy H1),
      (check_path_directory parse read scandir2 rounds s entries2 Hpy H2).
    f_equal. apply names_sorted_unique; try apply sorted_names_sorted.
    eapply Permutation_trans; [apply Permutation_sym, sorted_perm |].
    eapply Permutation_trans; [apply is_file_names_perm, Hp |].
    apply sorted_perm.
Qed.

End Directory.

Section DirectoryRuns.

Import Sample Claimed.

Lemma directory_mode_takes_files_in_name_order_witness :
  exists files,
    Permutation
      (List.map fst (List.filter snd [("b.py", true); ("a.py", true)])) files
    /\ names_sorted files
    /\ check_path two_files_parser (lookup two_files) listing 8
         (set_path "d" init)
       = for_each files
           (fun file_name =>
              d <- get directory_path ;;
              modify (set_path (d ++ "/" ++ file_name)) ;;
              modify (set_line_number 1) ;;
              run_checks two_files_parser (lookup two_files) 8)
           (set_directory_path (path (set_path "d" init)) (set_path "d" init)).
Proof.
  apply (directory_mode_takes_files_in_name_order two_files_parser
           (lookup two_files) listing 8 (set_path "d" init)
           [("b.py", true); ("a.py", true)]); reflexivity.
Defined.

Lemma directory_mode_independent_of_listing_order_witness :
  check_path two_files_parser (lookup two_files) listing 8 (set_path "d" init)
  = check_path two_files_parser (lookup two_files)
      (fun _ => Some [("a.py", true); ("b.py", true)]) 8
      (set_path "d" init).
Proof.
  apply (directory_mode_independent_of_listing_order two_files_parser
           (lookup two_files) listing
           (fun _ => Some [("a.py", true); ("b.py", true)]) 8
           (set_path "d" init)
           [("b.py", true); ("a.py", true)]
           [("a.py", true); ("b.py", true)]).
  - reflexivity.
  - reflexivity.
  - apply perm_swap.
Defined.

End DirectoryRuns.

(* ===================================================================== *)
(** * The name patterns *)
(* ===================================================================== *)

Section Names.

Import Claimed Rounds.

Lemma run_Rep r1 lo hi greedy s g k :
  Re.run (Re.Rep r1 lo hi greedy) s g k
  = rounds r1 lo hi greedy k (String.length s) 0 s g.
Proof. reflexivity. Qed.

Lemma run_Cat r1 r2 s g k :
  Re.run (Re.Cat r1 r2) s g k
  = Re.run r1 s g (fun s1 g1 => Re.run r2 s1 g1 k).
Proof. reflexivity. Qed.

Lemma rounds_eq r1 lo hi greedy k fuel n s g :
  rounds r1 lo hi greedy k fuel n s g
  = (let leave := fun _ : unit =>
       if (lo <=? n)%nat then k s g else None in
     let again := fun _ : unit =>
       match fuel with
       | O => None
       | S fuel' =>
           if Re.below hi n
           then Re.run r1 s g (fun s1 g1 =>
                  if (String.length s1 <? String.length s)%nat
                  then rounds r1 lo hi greedy k fuel' (S n) s1 g1 else None)
           else None
       end in
     if greedy then Re.orelse (again tt) leave
     else Re.orelse (leave tt) again).
Proof. destruct fuel; reflexivity. Qed.

(** Once the lower bound is reached, a repetition in front of a
    continuation that accepts everything matches. *)
Lemma rounds_leave_total r1 lo hi greedy k fuel n s g :
  (lo <= n)%nat -> total k ->
  exists g', rounds r1 lo hi greedy k fuel n s g = Some g'.
Proof.
  intros Hn Hk. rewrite rounds_eq. cbv zeta.
  apply Nat.leb_le in Hn. rewrite Hn.
  destruct (Hk s g) as (g' & Hg).
  destruct greedy; unfold Re.orelse.
  - match goal with |- context [match ?x with Some _ => _ | None => _ end] =>
      destruct x as [g1 |] end; [exists g1; reflexivity |].
    exists g'. exact Hg.
  - rewrite Hg. exists g'. reflexivity.
Qed.

Lemma rep_total r1 hi greedy k :
  total k -> total (fun s g => Re.run (Re.Rep r1 0 hi greedy) s g k).
Proof.
  intros Hk s g. rewrite run_Rep. apply rounds_leave_total; [lia | exact Hk].
Qed.

Lemma cat_total r1 r2 k :
  total (fun s g => Re.run r2 s g k) ->
  (forall k', total k' -> total (fun s g => Re.run r1 s g k')) ->
  total (fun s g => Re.run (Re.Cat r1 r2) s g k).
Proof. intros H2 H1 s g. rewrite run_Cat. apply (H1 _ H2). Qed.

(** One or more characters of a class in front of a continuation that
    accepts everything: it matches exactly when the text begins with
    a character of the class. *)
Lemma plus_begins p c s g k :
  p c = true -> total k ->
  exists g', Re.run (Re.plus (Re.Cls p)) (String c s) g k = Some g'.
Proof.
  intros Hp Hk. unfold Re.plus. rewrite run_Rep, rounds_eq. cbv zeta.
  cbn [Re.below Re.run String.length]. rewrite Hp.
  replace (String.length s <? S (String.length s))%nat with true
    by (symmetry; apply Nat.ltb_lt; lia).
  destruct (rounds_leave_total (Re.Cls p) 1 None true k
              (String.length s) 1 s g) as (g' & Hg); [lia | exact Hk |].
  rewrite Hg. exists g'. reflexivity.
Qed.

Lemma plus_empty p g k :
  Re.run (Re.plus (Re.Cls p)) "" g k = None.
Proof. reflexivity. Qed.

Lemma plus_other p c s g k :
  p c = false ->
  Re.run (Re.plus (Re.Cls p)) (String c s) g k = None.
Proof.
  intros Hp. unfold Re.plus. rewrite run_Rep, rounds_eq. cbv zeta.
  cbn [Re.below Re.run String.length]. rewrite Hp. reflexivity.
Qed.

Lemma accept_total : total accept.
Proof. intros s g. exists g. reflexivity. Qed.

Lemma snake_body_begins s g :
  begins_lower s = true ->
  exists g', Re.run snake_body s g accept = Some g'.
Proof.
  destruct s as [| c s]; [discriminate |]. cbn [begins_lower]. intros Hc.
  unfold snake_body. cbn [Re.seq]. rewrite run_Cat.
  apply (plus_begins (Py.in_range 97 122) c s g _ Hc).
  repeat (apply cat_total; [| intros k' Hk'; apply rep_total, Hk']).
  intros s' g'. exists g'. reflexivity.
Qed.

Lemma snake_body_other s g :
  begins_lower s = false -> Re.run snake_body s g accept = None.
Proof.
  unfold snake_body. cbn [Re.seq]. rewrite run_Cat.
  destruct s as [| c s]; [intros _; apply plus_empty |].
  cbn [begins_lower]. intros Hc. apply plus_other, Hc.
Qed.

Lemma orelse_none {A} (b : unit -> option A) : Re.orelse None b = b tt.
Proof. reflexivity. Qed.

Lemma is_snake_case_begins name :
  is_snake_case name = begins_snake name.
Proof.
  unfold is_snake_case, Re.rmatch, snake_case. cbn [Re.seq]. rewrite run_Cat.
  change (fun (s1 : string) (g1 : Re.groups) =>
            Re.run (Re.Cat (Re.plus Re.lower)
                      (Re.Cat (Re.opt Re.digit)
                         (Re.Cat (Re.opt (Re.chr "_"))
                            (Re.Cat (Re.opt Re.lower)
                               (Re.Cat (Re.opt Re.digit) Re.Eps)))))
              s1 g1 (fun _ g => Some g))
    with (fun s1 g1 => Re.run snake_body s1 g1 accept).
  set (K := fun s1 g1 => Re.run snake_body s1 g1 accept).
  assert (Kyes : forall s g, begins_lower s = true ->
                             exists g', K s g = Some g')
    by (intros s g; unfold K; apply snake_body_begins).
  assert (Kno : forall s g, begins_lower s = false -> K s g = None)
    by (intros s g; unfold K; apply snake_body_other).
  clearbody K.
  unfold begins_snake. rewrite run_Rep, rounds_eq. cbv zeta.
  cbn [Nat.leb]. unfold Re.orelse at 1.
  destruct (begins_lower name) eqn:H0.
  { destruct (Kyes name [] H0) as (g' & ->). reflexivity. }
  rewrite (Kno name [] H0). cbn [orb].
  destruct name as [| c1 s1]; [reflexivity |].
  cbn [String.length Re.below Re.chr Re.run].
  change (0 <? 2)%nat with true. cbv iota.
  destruct (Ascii.eqb "_" c1); [| reflexivity]. cbn [andb].
  replace (String.length s1 <? S (String.length s1))%nat with true
    by (symmetry; apply Nat.ltb_lt; lia).
  rewrite rounds_eq. cbv zeta. cbn [Nat.leb]. unfold Re.orelse at 1.
  destruct (begins_lower s1) eqn:H1.
  { destruct (Kyes s1 [] H1) as (g' & ->). reflexivity. }
  rewrite (Kno s1 [] H1). cbn [orb].
  destruct s1 as [| c2 s2]; [reflexivity |].
  cbn [String.length Re.below Re.chr Re.run].
  change (1 <? 2)%nat with true. cbv iota.
  destruct (Ascii.eqb "_" c2); [| reflexivity]. cbn [andb].
  replace (String.length s2 <? S (String.length s2))%nat with true
    by (symmetry; apply Nat.ltb_lt; lia).
  rewrite rounds_eq. cbv zeta. cbn [Nat.leb]. unfold Re.orelse at 1.
  destruct (begins_lower s2) eqn:H2.
  { destruct (Kyes s2 [] H2) as (g' & ->). reflexivity. }
  rewrite (Kno s2 [] H2).
  destruct (String.length s2); reflexivity.
Qed.

(** X20: [is_snake_case] looks at the beginning of the name only: it
    accepts a name exactly when the name begins with at most two
    underscores followed by a lowercase letter; what comes behind
    that letter, capitals included, is not looked at. *)
Theorem snake_case_test_reads_beginning_only :
  forall name : string,
    is_snake_case name = true
    <-> exists u c rest,
          name = (u ++ String c rest)%string
          /\ (u = "" \/ u = "_" \/ u = "__")
          /\ is_lower c = true.
Proof.
  intros name. rewrite is_snake_case_begins. unfold begins_snake. split.
  - intros H. apply orb_true_iff in H. destruct H as [H | H].
    + destruct name as [| c rest]; [discriminate |].
      exists "", c, rest. repeat split; [left; reflexivity | exact H].
    + destruct name as [| c1 s1]; [discriminate |].
      apply andb_true_iff in H. destruct H as [H1 H].
      apply Ascii.eqb_eq in H1. subst c1.
      apply orb_true_iff in H. destruct H as [H | H].
      * destruct s1 as [| c rest]; [discriminate |].
        exists "_", c, rest.
        repeat split; [right; left; reflexivity | exact H].
      * destruct s1 as [| c2 s2]; [discriminate |].
        apply andb_true_iff in H. destruct H as [H2 H].
        apply Ascii.eqb_eq in H2. subst c2.
        destruct s2 as [| c rest]; [discriminate |].
        exists "__", c, rest.
        repeat split; [right; right; reflexivity | exact H].
  - intros (u & c & rest & -> & Hu & Hc).
    destruct Hu as [-> | [-> | ->]]; cbn [append begins_lower];
      rewrite Hc; cbn; rewrite ?orb_true_r; reflexivity.
Qed.

Lemma upper_not_lower c : is_upper c = true -> is_lower c = false.
Proof.
  unfold is_upper, is_lower, Py.in_range. intros H.
  apply andb_true_iff in H. destruct H as [_ H]. apply Z.leb_le in H.
  apply andb_false_iff. left. apply Z.leb_gt. lia.
Qed.

Lemma lower_tail_matched s g :
  matched (Re.run (Re.Cat (Re.plus Re.lower) Re.Eps) s g accept)
  = begins_lower s.
Proof.
  rewrite run_Cat. destruct s as [| c s]; [reflexivity |].
  cbn [begins_lower]. destruct (is_lower c) eqn:Hc.
  - destruct (plus_begins (Py.in_range 97 122) c s g
                (fun s1 g1 => Re.run Re.Eps s1 g1 accept) Hc) as (g' & Hg).
    { intros s' g'. exists g'. reflexivity. }
    unfold Re.lower, Re.range. rewrite Hg. reflexivity.
  - unfold Re.lower, Re.range. rewrite plus_other; [reflexivity | exact Hc].
Qed.

Lemma camel_body_matched s g :
  matched (Re.run camel_body s g accept) = camel_tail s.
Proof.
  unfold camel_body. cbn [Re.seq]. rewrite run_Cat.
  pose proof lower_tail_matched as HK.
  set (K := fun s1 g1 =>
              Re.run (Re.Cat (Re.plus Re.lower) Re.Eps) s1 g1 accept) in *.
  assert (HK' : forall s g, matched (K s g) = begins_lower s)
    by (intros s0 g0; unfold K; apply HK).
  clear HK. clearbody K.
  unfold Re.opt. rewrite run_Rep, rounds_eq. cbv zeta. cbn [Nat.leb].
  unfold camel_tail.
  destruct s as [| c s1].
  - cbn [String.length]. rewrite orelse_none. rewrite HK'. reflexivity.
  - cbn [String.length Re.below Re.upper Re.range Re.run].
    change (0 <? 1)%nat with true. cbv iota.
    fold (is_upper c).
    destruct (is_upper c) eqn:Hu.
    + replace (String.length s1 <? S (String.length s1))%nat with true
        by (symmetry; apply Nat.ltb_lt; lia).
      rewrite rounds_eq. cbv zeta. cbn [Nat.leb Re.below].
      change (1 <? 1)%nat with false.
      assert (Hin : forall b : unit -> option Re.groups,
                 Re.orelse
                   match String.length s1 with
                   | 0%nat => None
                   | S fuel' =>
                       if false
                       then
                         Re.run Re.upper s1 g
                           (fun s0 g1 =>
                              if (String.length s0 <? String.length s1)%nat
                              then rounds Re.upper 0 (Some 1%nat) true K
                                     fuel' 2 s0 g1
                              else None)
                       else None
                   end b = b tt)
        by (intros b; destruct (String.length s1); reflexivity).
      rewrite Hin. clear Hin.
      cbn [begins_lower andb]. rewrite (upper_not_lower c Hu). cbn [orb].
      pose proof (HK' s1 g) as H1. pose proof (HK' (String c s1) g) as H2.
      cbn [begins_lower] in H2. rewrite (upper_not_lower c Hu) in H2.
      destruct (K s1 g) as [g1 |]; cbn [matched Re.orelse] in *.
      * exact H1.
      * rewrite H2. exact H1.
    + rewrite orelse_none. rewrite HK'. cbn [andb]. rewrite orb_false_r.
      reflexivity.
Qed.

Lemma camel_rounds_matched s :
  forall fuel n g,
    (String.length s <= fuel)%nat ->
    matched (rounds Re.lower 1 None true
               (fun s1 g1 => Re.run camel_body s1 g1 accept) fuel n s g)
    = camel_rest n s.
Proof.
  pose proof camel_body_matched as HK.
  set (K := fun s1 g1 => Re.run camel_body s1 g1 accept) in *.
  assert (HK' : forall s g, matched (K s g) = camel_tail s)
    by (intros s0 g0; unfold K; apply HK).
  clear HK. clearbody K.
  induction s as [| c s IH]; intros fuel n g Hfuel.
  - rewrite rounds_eq. cbv zeta. cbn [camel_rest orb].
    replace (match fuel with
             | 0%nat => None
             | S fuel' =>
                 if Re.below None n
                 then Re.run Re.lower "" g
                        (fun s1 g1 =>
                           if (String.length s1 <? String.length "")%nat
                           then rounds Re.lower 1 None true K fuel' (S n) s1 g1
                           else None)
                 else None
             end) with (@None Re.groups) by (destruct fuel; reflexivity).
    rewrite orelse_none.
    destruct (1 <=? n)%nat; [apply HK' | reflexivity].
  - cbn [String.length] in Hfuel.
    destruct fuel as [| fuel]; [lia |].
    rewrite rounds_eq. cbv zeta.
    cbn [Re.below Re.lower Re.range Re.run String.length camel_rest].
    fold (is_lower c).
    destruct (is_lower c) eqn:Hc; cbn [andb].
    + replace (String.length s <? S (String.length s))%nat with true
        by (symmetry; apply Nat.ltb_lt; lia).
      specialize (IH fuel (S n) g ltac:(lia)).
      change (Re.Cls (Py.in_range 97 122)) with Re.lower.
      destruct (rounds Re.lower 1 None true K fuel (S n) s g) as [g1 |];
        cbn [matched] in IH; rewrite <- IH; cbn [Re.orelse orb matched];
        [reflexivity |].
      destruct (1 <=? n)%nat; [apply HK' | reflexivity].
    + rewrite orelse_none. cbn [orb].
      destruct (1 <=? n)%nat; [apply HK' | reflexivity].
Qed.

Lemma is_camel_case_rest name :
  is_camel_case name
  = match name with
    | String c s => is_upper c && camel_rest 0 s
    | EmptyString => false
    end.
Proof.
  unfold is_camel_case, Re.rmatch, camel_case. cbn [Re.seq].
  rewrite run_Cat. destruct name as [| c s]; [reflexivity |].
  cbn [Re.upper Re.range Re.run]. fold (is_upper c).
  destruct (is_upper c); [| reflexivity]. cbn [andb].
  exact (camel_rounds_matched s (String.length s) 0%nat [] (le_n _)).
Qed.

Lemma camel_rest_runs s :
  forall n,
    camel_rest n s = true
    <-> exists ls rest,
          s = (ls ++ rest)%string
          /\ all_of is_lower ls = true
          /\ (1 <= n + String.length ls)%nat
          /\ camel_tail rest = true.
Proof.
  induction s as [| c s IH]; intros n; cbn [camel_rest]; split.
  - cbn [orb]. intros H. apply andb_true_iff in H. destruct H as [Hn Ht].
    apply Nat.leb_le in Hn. exists "", "".
    repeat split; [cbn; lia | exact Ht].
  - intros (ls & rest & Hs & _ & Hn & Ht).
    destruct ls as [| c ls]; [| discriminate].
    cbn [append] in Hs. subst rest. cbn [String.length] in Hn. cbn [orb].
    apply andb_true_iff. split; [apply Nat.leb_le; lia | exact Ht].
  - intros H. apply orb_true_iff in H. destruct H as [H | H].
    + apply andb_true_iff in H. destruct H as [Hc H].
      apply IH in H. destruct H as (ls & rest & -> & Hl & Hn & Ht).
      exists (String c ls), rest. cbn [append all_of String.length].
      rewrite Hc, Hl. repeat split; [lia | exact Ht].
    + apply andb_true_iff in H. destruct H as [Hn Ht].
      apply Nat.leb_le in Hn. exists "", (String c s).
      repeat split; [cbn; lia | exact Ht].
  - intros (ls & rest & Hs & Hl & Hn & Ht).
    destruct ls as [| c' ls].
    + cbn [append] in Hs. subst rest. cbn [String.length] in Hn.
      apply orb_true_iff. right.
      apply andb_true_iff. split; [apply Nat.leb_le; lia | exact Ht].
    + cbn [append] in Hs. injection Hs as <- ->.
      cbn [all_of] in Hl. apply andb_true_iff in Hl. destruct Hl as [Hc Hl].
      apply orb_true_iff. left. rewrite Hc. cbn [andb].
      apply IH. exists ls, rest. cbn [String.length] in Hn.
      repeat split; [exact Hl | lia | exact Ht].
Qed.

(** X21: [is_camel_case] accepts a name exactly when the name begins
    with an uppercase letter, one or more lowercase letters, and
    then a lowercase letter or an uppercase letter and a lowercase
    one; what comes behind is not looked at.  So a name needs at
    least three letters, and no more than the second of its humps is
    looked at. *)
Theorem camel_case_test_reads_beginning_only :
  forall name : string,
    is_camel_case name = true
    <-> exists c ls rest,
          name = String c (ls ++ rest)
          /\ is_upper c = true
          /\ ls <> ""%string
          /\ all_of is_lower ls = true
          /\ (begins_lower rest = true
              \/ exists u r,
                   rest = String u r
                   /\ is_upper u = true /\ begins_lower r = true).
Proof.
  intros name. rewrite is_camel_case_rest. split.
  - destruct name as [| c s]; [discriminate |].
    intros H. apply andb_true_iff in H. destruct H as [Hc H].
    apply camel_rest_runs in H. destruct H as (ls & rest & -> & Hl & Hn & Ht).
    exists c, ls, rest. split; [reflexivity |]. split; [exact Hc |].
    split; [destruct ls; [cbn in Hn; lia | discriminate] |].
    split; [exact Hl |].
    unfold camel_tail in Ht. apply orb_true_iff in Ht.
    destruct Ht as [Ht | Ht]; [left; exact Ht | right].
    destruct rest as [| u r]; [discriminate |].
    apply andb_true_iff in Ht. destruct Ht as [Hu Hr].
    exists u, r. repeat split; assumption.
  - intros (c & ls & rest & -> & Hc & Hne & Hl & Ht).
    rewrite Hc. cbn [andb]. apply camel_rest_runs.
    exists ls, rest. split; [reflexivity |]. split; [exact Hl |].
    split; [destruct ls; [contradiction | cbn; lia] |].
    unfold camel_tail. apply orb_true_iff.
    destruct Ht as [Ht | (u & r & -> & Hu & Hr)]; [left; exact Ht | right].
    rewrite Hu, Hr. reflexivity.
Qed.

End Names.

Section NameRuns.

Import Claimed.

Lemma snake_case_test_reads_beginning_only_witness :
  is_snake_case "__aB" = true.
Proof.
  apply (proj2 (snake_case_test_reads_beginning_only "__aB")).
  exists "__", "a"%char, "B".
  repeat split. right. right. reflexivity.
Defined.

Lemma camel_case_test_reads_beginning_only_witness :
  is_camel_case "AbCd_e" = true.
Proof.
  apply (proj2 (camel_case_test_reads_beginning_only "AbCd_e")).
  exists "A"%char, "b", "Cd_e".
  split; [reflexivity |]. split; [reflexivity |].
  split; [discriminate |]. split; [reflexivity |].
  right. exists "C"%char, "d_e". repeat split.
Defined.

End NameRuns.

(* ===================================================================== *)
(** * Routines and whole files *)
(* ===================================================================== *)

Section WholeFiles.

Import Claimed.

Lemma visit_FunctionDef_only_queue a body :
  keeps only_queue (visit_FunctionDef a body).
Proof.
  apply (visit_FunctionDef_keeps only_queue only_queue_refl only_queue_trans).
  - intros key m _ s. destruct s; reflexivity.
  - intros s. destruct s; reflexivity.
Qed.

(** X22: a routine with an annotated assignment among the statements
    of its body ends its visit with [AttributeError], whatever its
    parameters and its other statements are; nothing is printed. *)
Theorem annotated_assignment_ends_any_visit :
  forall (a : Ast.arguments) (body : list Ast.stmt) (target : Ast.node)
         (s : analyzer),
    In (Ast.AnnAssign target) body ->
    fst (visit_FunctionDef a body s) = Raise AttributeError
    /\ stdout (snd (visit_FunctionDef a body s)) = stdout s.
Proof.
  intros a body target s Hin. split.
  - unfold visit_FunctionDef, check_argument_name. unfold bind at 1.
    assert (Hargs : exists s1,
               check_argument_names (Ast.walk_arguments a) s = (Ret tt, s1)).
    { destruct (check_argument_names_run (Ast.walk_arguments a) s)
        as [(_ & Hrun) | (b & i & af & n & _ & _ & _ & _ & Hrun)];
        rewrite Hrun; eexists; reflexivity. }
    destruct Hargs as (s1 & ->). unfold bind at 1.
    pose proof (annotated_assignment_always_raises body target s1 Hin) as H.
    destruct (check_local_variable_name body s1) as [[[] | e |] s2];
      cbn [fst] in *; try discriminate.
    exact H.
  - pose proof (visit_FunctionDef_only_queue a body s) as H.
    apply only_queue_fields in H. apply H.
Qed.

(** X23: in a simple assignment whose targets are names, the targets
    are checked up to the first name outside snake case: that one is
    queued, under rule S011 at its line, and the targets behind it are
    not looked at, whatever they are. *)
Theorem first_bad_target_hides_the_rest :
  forall (before after : list Ast.node) (id : string) (lineno : Z)
         (cs : list Ast.node) (s : analyzer),
    Forall passing_name before ->
    is_snake_case id = false ->
    check_statement
      (Ast.Assign (before ++ Ast.Node (Ast.Name id) lineno cs :: after)) s
    = (Ret tt,
       set_warning_queue
         (warning_queue s ++ [(lineno, Msg (path s) lineno S011 id)]) s).
Proof.
  intros before after id lineno cs s Hb Hid.
  apply first_failing_name_target; assumption.
Qed.

(** X24: a file whose tree could be built and in whose tree the walk
    returns without a finding on an element of a tuple gets all its
    diagnostics in order: by line, and on one line those of the line
    pass before those of the tree pass; the run returns. *)
Theorem file_without_tuple_findings_printed_in_order :
  forall (parse : string -> parsed) (read : string -> option string)
         (rounds : nat) (s : analyzer) (tree : Ast.module)
         (s1 s2 : analyzer),
    built_ast parse read rounds s = (Ret tree, s1) ->
    generic_visit tree s1 = (Ret tt, s2) ->
    Forall tree_entry (warning_queue s) ->
    Forall (fun e => msg_rule (snd e) <> S011_tuple) (warning_queue s2) ->
    exists out s',
      run_checks parse read rounds s = (Ret tt, s')
      /\ stdout s' = (stdout s ++ out)%list
      /\ in_order out.
Proof.
  intros parse read rounds s tree s1 s2 Hbuilt Hvisit Hq Hno.
  apply (diagnostics_in_order_without_tuple_findings parse read rounds s
           tree s1 s2); assumption.
Qed.

End WholeFiles.

Section WholeFileRuns.

Import Sample Claimed.

Lemma annotated_assignment_ends_any_visit_witness :
  fst (visit_FunctionDef (positional [arg "Bad" 1] [])
         [Ast.Assign [name "x" 2]; Ast.AnnAssign (name "y" 3)]
         (set_path "a.py" init))
  = Raise AttributeError
  /\ stdout (snd (visit_FunctionDef (positional [arg "Bad" 1] [])
                    [Ast.Assign [name "x" 2]; Ast.AnnAssign (name "y" 3)]
                    (set_path "a.py" init)))
     = stdout (set_path "a.py" init).
Proof.
  apply (annotated_assignment_ends_any_visit (positional [arg "Bad" 1] [])
           [Ast.Assign [name "x" 2]; Ast.AnnAssign (name "y" 3)]
           (name "y" 3) (set_path "a.py" init)).
  right. left. reflexivity.
Defined.

Lemma first_bad_target_hides_the_rest_witness :
  check_statement
    (Ast.Assign ([name "a" 2] ++ name "Bad" 2 :: [name "Worse" 2]))
    (set_path "a.py" init)
  = (Ret tt,
     set_warning_queue
       (warning_queue (set_path "a.py" init)
        ++ [(2, Msg (path (set_path "a.py" init)) 2 S011 "Bad")])
       (set_path "a.py" init)).
Proof.
  apply (first_bad_target_hides_the_rest [name "a" 2] [name "Worse" 2]
           "Bad" 2 [] (set_path "a.py" init)).
  - constructor; [vm_compute; reflexivity | constructor].
  - vm_compute. reflexivity.
Defined.

Lemma file_without_tuple_findings_printed_in_order_witness :
  exists out s',
    run_checks (parser [(three_findings, Tree three_findings_tree)])
      (lookup [("a.py", three_findings)]) 8 (set_path "a.py" init)
    = (Ret tt, s')
    /\ stdout s' = (stdout (set_path "a.py" init) ++ out)%list
    /\ in_order out.
Proof.
  apply (file_without_tuple_findings_printed_in_order
           (parser [(three_findings, Tree three_findings_tree)])
           (lookup [("a.py", three_findings)]) 8 (set_path "a.py" init)
           three_findings_tree
           (snd (built_ast (parser [(three_findings, Tree three_findings_tree)])
                   (lookup [("a.py", three_findings)]) 8
                   (set_path "a.py" init)))
           (snd (generic_visit three_findings_tree
                   (snd (built_ast
                           (parser [(three_findings,
                                     Tree three_findings_tree)])
                           (lookup [("a.py", three_findings)]) 8
                           (set_path "a.py" init)))))).
  - vm_compute. reflexivity.
  - vm_compute. reflexivity.
  - constructor.
  - vm_compute. repeat constructor; discriminate.
Defined.

End WholeFileRuns.

(* ===================================================================== *)
(** * Inline comments *)
(* ===================================================================== *)

Section InlineComments.

Import Claimed.

Lemma take_app pre rest :
  Py.take (String.length pre) (pre ++ rest)%string = pre.
Proof.
  induction pre as [| x pre IH]; [destruct rest; reflexivity |].
  cbn [String.length String.append Py.take]. rewrite IH. reflexivity.
Qed.

Lemma slice_front c pre rest :
  Py.slice (pre ++ String c rest)%string None (Some (Py.len pre)) = pre.
Proof.
  unfold Py.len. rewrite slice_before.
  - rewrite Nat2Z.id. apply take_app.
  - lia.
  - rewrite Nat2Z.id, length_append. cbn [String.length]. lia.
Qed.

Lemma lstrip_app_blank code rest :
  Py.lstrip code = ""%string ->
  Py.lstrip (code ++ rest)%string = Py.lstrip rest.
Proof.
  induction code as [| x code IH]; [reflexivity |].
  cbn [Py.lstrip String.append].
  destruct (Py.isspace x); [exact IH | discriminate].
Qed.

Lemma lstrip_app_text code rest :
  Py.lstrip code <> ""%string ->
  Py.lstrip (code ++ rest)%string = (Py.lstrip code ++ rest)%string.
Proof.
  induction code as [| x code IH]; [intros H; contradiction H; reflexivity |].
  cbn [Py.lstrip String.append].
  destruct (Py.isspace x); [exact IH | reflexivity].
Qed.

Lemma lstrip_contains c code :
  Py.contains c code = false -> Py.contains c (Py.lstrip code) = false.
Proof.
  induction code as [| x code IH]; [reflexivity |].
  cbn [Py.lstrip]. destruct (Py.isspace x); [| intros H; exact H].
  cbn [Py.contains]. destruct (Ascii.eqb x c); [discriminate | exact IH].
Qed.

(** X25: a line with a comment marker behind a text without one is
    reported by the rule on inline comments exactly when that text is
    more than white space and does not end in two spaces; a comment
    that has the line to itself, indented or not, is never
    reported. *)
Theorem inline_comment_finding_iff :
  forall (code comment : string) (s : analyzer),
    Py.contains hash code = false ->
    Forall (fun e => tree_rule (msg_rule (snd e)) = true) (warning_queue s) ->
    (In (at_cursor s S004)
        (printed (check_line (code ++ String hash comment)%string) s)
     <-> Py.lstrip code <> ""%string /\ Py.endswith code "  " = false).
Proof.
  intros code comment s Hcode Hq.
  destruct (check_line_findings (code ++ String hash comment)%string s)
    as (o7 & s2 & Hrun & Hout & F7).
  rewrite (printed_app (check_line _) s _ ltac:(rewrite Hrun; exact Hout)).
  rewrite (in_check_line_findings s S004);
    [| reflexivity | apply not_header_rule; discriminate | exact F7
     | apply drained_tree_rules, Hq].
  assert (Hc : Py.contains hash (code ++ String hash comment)%string = true).
  { rewrite contains_app. cbn [Py.contains]. rewrite Ascii.eqb_refl.
    apply orb_true_r. }
  rewrite Hc, (find_first_after hash code _ Hcode), slice_front.
  cbn [andb].
  assert (Hstart : Py.startswith
                     (Py.lstrip (code ++ String hash comment)%string) "#"
                   = match Py.lstrip code with
                     | EmptyString => true
                     | String _ _ => false
                     end).
  { pose proof (lstrip_contains hash code Hcode) as Hl.
    destruct (Py.lstrip code) as [| a t] eqn:E.
    - rewrite (lstrip_app_blank code _ E). unfold hash.
      change (Py.lstrip (String "#" comment)) with (String "#" comment).
      destruct comment; reflexivity.
    - rewrite lstrip_app_text by (rewrite E; discriminate). rewrite E.
      cbn [Py.contains] in Hl.
      destruct (Ascii.eqb a hash) eqn:Ea; [discriminate |].
      unfold Py.startswith. cbn [String.append String.prefix].
      unfold hash in Ea. rewrite Ascii.eqb_sym in Ea.
      destruct (ascii_dec "#" a) as [Heq | _];
        [subst a; rewrite Ascii.eqb_refl in Ea; discriminate | reflexivity]. }
  rewrite Hstart. split.
  - intros [(H & _) | [(H & _) | [(H & _) | [(_ & H) | [(H & _) | (H & _)]]]]];
      try discriminate.
    destruct (Py.lstrip code); [discriminate |].
    split; [discriminate |].
    apply negb_true_iff in H. exact H.
  - intros (Hl & He). right. right. right. left. split; [reflexivity |].
    destruct (Py.lstrip code); [contradiction Hl; reflexivity |].
    rewrite He. reflexivity.
Qed.

End InlineComments.

Section InlineCommentRuns.

Import Sample Claimed.

Lemma inline_comment_finding_iff_witness :
  In (at_cursor init S004)
     (printed (check_line ("x = 1 " ++ String hash " note")%string) init)
  <-> Py.lstrip "x = 1 " <> ""%string /\ Py.endswith "x = 1 " "  " = false.
Proof.
  apply (inline_comment_finding_iff "x = 1 " " note" init).
  - reflexivity.
  - constructor.
Defined.

End InlineCommentRuns.

(* ===================================================================== *)
(** * The search for a semicolon, against the specification's words *)
(* ===================================================================== *)

Section SemicolonSearch.

Import Claimed.

Lemma marker_without line :
  Py.contains hash line = false -> marker line = String.length line.
Proof.
  induction line as [| c line IH]; [reflexivity |].
  cbn [Py.contains marker String.length]. unfold hash in *.
  destruct (Ascii.eqb c "#"); [discriminate |].
  intros H. rewrite IH by exact H. reflexivity.
Qed.


Lemma substring_all t : String.substring 0 (String.length t) t = t.
Proof.
  induction t as [| c t IH]; [reflexivity |].
  cbn [String.length String.substring]. rewrite IH. reflexivity.
Qed.

Lemma substring_drop a :
  forall t,
    String.substring a (String.length t - a) t = Py.drop a t.
Proof.
  induction a as [| a IH]; intros t.
  - rewrite Nat.sub_0_r. cbn [Py.drop]. apply substring_all.
  - destruct t as [| c t]; [reflexivity |].
    cbn [String.length Nat.sub String.substring Py.drop]. apply IH.
Qed.

Lemma quote_free t :
  all_of (fun c => negb (is_quote c)) t
  = negb (Py.contains double_quote t || Py.contains single_quote t).
Proof.
  induction t as [| c t IH]; [reflexivity |].
  cbn [all_of Py.contains]. rewrite IH. unfold is_quote.
  unfold double_quote, single_quote.
  destruct (Ascii.eqb c "034"), (Ascii.eqb c "'"),
    (Py.contains "034" t), (Py.contains "'" t); reflexivity.
Qed.

Lemma absent_get c t k :
  Py.contains c t = false -> String.get k t <> Some c.
Proof.
  revert k; induction t as [| a t IH]; intros k H; [destruct k; discriminate |].
  cbn [Py.contains] in H. destruct (Ascii.eqb a c) eqn:E; [discriminate |].
  destruct k as [| k]; cbn [String.get].
  - intros Heq. inversion Heq; subst. rewrite Ascii.eqb_refl in E.
    discriminate.
  - apply IH, H.
Qed.

Lemma get_contains c t k :
  String.get k t = Some c -> Py.contains c t = true.
Proof.
  intros H. destruct (Py.contains c t) eqn:E; [reflexivity |].
  exfalso. exact (absent_get c t k E H).
Qed.

Lemma count_zero_absent c t : Py.count c t = 0 -> Py.contains c t = false.
Proof.
  intros H. destruct (Py.contains c t) eqn:E; [| reflexivity].
  pose proof (count_of_present c t E). lia.
Qed.

(** Where a character occurs, [find_at] gives its first place. *)
Lemma find_at_least c t i0 :
  0 < Py.count c t ->
  exists k,
    Py.find_at c t i0 = i0 + Z.of_nat k
    /\ String.get k t = Some c
    /\ Py.count c (Py.drop (S k) t) = Py.count c t - 1
    /\ (forall j, (j < k)%nat -> String.get j t <> Some c).
Proof.
  revert i0; induction t as [| a t IH]; intros i0 Hc;
    cbn [Py.count Py.find_at] in *; [lia |].
  destruct (Ascii.eqb a c) eqn:E.
  - apply Ascii.eqb_eq in E. subst a. exists O. cbn [Py.drop String.get].
    repeat split; try lia. 
  - destruct (IH (i0 + 1)) as (k & Hf & Hg & Hd & Hfirst); [lia |].
    exists (S k). cbn [Py.drop String.get] in *.
    split; [rewrite Hf; lia |]. split; [exact Hg |]. split; [lia |].
    intros [| j] Hj; cbn [String.get].
    + intros Heq. inversion Heq; subst. rewrite Ascii.eqb_refl in E.
      discriminate.
    + apply Hfirst. lia.
Qed.

Lemma find_seq_none f p k :
  (forall j, (p <= j < p + k)%nat -> f j = false) ->
  List.find f (List.seq p k) = None.
Proof.
  revert p; induction k as [| k IH]; intros p H; [reflexivity |].
  cbn [List.seq List.find]. rewrite (H p) by lia.
  apply IH. intros j Hj. apply H. lia.
Qed.

Lemma find_seq_skip f p k n :
  (forall j, (p <= j < p + k)%nat -> f j = false) ->
  List.find f (List.seq p (k + n)) = List.find f (List.seq (p + k) n).
Proof.
  revert p; induction k as [| k IH]; intros p H.
  - rewrite Nat.add_0_r. reflexivity.
  - cbn [Nat.add List.seq List.find]. rewrite (H p) by lia.
    rewrite IH by (intros j Hj; apply H; lia).
    replace (S p + k)%nat with (p + S k)%nat by lia. reflexivity.
Qed.

Lemma qualifies_other line i :
  String.get i line <> Some semicolon -> qualifies line i = false.
Proof.
  unfold qualifies. intros H.
  destruct (String.get i line) as [c |]; [| reflexivity].
  destruct (Ascii.eqb c ";") eqn:E; [| reflexivity].
  apply Ascii.eqb_eq in E. subst c. contradiction H. reflexivity.
Qed.

(** On a line without comment marker, the test of the inner loop is
    the specification's test turned round. *)
Lemma skipped_at_end line i :
  Py.contains hash line = false ->
  String.get i line = Some semicolon ->
  skipped line (Z.of_nat i) (Py.len line) = negb (qualifies line i).
Proof.
  intros Hh Hg.
  assert (Hi : (i < String.length line)%nat).
  { destruct (Nat.lt_ge_cases i (String.length line)) as [H | H];
      [exact H |].
    exfalso. revert i Hg H. induction line as [| c line IH]; intros i Hg H.
    - destruct i; discriminate.
    - destruct i as [| i]; cbn [String.length] in H; [lia |].
      cbn [Py.contains] in Hh. destruct (Ascii.eqb c hash); [discriminate |].
      cbn [String.get] in Hg. apply (IH Hh i Hg). lia. }
  unfold qualifies. rewrite Hg.
  change (Ascii.eqb semicolon ";") with true.
  rewrite (marker_without line Hh).
  replace (i <? String.length line)%nat with true
    by (symmetry; apply Nat.ltb_lt; exact Hi).
  cbn [andb]. rewrite substring_drop, quote_free, negb_involutive.
  unfold skipped.
  replace (Py.len line <? Z.of_nat i) with false
    by (symmetry; apply Z.ltb_ge; unfold Py.len; lia).
  cbn [orb].
  assert (Hs : Py.slice line (Some (Z.of_nat i + 1)) (Some (Py.len line))
               = Py.drop (S i) line).
  { unfold Py.slice, Py.clip, Py.len.
    destruct (Z.of_nat i + 1 <? 0) eqn:E1; [apply Z.ltb_lt in E1; lia |].
    destruct (Z.of_nat (String.length line) <? 0) eqn:E2;
      [apply Z.ltb_lt in E2; lia |].
    rewrite !Z.min_l by lia.
    replace (Z.to_nat (Z.of_nat i + 1)) with (S i) by lia.
    apply take_all. rewrite drop_length. lia. }
  rewrite Hs. reflexivity.
Qed.

Lemma semicolon_rounds_without_marker line :
  Py.contains hash line = false ->
  forall (m p : nat),
    (p <= String.length line)%nat ->
    Z.of_nat m = Py.count semicolon (Py.drop p line) ->
    semicolon_rounds line 1 m (Z.of_nat p - 1) (Py.len line)
    = option_map Z.of_nat
        (List.find (qualifies line)
           (List.seq p (String.length line - p))).
Proof.
  intros Hh. induction m as [| m IH]; intros p Hp Hm.
  - cbn [semicolon_rounds]. rewrite find_seq_none; [reflexivity |].
    intros j Hj. apply qualifies_other.
    replace j with (p + (j - p))%nat by lia. rewrite <- get_drop.
    apply absent_get, count_zero_absent. lia.
  - cbn [semicolon_rounds].
    replace (Z.of_nat p - 1 + 1) with (Z.of_nat p) by lia.
    rewrite (find_from semicolon line p Hp).
    destruct (find_at_least semicolon (Py.drop p line) (Z.of_nat p))
      as (k & Hf & Hg & Hd & Hfirst); [lia |].
    rewrite Hf. rewrite get_drop in Hg.
    assert (Hlt : (p + k < String.length line)%nat).
    { destruct (Nat.lt_ge_cases (p + k) (String.length line)) as [H | H];
        [exact H |].
      exfalso. clear - Hg H. revert Hg H. generalize (p + k)%nat as i.
      induction line as [| c line IH]; intros i Hg H.
      - destruct i; discriminate.
      - destruct i as [| i]; cbn [String.length] in H; [lia |].
        cbn [String.get] in Hg. apply (IH i Hg). lia. }
    replace (String.length line - p)%nat
      with (k + S (String.length line - S (p + k)))%nat by lia.
    rewrite find_seq_skip.
    2:{ intros j Hj. apply qualifies_other.
        replace j with (p + (j - p))%nat by lia. rewrite <- get_drop.
        apply Hfirst. lia. }
    cbn [List.seq List.find].
    replace (Z.of_nat p + Z.of_nat k) with (Z.of_nat (p + k)) by lia.
    change (Z.to_nat 1) with 1%nat. cbn [hash_rounds].
    rewrite (skipped_at_end line (p + k) Hh Hg).
    destruct (qualifies line (p + k)); cbn [negb]; [reflexivity |].
    change (1 <? 1) with false. cbv iota.
    replace (Z.of_nat (p + k)) with (Z.of_nat (S (p + k)) - 1) by lia.
    apply IH; [lia |].
    rewrite drop_drop in Hd.
    replace (S (p + k)) with (p + S k)%nat by lia. lia.
Qed.

(** X26: on a line without comment marker the search returns the
    first semicolon that qualifies in the specification's words, a
    semicolon with no quote character of either kind behind it, and
    none when no semicolon qualifies; the rule prints its one
    diagnostic exactly when there is such a semicolon and it does not
    stand in the first column. *)
Theorem semicolon_search_without_marker :
  forall (line : string) (s : analyzer),
    Py.contains hash line = false ->
    find_extra_semicolon line = option_map Z.of_nat (first_qualifying line)
    /\ semicolon_findings line s
       = match first_qualifying line with
         | Some (S _) => [at_cursor s S003]
         | _ => []
         end.
Proof.
  intros line s Hh.
  assert (Hfind : find_extra_semicolon line
                  = option_map Z.of_nat (first_qualifying line)).
  { unfold find_extra_semicolon, first_qualifying.
    rewrite Hh, (count_of_absent hash line Hh). cbn [Z.eqb].
    pose proof (count_nonneg semicolon line) as Hn.
    change (-1) with (Z.of_nat 0 - 1).
    rewrite (semicolon_rounds_without_marker line Hh
               (Z.to_nat (Py.count semicolon line)) O);
      [rewrite Nat.sub_0_r; reflexivity | lia | cbn [Py.drop]; lia]. }
  split; [exact Hfind |].
  rewrite semicolon_findings_run, Hfind.
  destruct (first_qualifying line) as [i |] eqn:E; cbn [option_map truthy].
  - unfold first_qualifying in E. apply List.find_some in E.
    destruct E as (_ & Hq). unfold qualifies in Hq.
    destruct (String.get i line) as [c |] eqn:Hg; [| discriminate].
    destruct (Ascii.eqb c ";") eqn:Ec; [| discriminate].
    apply Ascii.eqb_eq in Ec. subst c.
    rewrite (get_contains semicolon line i Hg). cbn [andb].
    destruct i as [| i]; [reflexivity |].
    replace (Z.of_nat (S i) =? 0) with false
      by (symmetry; apply Z.eqb_neq; lia).
    reflexivity.
  - rewrite andb_false_r. reflexivity.
Qed.




End SemicolonSearch.

Section SemicolonSearchRuns.

Import Sample Claimed.

Lemma semicolon_search_without_marker_witness :
  find_extra_semicolon "a = 'b;c'; d = 1;"
  = option_map Z.of_nat (first_qualifying "a = 'b;c'; d = 1;")
  /\ semicolon_findings "a = 'b;c'; d = 1;" init
     = match first_qualifying "a = 'b;c'; d = 1;" with
       | Some (S _) => [at_cursor init S003]
       | _ => []
       end.
Proof.
  apply (semicolon_search_without_marker "a = 'b;c'; d = 1;" init).
  reflexivity.
Defined.


End SemicolonSearchRuns.
